(** * Lightning-strike normalisation and Singapore geocoding

    A shallow embedding of [src/lightning_service.py] and
    [src/singapore_geocoder.py], and the properties of the response
    normaliser, the bounds tally, the query classifier and the batch runner
    that the specification states about them; then further properties of
    the same code: the outcomes and invariants of the normaliser, the
    fetched summary, postal codes, lookups and their requests, the sample
    table, the pace of a batch and the two bounding boxes.

    Conventions of the embedding.
    - A Python [str] is a [string]: the sequence of its code points, taken
      below 256 (one [ascii] per code point, Latin-1). The tests by which
      [geocode] picks a method are embedded a second time over texts of
      any code points ([Unicode]), where [\d] takes more than [0-9].
    - A Python [float] is an IEEE-754 binary64 value, a [spec_float] in
      canonical form at precision 53 and maximal exponent 1024; decimal
      text is rounded to the nearest float, ties to even, as CPython does.
    - A Python [dict] with string keys is a [gmap string _]; where the code
      builds a dictionary with a fixed set of keys it is a record.
    - A value whose type the code does not fix (a JSON leaf, a decoded
      OneMap body, a query handed to the geocoder) is a [pyval].
    - An exception is a value of [exn]; code that may raise returns [exc].
      Log lines and progress messages are left out, except for the tally
      [extract_coordinates] logs.
    - The geocoder runs in the [io] monad over a history of requests and
      pauses; the network, the clock and [time.sleep] are an [Env.t]. The
      lightning service threads the history of its own requests; its
      endpoint and its clock are a [Weather.t]. *)

From Stdlib Require Import ZArith List String Ascii Bool Lia.
From Stdlib Require Import Floats.SpecFloat.
From Stdlib Require Import Structures.OrderedTypeEx.
From stdpp Require Import gmap strings.

Import ListNotations.
Local Open Scope string_scope.
Local Open Scope Z_scope.
Local Open Scope list_scope.

Set Warnings "-register-all".

(** ** Python values *)

Abbreviation float := spec_float.

Inductive pyval : Type :=
| PyNone
| PyBool (b : bool)
| PyInt (z : Z)
| PyFloat (f : float)
| PyStr (s : string)
| PyList (l : list pyval)
| PyDict (d : gmap string pyval).

Inductive exn : Type :=
| ValueError
| TypeError
| OverflowError
| AttributeError.

Inductive exc (A : Type) : Type :=
| Ok (a : A)
| Raise (e : exn).
Arguments Ok {A} a.
Arguments Raise {A} e.

Definition exc_bind {A B} (m : exc A) (k : A -> exc B) : exc B :=
  match m with
  | Ok a => k a
  | Raise e => Raise e
  end.

Declare Scope exc_scope.
Delimit Scope exc_scope with exc.
Notation "'let*' x := m 'in' k" := (exc_bind m (fun x => k))
  (at level 10, x pattern, k at level 200) : exc_scope.

(** [bool(v)]: the truth value of a Python object. *)
Definition is_zero_float (f : float) : bool :=
  match f with
  | S754_zero _ => true
  | _ => false
  end.

Definition truthy (v : pyval) : bool :=
  match v with
  | PyNone => false
  | PyBool b => b
  | PyInt z => negb (z =? 0)
  | PyFloat f => negb (is_zero_float f)
  | PyStr s => negb (String.eqb s "")
  | PyList l => match l with [] => false | _ => true end
  | PyDict d => negb (bool_decide (d = ∅))
  end.

(** [d.get(key, default)] on a dictionary. *)
Definition dict_get (d : gmap string pyval) (key : string) (dflt : pyval) : pyval :=
  match d !! key with
  | Some v => v
  | None => dflt
  end.

(** ** Characters and strings *)

Module Char.

Definition code (c : ascii) : N := N_of_ascii c.

Definition in_range (lo hi : N) (c : ascii) : bool :=
  ((lo <=? code c) && (code c <=? hi))%N.

(** [0-9], which is also [\d] and [str.isdecimal] below code point 256. *)
Definition is_digit (c : ascii) : bool := in_range 48 57 c.

(** [Py_ISSPACE]: the C-locale white space the float parser strips. *)
Definition is_c_space (c : ascii) : bool :=
  in_range 9 13 c || (code c =? 32)%N.

(** [Py_UNICODE_ISSPACE] below 256: what [str.strip()] removes. *)
Definition is_space (c : ascii) : bool :=
  in_range 9 13 c || in_range 28 32 c || (code c =? 133)%N || (code c =? 160)%N.

(** [str.isdigit] below 256: the decimal digits and the superscripts
    two, three and one. *)
Definition is_py_digit (c : ascii) : bool :=
  is_digit c || (code c =? 178)%N || (code c =? 179)%N || (code c =? 185)%N.

(** [\w] of the [re] module on [str] patterns, below 256: alphanumeric
    code points and the underscore. *)
Definition is_word (c : ascii) : bool :=
  is_digit c || in_range 65 90 c || in_range 97 122 c || (code c =? 95)%N
  || (code c =? 170)%N || (code c =? 178)%N || (code c =? 179)%N
  || (code c =? 181)%N || (code c =? 185)%N || (code c =? 186)%N
  || in_range 188 190 c || in_range 192 214 c || in_range 216 246 c
  || in_range 248 255 c.

Definition digit_value (c : ascii) : Z := Z.of_N (code c) - 48.

(** [Py_TOLOWER] *)
Definition to_lower (c : ascii) : ascii :=
  if in_range 65 90 c then ascii_of_N (code c + 32) else c.

End Char.

Definition chars (s : string) : list ascii := list_ascii_of_string s.
Definition of_chars (l : list ascii) : string := string_of_list_ascii l.

Fixpoint drop_while {A} (p : A -> bool) (l : list A) : list A :=
  match l with
  | [] => []
  | x :: l' => if p x then drop_while p l' else l
  end.

Fixpoint take_while {A} (p : A -> bool) (l : list A) : list A :=
  match l with
  | [] => []
  | x :: l' => if p x then x :: take_while p l' else []
  end.

Definition strip_with (p : ascii -> bool) (l : list ascii) : list ascii :=
  rev (drop_while p (rev (drop_while p l))).

(** [s.strip()] *)
Definition strip (s : string) : string :=
  of_chars (strip_with Char.is_space (chars s)).

(** ** Floats *)

Module Float.

Definition prec : Z := 53.
Definition emax : Z := 1024.

Definition zero : float := S754_zero false.

(** The binary64 value nearest to the integer [z] (ties to even), an
    infinity when [z] is out of range. *)
Definition round_Z (z : Z) : float :=
  match z with
  | Z0 => zero
  | _ => binary_normalize prec emax z 0 false
  end.

(** The binary64 value nearest to [(-1)^neg * m * 10^e]. *)
Definition of_decimal (neg : bool) (m : Z) (e : Z) : float :=
  match m with
  | Zpos p =>
      if 0 <=? e then
        binary_normalize prec emax (if neg then - (m * 10 ^ e) else m * 10 ^ e) 0 false
      else
        SFdiv prec emax (S754_finite neg p 0)
              (S754_finite false (Z.to_pos (10 ^ (- e))) 0)
  | _ => S754_zero neg
  end.

Definition is_infinity (f : float) : bool :=
  match f with
  | S754_infinity _ => true
  | _ => false
  end.

(** [x <= y] on floats; false when either side is a NaN. *)
Definition leb (x y : float) : bool := SFleb x y.

(** *** [float(str)]

    The grammar CPython accepts: surrounding white space, single
    underscores between digits, an optional sign, then either a decimal
    number with an optional exponent, or one of [inf], [infinity], [nan]
    in any letter case. *)

(** Code points 133 and 160 count as blanks; any other code point from
    127 on is left in place and is refused by the grammar below. *)
Definition to_ascii_space (c : ascii) : ascii :=
  if ((Char.code c =? 133) || (Char.code c =? 160))%N then " "%char else c.

(** The underscore pass: an underscore needs a digit before and after it. *)
Fixpoint remove_underscores (prev : option ascii) (l : list ascii)
  : option (list ascii) :=
  match l with
  | [] =>
      match prev with
      | Some "_"%char => None
      | _ => Some []
      end
  | c :: l' =>
      if Ascii.eqb c "_" then
        match prev with
        | Some p =>
            if Char.is_digit p then remove_underscores (Some c) l' else None
        | None => None
        end
      else
        match prev with
        | Some "_"%char =>
            if Char.is_digit c
            then option_map (cons c) (remove_underscores (Some c) l')
            else None
        | _ => option_map (cons c) (remove_underscores (Some c) l')
        end
  end.

Definition split_sign (l : list ascii) : bool * list ascii :=
  match l with
  | "-"%char :: l' => (true, l')
  | "+"%char :: l' => (false, l')
  | _ => (false, l)
  end.

Definition digits_value (ds : list ascii) : Z :=
  fold_left (fun acc c => 10 * acc + Char.digit_value c) ds 0.

Definition span_digits (l : list ascii) : list ascii * list ascii :=
  (take_while Char.is_digit l, drop_while Char.is_digit l).

Definition is_nil {A} (l : list A) : bool :=
  match l with [] => true | _ => false end.

(** [digits [. digits] [(e|E) [sign] digits]], with a digit on at least
    one side of the point; the result is mantissa and decimal exponent. *)
Definition parse_decimal (l : list ascii) : option (Z * Z) :=
  let '(ip, r1) := span_digits l in
  let '(fp, r2) :=
    match r1 with
    | "."%char :: r => span_digits r
    | _ => ([], r1)
    end in
  if is_nil ip && is_nil fp then None
  else
    let m := digits_value (ip ++ fp) in
    let scale := - Z.of_nat (length fp) in
    match r2 with
    | [] => Some (m, scale)
    | c :: r3 =>
        if Ascii.eqb (Char.to_lower c) "e" then
          let '(eneg, r4) := split_sign r3 in
          let '(ed, r5) := span_digits r4 in
          if is_nil ed || negb (is_nil r5) then None
          else
            let ev := digits_value ed in
            Some (m, (if eneg then - ev else ev) + scale)
        else None
    end.

Definition parse_inf_or_nan (neg : bool) (l : list ascii) : option float :=
  let low := of_chars (map Char.to_lower l) in
  if String.eqb low "inf" || String.eqb low "infinity" then Some (S754_infinity neg)
  else if String.eqb low "nan" then Some S754_nan
  else None.

Definition of_string (s : string) : option float :=
  match remove_underscores None (map to_ascii_space (chars s)) with
  | None => None
  | Some l =>
      let '(neg, body) := split_sign (strip_with Char.is_c_space l) in
      match parse_decimal body with
      | Some (m, e) => Some (of_decimal neg m e)
      | None => parse_inf_or_nan neg body
      end
  end.

(** A float literal of the source text, e.g. [1.16]. *)
Definition lit (s : string) : float :=
  match of_string s with
  | Some f => f
  | None => S754_nan
  end.

End Float.

(** [float(v)]: strings are parsed, numbers converted, anything else is a
    [TypeError]; an integer beyond the binary64 range is an
    [OverflowError]. *)
Definition py_float (v : pyval) : exc float :=
  match v with
  | PyFloat f => Ok f
  | PyInt z =>
      let f := Float.round_Z z in
      if Float.is_infinity f then Raise OverflowError else Ok f
  | PyBool b => Ok (Float.round_Z (if b then 1 else 0))
  | PyStr s =>
      match Float.of_string s with
      | Some f => Ok f
      | None => Raise ValueError
      end
  | PyNone | PyList _ | PyDict _ => Raise TypeError
  end.

(** [try: body except (ValueError, TypeError): handler]: the two
    exceptions the parsers catch are turned into [None]; any other
    exception goes on to the caller. *)
Definition except_value_type {A} (body : exc A) : exc (option A) :=
  match body with
  | Ok a => Ok (Some a)
  | Raise ValueError | Raise TypeError => Ok None
  | Raise e => Raise e
  end.

(** [min(l)] and [max(l)] on a list of strings: code-point order, the
    first extremal element; [None] stands for the empty list, on which the
    builtins are not called here. *)
Definition py_min (l : list string) : option string :=
  match l with
  | [] => None
  | x :: l' => Some (fold_left (fun best y => if String.ltb y best then y else best) l' x)
  end.

Definition py_max (l : list string) : option string :=
  match l with
  | [] => None
  | x :: l' => Some (fold_left (fun best y => if String.ltb best y then y else best) l' x)
  end.

(** ** The weather payload (RawObservationBatch)

    The dictionaries and lists of the payload are typed as the endpoint
    documents them and as the parser traverses them; a key that may be
    missing is an [option] ([None]: the key is absent, so that [.get]
    yields its default). The leaves the parser coerces or copies are
    [pyval]s. *)

Module Reading.
Record t := mk {
  location : option (gmap string pyval);
  type : option pyval;
  text : option pyval;
  datetime : option pyval
}.
End Reading.

Module Item.
Record t := mk {
  isStationData : option pyval;
  type : option pyval;
  readings : option (list Reading.t)
}.
Definition empty : t := mk None None None.
End Item.

(** One TimePeriodRecord. [datetime = None] is a missing or null
    time stamp. *)
Module Period.
Record t := mk {
  datetime : option string;
  updatedTimestamp : option pyval;
  item : option Item.t
}.
End Period.

Module Data.
Record t := mk {
  paginationToken : option pyval;
  records : option (list Period.t)
}.
Definition empty : t := mk None None.
End Data.

Module Response.
Record t := mk {
  code : option Z;
  errorMsg : option pyval;
  data : option Data.t
}.
End Response.

(** ** The parsed summary (ParsedSummary) *)

(** [reading_data] and [coord_data]: one normalised strike. *)
Module Strike.
Record t := mk {
  latitude : float;
  longitude : float;
  type : pyval;
  description : pyval;
  datetime : pyval;
  record_datetime : option string
}.
End Strike.

(** [record_data] *)
Module RecordData.
Record t := mk {
  datetime : option string;
  updated_timestamp : pyval;
  is_station_data : pyval;
  observation_type : pyval;
  readings_count : nat;
  readings : list Strike.t
}.
End RecordData.

Module TimeRange.
Record t := mk {
  earliest : option string;
  latest : option string
}.
End TimeRange.

(** [parsed_data] *)
Module ParsedData.
Record t := mk {
  timestamp : string;
  api_status : Z;
  error_message : pyval;
  pagination_token : pyval;
  records : list RecordData.t;
  total_strikes : nat;
  records_with_lightning : nat;
  time_range : TimeRange.t
}.
End ParsedData.

Module Bounds.
Record t := mk {
  lat_min : float;
  lat_max : float;
  lon_min : float;
  lon_max : float;
  center_lat : float;
  center_lon : float
}.

(** [lat_min <= latitude <= lat_max and lon_min <= longitude <= lon_max] *)
Definition contains (b : t) (latitude longitude : float) : bool :=
  Float.leb (lat_min b) latitude && Float.leb latitude (lat_max b)
  && (Float.leb (lon_min b) longitude && Float.leb longitude (lon_max b)).
End Bounds.

(** ** [class LightningService] *)

Module LightningService.

Local Open Scope exc_scope.

(** [self.singapore_bounds] *)
Definition singapore_bounds : Bounds.t :=
  {| Bounds.lat_min := Float.lit "0.95";
     Bounds.lat_max := Float.lit "1.75";
     Bounds.lon_min := Float.lit "103.27";
     Bounds.lon_max := Float.lit "104.52";
     Bounds.center_lat := Float.lit "1.3521";
     Bounds.center_lon := Float.lit "103.8198" |}.

(** The [try] block of the reading loop: both coordinates, or [None]
    when the [except] clause is taken. *)
Definition coerce_coordinates (location : gmap string pyval)
  : exc (option (float * float)) :=
  except_value_type
    (let* latitude := py_float (dict_get location "latitude" (PyInt 0)) in
     let* longitude := py_float (dict_get location "longitude" (PyInt 0)) in
     Ok (latitude, longitude)).

(** [for reading in readings: ...], on the two objects the body updates:
    [record_data['readings']] and [parsed_data['total_strikes']]. *)
Fixpoint process_readings (record_datetime : option string)
    (readings : list Reading.t)
    (record_readings : list Strike.t) (total_strikes : nat)
  : exc (list Strike.t * nat) :=
  match readings with
  | [] => Ok (record_readings, total_strikes)
  | reading :: rest =>
      let location := default ∅ (Reading.location reading) in
      let* coordinates := coerce_coordinates location in
      match coordinates with
      | None => process_readings record_datetime rest record_readings total_strikes
      | Some (latitude, longitude) =>
          let reading_data :=
            {| Strike.latitude := latitude;
               Strike.longitude := longitude;
               Strike.type := default (PyStr "Unknown") (Reading.type reading);
               Strike.description := default (PyStr "Unknown") (Reading.text reading);
               Strike.datetime := default PyNone (Reading.datetime reading);
               Strike.record_datetime := record_datetime |} in
          process_readings record_datetime rest
            (record_readings ++ [reading_data]) (S total_strikes)
      end
  end.

(** What the loop over the time periods updates. *)
Record loop_state := mk_state {
  st_records : list RecordData.t;
  st_total_strikes : nat;
  st_records_with_lightning : nat;
  all_datetimes : list string
}.

(** The body of [for record in records:]. *)
Definition process_record (st : loop_state) (record : Period.t) : exc loop_state :=
  let record_datetime := Period.datetime record in
  let updated_timestamp := default PyNone (Period.updatedTimestamp record) in
  let all_datetimes :=
    match record_datetime with
    | Some s => if truthy (PyStr s) then all_datetimes st ++ [s] else all_datetimes st
    | None => all_datetimes st
    end in
  let item := default Item.empty (Period.item record) in
  let is_station_data := default (PyBool false) (Item.isStationData item) in
  let observation_type := default (PyStr "unknown") (Item.type item) in
  let readings := default [] (Item.readings item) in
  let record_data (parsed : list Strike.t) :=
    {| RecordData.datetime := record_datetime;
       RecordData.updated_timestamp := updated_timestamp;
       RecordData.is_station_data := is_station_data;
       RecordData.observation_type := observation_type;
       RecordData.readings_count := length readings;
       RecordData.readings := parsed |} in
  match readings with
  | _ :: _ =>
      let records_with_lightning := S (st_records_with_lightning st) in
      let* (parsed, total_strikes) :=
        process_readings record_datetime readings [] (st_total_strikes st) in
      Ok {| st_records := st_records st ++ [record_data parsed];
            st_total_strikes := total_strikes;
            st_records_with_lightning := records_with_lightning;
            all_datetimes := all_datetimes |}
  | [] =>
      Ok {| st_records := st_records st ++ [record_data []];
            st_total_strikes := st_total_strikes st;
            st_records_with_lightning := st_records_with_lightning st;
            all_datetimes := all_datetimes |}
  end.

Fixpoint process_records (records : list Period.t) (st : loop_state)
  : exc loop_state :=
  match records with
  | [] => Ok st
  | record :: rest =>
      let* st' := process_record st record in
      process_records rest st'
  end.

Section Parse.

(** [datetime.now().isoformat()] at the time of the call. *)
Variable now : string.

(** [parse_lightning_response(api_response)]; [None] as argument is
    Python's [None], and an empty dictionary is a response without
    ['code']. *)
Definition parse_lightning_response (api_response : option Response.t)
  : exc (option ParsedData.t) :=
  match api_response with
  | None => Ok None
  | Some response =>
      match Response.code response with
      | Some 0 =>
          let data_section := default Data.empty (Response.data response) in
          let records := default [] (Data.records data_section) in
          let* st := process_records records (mk_state [] 0 0 []) in
          let time_range :=
            match all_datetimes st with
            | _ :: _ =>
                {| TimeRange.earliest := py_min (all_datetimes st);
                   TimeRange.latest := py_max (all_datetimes st) |}
            | [] => TimeRange.mk None None
            end in
          Ok (Some
            {| ParsedData.timestamp := now;
               ParsedData.api_status := 0;
               ParsedData.error_message :=
                 default (PyStr "") (Response.errorMsg response);
               ParsedData.pagination_token :=
                 default PyNone (Data.paginationToken data_section);
               ParsedData.records := st_records st;
               ParsedData.total_strikes := st_total_strikes st;
               ParsedData.records_with_lightning := st_records_with_lightning st;
               ParsedData.time_range := time_range |})
      | _ => Ok None
      end
  end.

End Parse.

(** The first loop of [extract_coordinates]: one [coord_data] per
    reading of every record, appended in order. *)
Definition coord_data (record_time : option string) (reading : Strike.t) : Strike.t :=
  {| Strike.latitude := Strike.latitude reading;
     Strike.longitude := Strike.longitude reading;
     Strike.type := Strike.type reading;
     Strike.description := Strike.description reading;
     Strike.datetime := Strike.datetime reading;
     Strike.record_datetime := record_time |}.

Definition collect_record (coordinates_list : list Strike.t) (record : RecordData.t)
  : list Strike.t :=
  let record_time := RecordData.datetime record in
  fold_left (fun acc reading => acc ++ [coord_data record_time reading])
            (RecordData.readings record) coordinates_list.

(** The second loop: [valid_count], the number of points inside
    [bounds]. *)
Definition count_within (bounds : Bounds.t) (coordinates_list : list Strike.t) : nat :=
  fold_left
    (fun valid_count coord =>
       if Bounds.contains bounds (Strike.latitude coord) (Strike.longitude coord)
       then S valid_count else valid_count)
    coordinates_list 0%nat.

(** [extract_coordinates(parsed_data)] together with the tally it logs:
    [Some valid_count] when the summary lines are written, [None] when
    the list is empty. *)
Definition extract_coordinates_logged (bounds : Bounds.t)
    (parsed_data : option ParsedData.t) : list Strike.t * option nat :=
  match parsed_data with
  | None => ([], None)
  | Some parsed =>
      match ParsedData.records parsed with
      | [] => ([], None)
      | records =>
          let coordinates_list := fold_left collect_record records [] in
          match coordinates_list with
          | [] => (coordinates_list, None)
          | _ => (coordinates_list, Some (count_within bounds coordinates_list))
          end
      end
  end.

Definition extract_coordinates (parsed_data : option ParsedData.t) : list Strike.t :=
  fst (extract_coordinates_logged singapore_bounds parsed_data).

End LightningService.

(** ** Regular expressions of the geocoder *)

(** [re.sub(r'[^0-9]', '', s)] *)
Definition digits_only (s : string) : string :=
  of_chars (List.filter Char.is_digit (chars s)).

(** [POSTAL_CODE_REGEX.match(s)] for [^\d{6}$]: six digits, then the end
    of the string or a final line feed. *)
Definition match_postal_code_regex (s : string) : bool :=
  let l := chars s in
  forallb Char.is_digit (firstn 6 l) && (length (firstn 6 l) =? 6)%nat
  && match skipn 6 l with
     | [] => true
     | [c] => (Char.code c =? 10)%N
     | _ => false
     end.

(** [\b] between two neighbours, a missing neighbour being no word
    character. *)
Definition word_boundary (before after : option ascii) : bool :=
  xorb (from_option Char.is_word false before) (from_option Char.is_word false after).

(** [\b(\d{6})\b] tried at the head of [l], [before] being the character in
    front of it. *)
Definition postal_run_here (before : option ascii) (l : list ascii)
  : option (list ascii) :=
  let run := firstn 6 l in
  if word_boundary before (head l)
     && forallb Char.is_digit run && (length run =? 6)%nat
     && word_boundary (nth_error run 5) (head (skipn 6 l))
  then Some run else None.

Fixpoint search_postal_run (before : option ascii) (l : list ascii)
  : option (list ascii) :=
  match postal_run_here before l with
  | Some run => Some run
  | None =>
      match l with
      | [] => None
      | c :: l' => search_postal_run (Some c) l'
      end
  end.

(** [re.search(r'\b(\d{6})\b', s)], giving [group(1)] of the leftmost match. *)
Definition re_search_postal (s : string) : option string :=
  option_map of_chars (search_postal_run None (chars s)).

(** ** The outside world of the geocoder

    Calls to OneMap and pauses are recorded, in order, in a history; what
    the network answers may depend on everything that happened before. *)

Inductive event : Type :=
| HttpGet (searchVal : string)
| Sleep (delay : float).

Inductive http_outcome : Type :=
| RequestRaises                                     (* [requests.get] raises *)
| HttpResponse (status_code : Z) (json : option pyval).
                                  (* [json = None]: [response.json()] raises *)

Module Env.
Record t := mk {
  (** [requests.get(ONEMAP_BASE_URL, params={'searchVal': q, ...})] *)
  requests_get : list event -> string -> http_outcome;
  (** [datetime.now().isoformat()] *)
  now : list event -> string;
  (** [time.sleep(delay)]: [Some e] when the call raises [e], as it does
      for a negative delay *)
  sleep_raises : float -> option exn
}.
End Env.

Definition io (A : Type) : Type := list event -> exc A * list event.

Definition io_ret {A} (a : A) : io A := fun h => (Ok a, h).

Definition io_bind {A B} (m : io A) (k : A -> io B) : io B :=
  fun h =>
    match m h with
    | (Ok a, h') => k a h'
    | (Raise e, h') => (Raise e, h')
    end.

Definition io_lift {A} (m : exc A) : io A := fun h => (m, h).

Declare Scope io_scope.
Delimit Scope io_scope with io.
Notation "'let*' x := m 'in' k" := (io_bind m (fun x => k))
  (at level 10, x pattern, k at level 200) : io_scope.

(** ** GeoResult *)

(** The text stored under ['error']; the one formatted message keeps its
    argument: [f"Invalid postal code format: '{postal_code}'"]. *)
Inductive error_text : Type :=
| Text (s : string)
| InvalidPostalCodeFormat (postal_code : pyval).

Module GeoResult.
Record t := mk {
  query : pyval;
  query_type : string;
  success : bool;
  latitude : option float;
  longitude : option float;
  address : pyval;
  building : pyval;
  road : pyval;
  postal_code : option string;
  error : option error_text;
  timestamp : string
}.

Definition set_error (e : error_text) (r : t) : t :=
  mk (query r) (query_type r) (success r) (latitude r) (longitude r)
     (address r) (building r) (road r) (postal_code r) (Some e) (timestamp r).

Definition set_postal_code (p : option string) (r : t) : t :=
  mk (query r) (query_type r) (success r) (latitude r) (longitude r)
     (address r) (building r) (road r) p (error r) (timestamp r).

(** [result['success'] = True], the coordinates and the three address
    fields, as the success branches assign them. *)
Definition set_found (coordinates : float * float) (a b rd : pyval) (r : t) : t :=
  mk (query r) (query_type r) true (Some (fst coordinates)) (Some (snd coordinates))
     a b rd (postal_code r) (error r) (timestamp r).
End GeoResult.

(** ** [class SingaporeGeocoder] *)

Module SingaporeGeocoder.

Definition SINGAPORE_BOUNDS : Bounds.t :=
  {| Bounds.lat_min := Float.lit "1.16";
     Bounds.lat_max := Float.lit "1.48";
     Bounds.lon_min := Float.lit "103.59";
     Bounds.lon_max := Float.lit "104.04";
     Bounds.center_lat := Float.lit "1.3521";
     Bounds.center_lon := Float.lit "103.8198" |}.

Definition sample_entry (a b r lat lon : string) : pyval :=
  PyDict (list_to_map
    [("ADDRESS", PyStr a); ("BUILDING", PyStr b); ("ROAD", PyStr r);
     ("LATITUDE", PyStr lat); ("LONGITUDE", PyStr lon)]).

Definition SAMPLE_GEOCODING_DATA : gmap string pyval :=
  list_to_map
    [("238874", sample_entry "ION Orchard, 2 Orchard Turn, Singapore 238874"
                  "ION Orchard" "Orchard Turn" "1.304167" "103.833611");
     ("018989", sample_entry "Marina Bay Sands, 10 Bayfront Avenue, Singapore 018989"
                  "Marina Bay Sands" "Bayfront Avenue" "1.283611" "103.859722");
     ("018956", sample_entry "Gardens by the Bay, 18 Marina Gardens Drive, Singapore 018956"
                  "Gardens by the Bay" "Marina Gardens Drive" "1.281528" "103.865556");
     ("079903", sample_entry "Singapore Zoo, 80 Mandai Lake Road, Singapore 079903"
                  "Singapore Zoo" "Mandai Lake Road" "1.403611" "103.791944");
     ("099253", sample_entry "Sentosa, 39 Artillery Avenue, Singapore 099253"
                  "Sentosa" "Artillery Avenue" "1.246389" "103.822778")].

(** [validate_postal_code(postal_code)] *)
Definition validate_postal_code (postal_code : pyval) : bool :=
  match postal_code with
  | PyStr s =>
      if negb (truthy postal_code) then false
      else
        let cleaned := digits_only (strip s) in
        match_postal_code_regex cleaned
  | _ => false
  end.

(** [clean_postal_code(postal_code)] *)
Definition clean_postal_code (postal_code : pyval) : option string :=
  match postal_code with
  | PyStr s =>
      if negb (truthy postal_code) then None
      else
        let cleaned := digits_only (strip s) in
        if (String.length cleaned =? 6)%nat
           && (forallb Char.is_py_digit (chars cleaned) && negb (String.eqb cleaned ""))
        then Some cleaned else None
  | _ => None
  end.

(** [found > 0]; [None] is the [TypeError] of an unordered comparison. *)
Definition greater_than_zero (found : pyval) : option bool :=
  match found with
  | PyInt z => Some (0 <? z)
  | PyBool b => Some b
  | PyFloat f => Some (SFltb Float.zero f)
  | _ => None
  end.

(** [results[0]]; [None] when the subscript raises. *)
Definition first_item (results : pyval) : option pyval :=
  match results with
  | PyList (r :: _) => Some r
  | PyStr (String c _) => Some (PyStr (String c ""))
  | _ => None
  end.

(** What the [try] block of [_make_api_call] returns for a decoded body;
    every exception inside it is caught and gives [None]. *)
Definition first_result (data : pyval) : pyval :=
  match data with
  | PyDict d =>
      let found := dict_get d "found" (PyInt 0) in
      match greater_than_zero found with
      | Some true =>
          let results := dict_get d "results" (PyList []) in
          if truthy results then default PyNone (first_item results) else PyNone
      | _ => PyNone
      end
  | _ => PyNone
  end.

(** [_extract_coordinates(geocoding_result)]: [.get] on something that is
    no dictionary is an [AttributeError], which the [except] clause does
    not list. *)
Definition _extract_coordinates (geocoding_result : pyval)
  : exc (option (float * float)) :=
  match geocoding_result with
  | PyDict d =>
      let* parsed :=
        except_value_type
          (let* latitude := py_float (dict_get d "LATITUDE" (PyInt 0)) in
           let* longitude := py_float (dict_get d "LONGITUDE" (PyInt 0)) in
           Ok (latitude, longitude)) in
      match parsed with
      | Some (latitude, longitude) =>
          if Bounds.contains SINGAPORE_BOUNDS latitude longitude
          then Ok (Some (latitude, longitude)) else Ok None
      | None => Ok None
      end
  | _ => Raise AttributeError
  end%exc.

(** [is_valid_singapore_coordinates(latitude, longitude)] *)
Definition is_valid_singapore_coordinates (latitude longitude : float) : bool :=
  Bounds.contains SINGAPORE_BOUNDS latitude longitude.

(** [geocoding_result.get(key, '')] in the success branches. *)
Definition result_field (geocoding_result : pyval) (key : string) : pyval :=
  match geocoding_result with
  | PyDict d => dict_get d key (PyStr "")
  | _ => PyNone
  end.

(** [re.search(pattern, result['address'])]: a [TypeError] unless the
    address is a string. *)
Definition postal_code_of_address (address : pyval) : exc (option string) :=
  match address with
  | PyStr s => Ok (re_search_postal s)
  | _ => Raise TypeError
  end.

Section WithEnv.

Variable env : Env.t.

Local Open Scope io_scope.

Definition http_get (searchVal : string) : io http_outcome :=
  fun h => (Ok (Env.requests_get env h searchVal), h ++ [HttpGet searchVal]).

Definition time_sleep (delay : float) : io unit :=
  fun h =>
    match Env.sleep_raises env delay with
    | Some e => (Raise e, h)
    | None => (Ok tt, h ++ [Sleep delay])
    end.

(** [_make_api_call(query)] *)
Definition _make_api_call (query : string) : io pyval :=
  let cleaned_query := strip query in
  match SAMPLE_GEOCODING_DATA !! cleaned_query with
  | Some entry => io_ret entry
  | None =>
      let* outcome := http_get cleaned_query in
      match outcome with
      | HttpResponse 200 (Some data) => io_ret (first_result data)
      | _ => io_ret PyNone
      end
  end.

(** [_create_result_dict(query, query_type)] *)
Definition _create_result_dict (query : pyval) (query_type : string)
  : io GeoResult.t :=
  fun h =>
    (Ok {| GeoResult.query := query;
           GeoResult.query_type := query_type;
           GeoResult.success := false;
           GeoResult.latitude := None;
           GeoResult.longitude := None;
           GeoResult.address := PyNone;
           GeoResult.building := PyNone;
           GeoResult.road := PyNone;
           GeoResult.postal_code := None;
           GeoResult.error := None;
           GeoResult.timestamp := Env.now env h |}, h).

(** The part the three geocoding methods share, from the call to the
    API to the returned dictionary; [with_postal] says whether the
    returned address is scanned for a postal code, and [not_found] is
    the method's own message. *)
Definition lookup (searchVal : string) (with_postal : bool)
    (not_found : string) (result : GeoResult.t) : io GeoResult.t :=
  let* geocoding_result := _make_api_call searchVal in
  if truthy geocoding_result then
    let* coordinates := io_lift (_extract_coordinates geocoding_result) in
    match coordinates with
    | Some c =>
        let result :=
          GeoResult.set_found c
            (result_field geocoding_result "ADDRESS")
            (result_field geocoding_result "BUILDING")
            (result_field geocoding_result "ROAD") result in
        if with_postal then
          let* postal_match :=
            io_lift (postal_code_of_address (GeoResult.address result)) in
          match postal_match with
          | Some code => io_ret (GeoResult.set_postal_code (Some code) result)
          | None => io_ret result
          end
        else io_ret result
    | None =>
        io_ret (GeoResult.set_error (Text "Failed to extract valid coordinates") result)
    end
  else io_ret (GeoResult.set_error (Text not_found) result).

(** [geocode_postal_code(postal_code)] *)
Definition geocode_postal_code (postal_code : pyval) : io GeoResult.t :=
  let* result := _create_result_dict postal_code "postal_code" in
  match clean_postal_code postal_code with
  | None =>
      io_ret (GeoResult.set_error (InvalidPostalCodeFormat postal_code) result)
  | Some cleaned_code =>
      let result := GeoResult.set_postal_code (Some cleaned_code) result in
      lookup cleaned_code false "Postal code not found in OneMap database" result
  end.

(** [not s or not isinstance(s, str) or not s.strip()] *)
Definition empty_or_non_string (v : pyval) : bool :=
  negb (truthy v)
  || match v with
     | PyStr s => negb (truthy (PyStr (strip s)))
     | _ => true
     end.

Definition stripped (v : pyval) : string :=
  match v with
  | PyStr s => strip s
  | _ => ""
  end.

(** [geocode_address(address)] *)
Definition geocode_address (address : pyval) : io GeoResult.t :=
  let* result := _create_result_dict address "address" in
  if empty_or_non_string address then
    io_ret (GeoResult.set_error (Text "Invalid address: empty or non-string input") result)
  else
    lookup (stripped address) true "Address not found in OneMap database" result.

(** [geocode_building(building_name)] *)
Definition geocode_building (building_name : pyval) : io GeoResult.t :=
  let* result := _create_result_dict building_name "building" in
  if empty_or_non_string building_name then
    io_ret (GeoResult.set_error
              (Text "Invalid building name: empty or non-string input") result)
  else
    lookup (stripped building_name) true "Building not found in OneMap database" result.

(** [geocode(query)] *)
Definition geocode (query : pyval) : io GeoResult.t :=
  if empty_or_non_string query then
    let* result := _create_result_dict query "unknown" in
    io_ret (GeoResult.set_error (Text "Invalid query: empty or non-string input") result)
  else
    let query := stripped query in
    if validate_postal_code (PyStr query) then geocode_postal_code (PyStr query)
    else
      match re_search_postal query with
      | Some _ => geocode_address (PyStr query)
      | None => geocode_building (PyStr query)
      end.

(** [for i, query in enumerate(queries, 1): ...], [n] being
    [len(queries)] and [results] the list built so far. *)
Fixpoint batch_loop (delay : float) (n i : nat) (queries : list pyval)
    (results : list GeoResult.t) : io (list GeoResult.t) :=
  match queries with
  | [] => io_ret results
  | query :: rest =>
      let* result := geocode query in
      let results := results ++ [result] in
      let* _ := (if (i <? n)%nat then time_sleep delay else io_ret tt) in
      batch_loop delay n (S i) rest results
  end.

(** [batch_geocode(queries, delay)]; the data frame is the list of its
    rows. *)
Definition batch_geocode (queries : list pyval) (delay : float)
  : io (list GeoResult.t) :=
  batch_loop delay (length queries) 1 queries [].

End WithEnv.

(** The statistics block that closes [batch_geocode]: [successful] and
    [failed], computed from the frame when it is not empty. They are
    printed, not returned. *)
Definition batch_statistics (df : list GeoResult.t) : option (nat * nat) :=
  match df with
  | [] => None
  | _ =>
      let successful := length (List.filter GeoResult.success df) in
      let failed := (length df - successful)%nat in
      Some (successful, failed)
  end.

End SingaporeGeocoder.

(** ** Vocabulary of the specification

    The notions the claims are phrased in, defined on the payload and not
    through the parser. *)

Module Spec.

(** The time periods of a batch and the readings of a period. *)
Definition periods (response : Response.t) : list Period.t :=
  default [] (Data.records (default Data.empty (Response.data response))).

Definition readings (period : Period.t) : list Reading.t :=
  default [] (Item.readings (default Item.empty (Period.item period))).

(** The value found for a coordinate of a reading: the entry of its
    location object, and [0] for a key that is not there. *)
Definition coordinate (key : string) (reading : Reading.t) : pyval :=
  dict_get (default ∅ (Reading.location reading)) key (PyInt 0).

Definition coerces (v : pyval) : bool :=
  match py_float v with
  | Ok _ => true
  | Raise _ => false
  end.

(** Both coordinates of the reading coerce to floats. *)
Definition coerced (reading : Reading.t) : bool :=
  coerces (coordinate "latitude" reading) && coerces (coordinate "longitude" reading).

Definition coerced_count (period : Period.t) : nat :=
  length (List.filter coerced (readings period)).

(** A value that is no number: a string outside the float grammar, or a
    value of a type [float()] does not take. *)
Definition non_numeric (v : pyval) : bool :=
  match v with
  | PyStr s => match Float.of_string s with Some _ => false | None => true end
  | PyNone | PyList _ | PyDict _ => true
  | PyBool _ | PyInt _ | PyFloat _ => false
  end.

(** The key is present in the location object and its value is no number. *)
Definition present_non_numeric (key : string) (reading : Reading.t) : bool :=
  match default ∅ (Reading.location reading) !! key with
  | Some v => non_numeric v
  | None => false
  end.

(** The strike a reading is normalised to when both coordinates coerce. *)
Definition strike_of (record_datetime : option string) (reading : Reading.t)
  : option Strike.t :=
  match py_float (coordinate "latitude" reading),
        py_float (coordinate "longitude" reading) with
  | Ok latitude, Ok longitude =>
      Some {| Strike.latitude := latitude;
              Strike.longitude := longitude;
              Strike.type := default (PyStr "Unknown") (Reading.type reading);
              Strike.description := default (PyStr "Unknown") (Reading.text reading);
              Strike.datetime := default PyNone (Reading.datetime reading);
              Strike.record_datetime := record_datetime |}
  | _, _ => None
  end.

Definition strikes_of (period : Period.t) : list Strike.t :=
  omap (strike_of (Period.datetime period)) (readings period).

(** The record a period is normalised to. *)
Definition record_of (period : Period.t) : RecordData.t :=
  let item := default Item.empty (Period.item period) in
  {| RecordData.datetime := Period.datetime period;
     RecordData.updated_timestamp := default PyNone (Period.updatedTimestamp period);
     RecordData.is_station_data := default (PyBool false) (Item.isStationData item);
     RecordData.observation_type := default (PyStr "unknown") (Item.type item);
     RecordData.readings_count := length (readings period);
     RecordData.readings := strikes_of period |}.

(** The period has at least one raw reading. *)
Definition has_readings (period : Period.t) : bool :=
  match readings period with
  | [] => false
  | _ :: _ => true
  end.

(** The period has at least one reading whose coordinates both coerce. *)
Definition has_coerced_reading (period : Period.t) : bool :=
  (0 <? coerced_count period)%nat.

(** The period time stamps that are present, and those that are present
    and not the empty string. *)
Definition stamps (response : Response.t) : list string :=
  omap Period.datetime (periods response).

Definition stamps_in (ps : list Period.t) : list string :=
  List.filter (fun s => negb (String.eqb s "")) (omap Period.datetime ps).

Definition nonempty_stamps (response : Response.t) : list string :=
  stamps_in (periods response).

Definition stamp_of (p : Period.t) : list string := stamps_in [p].

(** [m] is least, respectively greatest, in [l] for the code-point order
    of strings. *)
Definition is_string_min (m : string) (l : list string) : Prop :=
  In m l /\ forall x, In x l -> String.leb m x = true.

Definition is_string_max (m : string) (l : list string) : Prop :=
  In m l /\ forall x, In x l -> String.leb x m = true.

(** An integer beyond the range of the floats, which [float()] refuses
    with an [OverflowError]. *)
Definition out_of_range (v : pyval) : bool :=
  match v with
  | PyInt z => Float.is_infinity (Float.round_Z z)
  | _ => false
  end.

(** A reading on which a coercion raises [OverflowError]: its latitude is
    out of range, or its latitude coerces and its longitude is out of
    range. *)
Definition overflowing (reading : Reading.t) : bool :=
  out_of_range (coordinate "latitude" reading)
  || (coerces (coordinate "latitude" reading)
      && out_of_range (coordinate "longitude" reading)).

(** All the points of a summary, record after record, each under the
    time stamp of its record. *)
Definition all_points (records : list RecordData.t) : list Strike.t :=
  flat_map (fun record =>
              map (LightningService.coord_data (RecordData.datetime record))
                  (RecordData.readings record)) records.

(** The point lies in the box. *)
Definition inside (bounds : Bounds.t) (coord : Strike.t) : bool :=
  Bounds.contains bounds (Strike.latitude coord) (Strike.longitude coord).

(** *** Queries of the geocoder *)

Definition digit_count (s : string) : nat :=
  length (List.filter Char.is_digit (chars s)).

(** Six digits are left once every other character is removed. *)
Definition six_digits (s : string) : Prop := digit_count s = 6%nat.

Definition not_word (c : option ascii) : Prop :=
  from_option Char.is_word false c = false.

(** A run of exactly six digits with no word character on either side. *)
Definition standalone_run (run : list ascii) (s : string) : Prop :=
  exists pre post,
    chars s = pre ++ run ++ post
    /\ length run = 6%nat
    /\ Forall (fun c => Char.is_digit c = true) run
    /\ not_word (last pre) /\ not_word (head post).

Definition has_standalone_run (s : string) : Prop :=
  exists run, standalone_run run s.

(** The same inside a list of characters that follows the character
    [before]. *)
Definition run_in (before : option ascii) (l run : list ascii) : Prop :=
  exists pre post,
    l = pre ++ run ++ post
    /\ length run = 6%nat
    /\ Forall (fun c => Char.is_digit c = true) run
    /\ not_word (match last pre with Some c => Some c | None => before end)
    /\ not_word (head post).

(** The four ways [geocode] treats a query, and the ['query_type'] of
    each. *)
Inductive query_kind : Type := Unknown | PostalCode | Address | Building.

Definition kind_name (kind : query_kind) : string :=
  match kind with
  | Unknown => "unknown"
  | PostalCode => "postal_code"
  | Address => "address"
  | Building => "building"
  end.

(** The query holds no text: it is no string, or a string that is empty
    once its surrounding white space is removed. *)
Definition no_text (query : pyval) : Prop :=
  match query with
  | PyStr s => strip s = ""
  | _ => True
  end.

(** The classification, first match first, of the query as [geocode]
    sees it, that is stripped of surrounding white space. *)
Inductive classified : pyval -> query_kind -> Prop :=
| classified_unknown query :
    no_text query -> classified query Unknown
| classified_postal_code s :
    strip s <> "" -> six_digits (strip s) -> classified (PyStr s) PostalCode
| classified_address s :
    strip s <> "" -> ~ six_digits (strip s) -> has_standalone_run (strip s) ->
    classified (PyStr s) Address
| classified_building s :
    strip s <> "" -> ~ six_digits (strip s) -> ~ has_standalone_run (strip s) ->
    classified (PyStr s) Building.

(** The classification with [unknown] kept for the empty string and for
    values that are no strings, every other string going on to the three
    tests. *)
Inductive classified_as_stated : pyval -> query_kind -> Prop :=
| stated_unknown query :
    query = PyStr "" \/ (forall s, query <> PyStr s) ->
    classified_as_stated query Unknown
| stated_postal_code s :
    s <> "" -> six_digits s -> classified_as_stated (PyStr s) PostalCode
| stated_address s :
    s <> "" -> ~ six_digits s -> has_standalone_run s ->
    classified_as_stated (PyStr s) Address
| stated_building s :
    s <> "" -> ~ six_digits s -> ~ has_standalone_run s ->
    classified_as_stated (PyStr s) Building.

(** The ['query'] entry of the result: the query as given when it holds
    no text, and stripped otherwise. *)
Definition reported_query (query : pyval) : pyval :=
  match query with
  | PyStr s => if String.eqb (strip s) "" then query else PyStr (strip s)
  | _ => query
  end.

(** One query after the other: each is geocoded in the history the
    previous ones left, a pause follows every query but the last, and the
    results come in the order of the queries. Whether a result reports
    success plays no part. *)
Inductive sequential_run (env : Env.t) (delay : float)
  : list pyval -> list event -> list GeoResult.t -> list event -> Prop :=
| run_done h :
    sequential_run env delay [] h [] h
| run_last query h r h' :
    SingaporeGeocoder.geocode env query h = (Ok r, h') ->
    sequential_run env delay [query] h [r] h'
| run_next query queries h r h1 rs h2 :
    queries <> [] ->
    SingaporeGeocoder.geocode env query h = (Ok r, h1) ->
    Env.sleep_raises env delay = None ->
    sequential_run env delay queries (h1 ++ [Sleep delay]) rs h2 ->
    sequential_run env delay (query :: queries) h (r :: rs) h2.

(** A search result the geocoding methods work on without raising:
    nothing (a false value), or a dictionary whose coordinates are no
    integers out of the float range and whose address, when it has one, is
    a string. *)
Definition usable (geocoding_result : pyval) : bool :=
  negb (truthy geocoding_result)
  || match geocoding_result with
     | PyDict d =>
         negb (out_of_range (dict_get d "LATITUDE" (PyInt 0)))
         && negb (out_of_range (dict_get d "LONGITUDE" (PyInt 0)))
         && match dict_get d "ADDRESS" (PyStr "") with
            | PyStr _ => true
            | _ => false
            end
     | _ => false
     end.

(** A world whose OneMap answers are usable in that sense. *)
Definition conforming (env : Env.t) : Prop :=
  forall h searchVal data,
    Env.requests_get env h searchVal = HttpResponse 200 (Some data) ->
    usable (SingaporeGeocoder.first_result data) = true.

(** A dictionary as [_create_result_dict] makes it, whatever its postal
    code. *)
Definition fresh (r : GeoResult.t) : Prop :=
  GeoResult.success r = false /\ GeoResult.latitude r = None
  /\ GeoResult.longitude r = None /\ GeoResult.error r = None.

(** The GeoResult invariant: coordinates exactly on success, an error
    text exactly on failure. *)
Definition well_formed (r : GeoResult.t) : Prop :=
  (GeoResult.success r = true
   /\ GeoResult.latitude r <> None /\ GeoResult.longitude r <> None
   /\ GeoResult.error r = None)
  \/ (GeoResult.success r = false
      /\ GeoResult.error r <> None
      /\ GeoResult.latitude r = None /\ GeoResult.longitude r = None).

End Spec.

(** ** Sample payloads

    Inputs on which the properties below are evaluated. *)

Module Examples.

Definition now : string := "2024-01-15T10:35:00".

Definition location (latitude longitude : pyval) : option (gmap string pyval) :=
  Some (<["latitude" := latitude]> (<["longitude" := longitude]> ∅)).

Definition reading (latitude longitude : pyval) : Reading.t :=
  Reading.mk (location latitude longitude) (Some (PyStr "CG"))
    (Some (PyStr "Cloud-to-ground lightning")) (Some (PyStr "2024-01-15T10:00:00+08:00")).

Definition period (datetime : option string) (readings : list Reading.t) : Period.t :=
  Period.mk datetime None
    (Some (Item.mk (Some (PyBool false)) (Some (PyStr "lightning")) (Some readings))).

Definition batch (periods : list Period.t) : Response.t :=
  Response.mk (Some 0) None (Some (Data.mk None (Some periods))).

(** Two strikes in Singapore, one unreadable reading, and a quiet period. *)
Definition mixed_batch : Response.t :=
  batch
    [period (Some "2024-01-15T10:00:00+08:00")
       [reading (PyStr "1.3521") (PyStr "103.8198");
        reading (PyStr "invalid") (PyStr "103.8198");
        reading (PyStr "1.340000") (PyStr "103.830000")];
     period (Some "2024-01-15T09:30:00+08:00") []].

(** One period with two readings, the first with an unreadable latitude,
    the second with an unreadable longitude. *)
Definition invalid_only_batch : Response.t :=
  batch [period (Some "2024-01-15T10:00:00+08:00")
           [reading (PyStr "invalid") (PyStr "103.8198");
            reading (PyStr "1.3521") (PyStr "valid_coord")]].

(** A reading whose longitude is no number and whose latitude is an
    integer of 401 digits. *)
Definition huge_latitude_reading : Reading.t :=
  reading (PyInt (10 ^ 400)) (PyStr "abc").

Definition huge_latitude_batch : Response.t :=
  batch [period (Some "2024-01-15T10:00:00+08:00") [huge_latitude_reading]].

(** Readings whose location object has no ['latitude'] key. *)
Definition no_latitude_reading (longitude : pyval) : Reading.t :=
  Reading.mk (Some (<["longitude" := longitude]> ∅)) None None None.

Definition no_latitude_batch (longitude : pyval) : Response.t :=
  batch [period (Some "2024-01-15T10:00:00+08:00") [no_latitude_reading longitude]].

(** A period whose time stamp is the empty string, before a dated one. *)
Definition empty_stamp_batch : Response.t :=
  batch [period (Some "") []; period (Some "2024-01-15T10:00:00+08:00") []].

Definition three_stamps_batch : Response.t :=
  batch [period (Some "2024-01-15T10:00:00+08:00") [];
         period (Some "2024-01-15T09:30:00+08:00") [];
         period None [];
         period (Some "2024-01-15T10:30:00+08:00") []].

(** A parsed summary holding one strike in Singapore and one in New York. *)
Definition strike (latitude longitude : string) : Strike.t :=
  Strike.mk (Float.lit latitude) (Float.lit longitude) (PyStr "CG")
    (PyStr "Cloud-to-ground") (PyStr "2024-01-15T10:00:00+08:00")
    (Some "2024-01-15T10:00:00+08:00").




(** A world without network: every request raises. *)
Definition offline : Env.t :=
  Env.mk (fun _ _ => RequestRaises) (fun _ => now) (fun _ => None).

(** A world in which OneMap answers every search with one result. *)
Definition onemap_body : pyval :=
  PyDict (<["found" := PyInt 1]>
          (<["results" :=
               PyList [PyDict (list_to_map
                 [("ADDRESS", PyStr "1 HARBOURFRONT WALK VIVOCITY SINGAPORE 098585");
                  ("BUILDING", PyStr "VIVOCITY");
                  ("ROAD", PyStr "HARBOURFRONT WALK");
                  ("LATITUDE", PyStr "1.26429");
                  ("LONGITUDE", PyStr "103.82204")])]]> ∅)).

Definition online : Env.t :=
  Env.mk (fun _ _ => HttpResponse 200 (Some onemap_body)) (fun _ => now) (fun _ => None).

Definition half_second : float := Float.lit "0.5".

End Examples.

(** ** The outside world of the lightning service

    The calls to the weather endpoint are recorded, in order, in a
    history; what the endpoint answers and what the clock shows may depend
    on it. *)

Module Weather.

(** One call of [requests.get(api_base_url, params=params, ...)]: the
    ['date'] parameter, [None] when [params] holds ['api'] only. *)
Inductive request : Type :=
| Get (date : option string).

(** What a call comes to; a decoded body is typed as the payload is. *)
Inductive outcome : Type :=
| Raised                          (* [requests.get] raises a [RequestException] *)
| Answered (status_code : Z) (json : option Response.t).
                                  (* [json = None]: [response.json()] raises *)

Record t := mk {
  requests_get : list request -> option string -> outcome;
  (** [datetime.now().isoformat()] *)
  now : list request -> string
}.

End Weather.

(** The dictionary [get_lightning_summary] returns; a key that a branch
    does not set is [None]. *)
Module Summary.
Record t := mk {
  success : bool;
  error : option string;
  coordinates : list Strike.t;
  total_strikes : nat;
  records_with_lightning : option nat;
  time_range : option TimeRange.t;
  timestamp : string;
  singapore_bounds : option Bounds.t;
  raw_records_count : option nat
}.
End Summary.

(** ** [class LightningService]: fetching and summarising *)

Module LightningFeed.

(** [bool(raw_data)] on a decoded response: a dictionary is true when it
    holds a key, here one of the three keys a response is typed with. *)
Definition has_keys (response : Response.t) : bool :=
  match Response.code response, Response.errorMsg response, Response.data response with
  | None, None, None => false
  | _, _, _ => true
  end.

(** The two dictionaries returned when no summary can be made. *)
Definition failure (error timestamp : string) : Summary.t :=
  {| Summary.success := false;
     Summary.error := Some error;
     Summary.coordinates := [];
     Summary.total_strikes := 0;
     Summary.records_with_lightning := None;
     Summary.time_range := None;
     Summary.timestamp := timestamp;
     Summary.singapore_bounds := None;
     Summary.raw_records_count := None |}.

Section WithWorld.

Variable world : Weather.t.

(** [fetch_lightning_data(date_filter)]: both [except] clauses return
    [None]. *)
Definition fetch_lightning_data (date_filter : option string)
    (h : list Weather.request) : option Response.t * list Weather.request :=
  let date :=
    match date_filter with
    | Some s => if truthy (PyStr s) then Some s else None
    | None => None
    end in
  let h' := h ++ [Weather.Get date] in
  match Weather.requests_get world h date with
  | Weather.Raised => (None, h')
  | Weather.Answered status_code json =>
      if status_code =? 200 then
        match json with
        | Some data => (Some data, h')
        | None => (None, h')
        end
      else if status_code =? 400 then (None, h')
      else if status_code =? 404 then (None, h')
      else (None, h')
  end.

(** [get_lightning_summary()] *)
Definition get_lightning_summary (h : list Weather.request)
  : exc Summary.t * list Weather.request :=
  let '(raw_data, h) := fetch_lightning_data None h in
  let not_fetched :=
    (Ok (failure "Failed to fetch lightning data from API" (Weather.now world h)), h) in
  match raw_data with
  | None => not_fetched
  | Some response =>
      if negb (has_keys response) then not_fetched
      else
        match LightningService.parse_lightning_response (Weather.now world h)
                (Some response) with
        | Raise e => (Raise e, h)
        | Ok None =>
            (Ok (failure "Failed to parse lightning data" (Weather.now world h)), h)
        | Ok (Some parsed_data) =>
            let coordinates := LightningService.extract_coordinates (Some parsed_data) in
            (Ok {| Summary.success := true;
                   Summary.error := None;
                   Summary.coordinates := coordinates;
                   Summary.total_strikes := ParsedData.total_strikes parsed_data;
                   Summary.records_with_lightning :=
                     Some (ParsedData.records_with_lightning parsed_data);
                   Summary.time_range := Some (ParsedData.time_range parsed_data);
                   Summary.timestamp := ParsedData.timestamp parsed_data;
                   Summary.singapore_bounds := Some LightningService.singapore_bounds;
                   Summary.raw_records_count :=
                     Some (length (ParsedData.records parsed_data)) |}, h)
        end
  end.

End WithWorld.

End LightningFeed.

(** ** Further vocabulary *)

Module Terms.

Import Spec.

(** Some reading of the batch makes a coercion raise [OverflowError]. *)
Definition overflows (response : Response.t) : bool :=
  existsb (fun period => existsb overflowing (readings period)) (periods response).

(** The record carries a time stamp that is not the empty string. *)
Definition stamped (record : RecordData.t) : bool :=
  match RecordData.datetime record with
  | Some s => negb (String.eqb s "")
  | None => false
  end.

(** *** The geocoder and the network *)

(** The text [geocode] searches OneMap for: the digits of a postal code,
    and the stripped query otherwise. *)
Definition search_value (query : pyval) : string :=
  match query with
  | PyStr s =>
      if SingaporeGeocoder.validate_postal_code (PyStr (strip s))
      then digits_only s else strip s
  | _ => ""
  end.

Definition is_request (e : event) : bool :=
  match e with
  | HttpGet _ => true
  | Sleep _ => false
  end.

Definition requests (l : list event) : nat := length (List.filter is_request l).

Definition pauses (l : list event) : nat :=
  length (List.filter (fun e => negb (is_request e)) l).

(** No two requests follow each other without a pause in between. *)
Fixpoint paced (l : list event) : bool :=
  match l with
  | [] => true
  | e :: l' =>
      match e, l' with
      | HttpGet _, HttpGet _ :: _ => false
      | _, _ => paced l'
      end
  end.

(** A world in which OneMap gives no usable answer: every request
    raises, is refused, or comes back with a body that is no JSON. *)
Definition unreachable (env : Env.t) : Prop :=
  forall h searchVal data,
    Env.requests_get env h searchVal <> HttpResponse 200 (Some data).

(** The message of a lookup that found nothing, class by class. *)
Definition nothing_found (kind : query_kind) : string :=
  match kind with
  | Unknown => "Invalid query: empty or non-string input"
  | PostalCode => "Postal code not found in OneMap database"
  | Address => "Address not found in OneMap database"
  | Building => "Building not found in OneMap database"
  end.

(** The result of a successful lookup of [geocoding_result]: the fields
    the success branches copy from it. *)
Definition found_in (geocoding_result : pyval) (r : GeoResult.t) : Prop :=
  GeoResult.success r = true
  /\ GeoResult.error r = None
  /\ GeoResult.address r = SingaporeGeocoder.result_field geocoding_result "ADDRESS"
  /\ GeoResult.building r = SingaporeGeocoder.result_field geocoding_result "BUILDING"
  /\ GeoResult.road r = SingaporeGeocoder.result_field geocoding_result "ROAD"
  /\ exists latitude longitude,
       SingaporeGeocoder._extract_coordinates geocoding_result
       = Ok (Some (latitude, longitude))
       /\ GeoResult.latitude r = Some latitude
       /\ GeoResult.longitude r = Some longitude.

End Terms.

(** ** [class SingaporeGeocoder]: the centre of the map *)

Module GeocoderCentre.

(** [get_singapore_center()] *)
Definition get_singapore_center : float * float :=
  (Bounds.center_lat SingaporeGeocoder.SINGAPORE_BOUNDS,
   Bounds.center_lon SingaporeGeocoder.SINGAPORE_BOUNDS).

End GeocoderCentre.

(** ** Further sample inputs *)

Module Scenarios.

(** Two pages of observations and the batch that holds the periods of
    both, in order. *)
Definition first_page : Response.t := Examples.mixed_batch.

Definition second_page : Response.t := Examples.three_stamps_batch.

Definition both_pages : Response.t :=
  Examples.batch (Spec.periods first_page ++ Spec.periods second_page).

(** A world whose weather endpoint answers every call with the mixed
    batch. *)
Definition stormy : Weather.t :=
  Weather.mk (fun _ _ => Weather.Answered 200 (Some Examples.mixed_batch))
             (fun _ => Examples.now).

(** A world whose weather endpoint is down for maintenance. *)
Definition maintenance : Weather.t :=
  Weather.mk (fun _ _ => Weather.Answered 503 None) (fun _ => Examples.now).

(** The first result of the OneMap body of [Examples.online]. *)
Definition vivocity : pyval :=
  PyDict (list_to_map
    [("ADDRESS", PyStr "1 HARBOURFRONT WALK VIVOCITY SINGAPORE 098585");
     ("BUILDING", PyStr "VIVOCITY");
     ("ROAD", PyStr "HARBOURFRONT WALK");
     ("LATITUDE", PyStr "1.26429");
     ("LONGITUDE", PyStr "103.82204")]).

(** A world in which OneMap answers with a list of names where the
    results should be dictionaries. *)
Definition garbled_body : pyval :=
  PyDict (<["found" := PyInt 1]> (<["results" := PyList [PyStr "VIVOCITY"]]> ∅)).

Definition garbled : Env.t :=
  Env.mk (fun _ _ => HttpResponse 200 (Some garbled_body)) (fun _ => Examples.now)
         (fun _ => None).

End Scenarios.

(** ** [geocode] on a text of any code points

    The tests by which [geocode] picks a method, over a [str] whose code
    points are not bounded. Past code point 255 the two digit classes of
    the source part: [validate_postal_code] keeps the characters [0-9],
    while the search for a postal code inside the query takes [\d], any
    decimal digit of the Unicode database. The method picked is named,
    with the argument it is called on; the methods themselves are those of
    [SingaporeGeocoder]. *)

Module Unicode.

(** A [str]: the sequence of its code points. *)
Definition text : Type := list N.

(** The classes of the interpreter's Unicode database that [str.strip()]
    and the [re] module look up. *)
Record database := mk {
  (** [Py_UNICODE_ISSPACE]: what [strip()] removes *)
  isspace : N -> bool;
  (** [Py_UNICODE_ISDECIMAL]: [\d] on a [str] pattern *)
  isdecimal : N -> bool;
  (** [Py_UNICODE_ISALNUM]: with the underscore, [\w] on a [str] pattern *)
  isalnum : N -> bool
}.

(** [0-9] *)
Definition is_ascii_digit (c : N) : bool := ((48 <=? c) && (c <=? 57))%N.

(** The code points of a string of the embedding. *)
Definition codes (s : string) : text := List.map Char.code (chars s).

(** The argument of [geocode]; [None] is a value that is no [str]. *)
Definition of_pyval (v : pyval) : option text :=
  match v with
  | PyStr s => Some (codes s)
  | _ => None
  end.

(** What [geocode] does with its query: it returns the result of type
    ['unknown'] at once, or it returns what one of the three methods
    returns for [query]. *)
Inductive handling : Type :=
| Refused (query_type error : string)
| PostalCodeLookup (query : text)     (* [return self.geocode_postal_code(query)] *)
| AddressLookup (query : text)        (* [return self.geocode_address(query)] *)
| BuildingLookup (query : text).      (* [return self.geocode_building(query)] *)

Section WithDatabase.

Variable db : database.

(** [\w] *)
Definition is_word (c : N) : bool := isalnum db c || (c =? 95)%N.

(** [s.strip()] *)
Definition strip (s : text) : text :=
  rev (drop_while (isspace db) (rev (drop_while (isspace db) s))).

(** [re.sub(r'[^0-9]', '', s)] *)
Definition digits_only (s : text) : text := List.filter is_ascii_digit s.

(** [POSTAL_CODE_REGEX.match(s)] for [^\d{6}$] *)
Definition match_postal_code_regex (s : text) : bool :=
  forallb (isdecimal db) (firstn 6 s) && (length (firstn 6 s) =? 6)%nat
  && match skipn 6 s with
     | [] => true
     | [c] => (c =? 10)%N
     | _ => false
     end.

(** [validate_postal_code(postal_code)] on a [str] *)
Definition validate_postal_code (postal_code : text) : bool :=
  match postal_code with
  | [] => false
  | _ =>
      let cleaned := digits_only (strip postal_code) in
      match_postal_code_regex cleaned
  end.

(** [\b] between two neighbours *)
Definition word_boundary (before after : option N) : bool :=
  xorb (from_option is_word false before) (from_option is_word false after).

(** [\b(\d{6})\b] tried at the head of [l], [before] being the character in
    front of it. *)
Definition postal_run_here (before : option N) (l : text) : option text :=
  let run := firstn 6 l in
  if word_boundary before (head l)
     && forallb (isdecimal db) run && (length run =? 6)%nat
     && word_boundary (nth_error run 5) (head (skipn 6 l))
  then Some run else None.

Fixpoint search_postal_run (before : option N) (l : text) : option text :=
  match postal_run_here before l with
  | Some run => Some run
  | None =>
      match l with
      | [] => None
      | c :: l' => search_postal_run (Some c) l'
      end
  end.

(** [re.search(r'\b(\d{6})\b', s)] *)
Definition re_search_postal (s : text) : option text := search_postal_run None s.

(** [not s] on a [str] *)
Definition is_empty (s : text) : bool :=
  match s with
  | [] => true
  | _ => false
  end.

(** [geocode(query)] *)
Definition geocode (query : option text) : handling :=
  match query with
  | None => Refused "unknown" "Invalid query: empty or non-string input"
  | Some s =>
      if is_empty s || is_empty (strip s) then
        Refused "unknown" "Invalid query: empty or non-string input"
      else
        let query := strip s in
        if validate_postal_code query then PostalCodeLookup query
        else
          match re_search_postal query with
          | Some _ => AddressLookup query
          | None => BuildingLookup query
          end
  end.

(** *** The classes of a query *)

(** Six of the characters are among [0] to [9]. *)
Definition six_ascii_digits (s : text) : Prop :=
  length (List.filter is_ascii_digit s) = 6%nat.

Definition not_word (c : option N) : Prop :=
  from_option is_word false c = false.

(** A run of exactly six decimal digits with no word character on either
    side. *)
Definition standalone_run (run s : text) : Prop :=
  exists pre post,
    s = pre ++ run ++ post
    /\ length run = 6%nat
    /\ Forall (fun c => isdecimal db c = true) run
    /\ not_word (last pre) /\ not_word (head post).

Definition has_standalone_run (s : text) : Prop :=
  exists run, standalone_run run s.

Definition run_in (before : option N) (l run : text) : Prop :=
  exists pre post,
    l = pre ++ run ++ post
    /\ length run = 6%nat
    /\ Forall (fun c => isdecimal db c = true) run
    /\ not_word (match last pre with Some c => Some c | None => before end)
    /\ not_word (head post).

Definition no_text (query : option text) : Prop :=
  match query with
  | Some s => strip s = []
  | None => True
  end.

Definition stripped (query : option text) : text :=
  match query with
  | Some s => strip s
  | None => []
  end.

(** The classification, first match first, of the stripped query. *)
Inductive classified : option text -> Spec.query_kind -> Prop :=
| classified_unknown query :
    no_text query -> classified query Spec.Unknown
| classified_postal_code s :
    strip s <> [] -> six_ascii_digits (strip s) ->
    classified (Some s) Spec.PostalCode
| classified_address s :
    strip s <> [] -> ~ six_ascii_digits (strip s) -> has_standalone_run (strip s) ->
    classified (Some s) Spec.Address
| classified_building s :
    strip s <> [] -> ~ six_ascii_digits (strip s) -> ~ has_standalone_run (strip s) ->
    classified (Some s) Spec.Building.

End WithDatabase.

(** What [geocode] does with a query of each class. *)
Definition handled (kind : Spec.query_kind) (query : text) : handling :=
  match kind with
  | Spec.Unknown => Refused "unknown" "Invalid query: empty or non-string input"
  | Spec.PostalCode => PostalCodeLookup query
  | Spec.Address => AddressLookup query
  | Spec.Building => BuildingLookup query
  end.

(** What holds of the database of every interpreter: the characters [0]
    to [9] are decimal digits, and a decimal digit is alphanumeric. *)
Definition wellformed (db : database) : Prop :=
  (forall c, is_ascii_digit c = true -> isdecimal db c = true)
  /\ (forall c, isdecimal db c = true -> isalnum db c = true).

(** Below code point 256 the database has the classes of [Char]. *)
Definition latin1 (db : database) : Prop :=
  forall c : ascii,
    isspace db (Char.code c) = Char.is_space c
    /\ isdecimal db (Char.code c) = Char.is_digit c
    /\ is_word db (Char.code c) = Char.is_word c.

End Unicode.

(** ** A sample database *)

Module Fullwidth.

(** The full-width forms of the digits, U+FF10 to U+FF19. *)
Definition is_digit (c : N) : bool := ((65296 <=? c) && (c <=? 65305))%N.

(** A database that has the classes of [Char] below code point 256 and,
    past it, the full-width digits as decimal digits. *)
Definition database : Unicode.database :=
  Unicode.mk
    (fun c => if (c <? 256)%N then Char.is_space (ascii_of_N c) else false)
    (fun c => if (c <? 256)%N then Char.is_digit (ascii_of_N c) else is_digit c)
    (fun c => if (c <? 256)%N
              then Char.is_word (ascii_of_N c) && negb (c =? 95)%N
              else is_digit c).

(** The postal code 238874 written in full-width digits. *)
Definition postal_code : Unicode.text :=
  [65298; 65299; 65304; 65304; 65303; 65300]%N.

End Fullwidth.

(** * Properties of the lightning normaliser *)

Module LightningFacts.

Import LightningService.
Import Spec.
Local Open Scope nat_scope.

(** ** The loop over the readings of one period *)

Lemma coerced_strike_of record_datetime r :
  coerced r = match strike_of record_datetime r with Some _ => true | None => false end.
Proof.
  unfold strike_of, coerced, coerces.
  destruct (py_float (coordinate "latitude" r));
    destruct (py_float (coordinate "longitude" r)); reflexivity.
Qed.

Lemma filter_coerced_strikes record_datetime rs :
  length (omap (strike_of record_datetime) rs) = length (List.filter coerced rs).
Proof.
  induction rs as [|r rs IH]; [reflexivity|].
  cbn [omap list_omap List.filter].
  rewrite (coerced_strike_of record_datetime r).
  destruct (strike_of record_datetime r); cbn; congruence.
Qed.

(** The outcome of the [try] block, read off the two coercions. *)
Lemma coerce_coordinates_spec record_datetime r :
  match coerce_coordinates (default ∅ (Reading.location r)) with
  | Ok (Some (latitude, longitude)) =>
      strike_of record_datetime r =
        Some {| Strike.latitude := latitude;
                Strike.longitude := longitude;
                Strike.type := default (PyStr "Unknown") (Reading.type r);
                Strike.description := default (PyStr "Unknown") (Reading.text r);
                Strike.datetime := default PyNone (Reading.datetime r);
                Strike.record_datetime := record_datetime |}
  | Ok None => strike_of record_datetime r = None
  | Raise e => strike_of record_datetime r = None
  end.
Proof.
  unfold coerce_coordinates, strike_of, coordinate.
  destruct (py_float (dict_get _ "latitude" _)) as [la|[]]; cbn; trivial;
    destruct (py_float (dict_get _ "longitude" _)) as [lo|[]]; cbn; auto.
Qed.

Lemma process_readings_ok record_datetime rs :
  forall acc n out n',
    process_readings record_datetime rs acc n = Ok (out, n') ->
    out = acc ++ omap (strike_of record_datetime) rs
    /\ n' = n + length (omap (strike_of record_datetime) rs).
Proof.
  induction rs as [|r rs IH]; intros acc n out n' H.
  - cbn in H. injection H as <- <-. cbn. rewrite app_nil_r. split; [reflexivity | lia].
  - cbn [process_readings] in H.
    pose proof (coerce_coordinates_spec record_datetime r) as Hc.
    cbn [omap list_omap].
    destruct (coerce_coordinates _) as [[[la lo]|]|e]; cbn in H.
    + apply IH in H as [-> ->]. rewrite Hc, <- app_assoc. cbn. split; [reflexivity | lia].
    + apply IH in H as [-> ->]. rewrite Hc. auto.
    + discriminate.
Qed.

(** ** The loop over the periods *)

Lemma process_record_ok st p st' :
  process_record st p = Ok st' ->
  st_records st' = st_records st ++ [record_of p]
  /\ st_total_strikes st' = st_total_strikes st + coerced_count p
  /\ st_records_with_lightning st'
     = st_records_with_lightning st + (if has_readings p then 1 else 0)
  /\ all_datetimes st' = all_datetimes st ++ stamp_of p.
Proof.
  unfold process_record, record_of, strikes_of, coerced_count, has_readings, stamp_of, stamps_in.
  change (default [] (Item.readings (default Item.empty (Period.item p))))
    with (readings p).
  assert (Hstamp :
    match Period.datetime p with
    | Some s => if truthy (PyStr s) then all_datetimes st ++ [s] else all_datetimes st
    | None => all_datetimes st
    end = all_datetimes st
          ++ List.filter (fun s => negb (String.eqb s "")) (omap Period.datetime [p])).
  { cbn. destruct (Period.datetime p) as [s|]; cbn.
    - destruct (String.eqb s ""); cbn; [now rewrite app_nil_r | reflexivity].
    - now rewrite app_nil_r. }
  rewrite Hstamp. clear Hstamp.
  destruct (readings p) as [|r rs] eqn:Hrs.
  - intros [= <-]. cbn. repeat split; lia.
  - destruct (process_readings _ _ _ _) as [[parsed total]|e] eqn:Hp; [|discriminate].
    cbn. intros [= <-]. cbn.
    apply process_readings_ok in Hp as [-> ->].
    rewrite filter_coerced_strikes. repeat split; lia.
Qed.

Lemma process_records_ok ps :
  forall st st',
    process_records ps st = Ok st' ->
    st_records st' = st_records st ++ map record_of ps
    /\ st_total_strikes st' = st_total_strikes st + list_sum (map coerced_count ps)
    /\ st_records_with_lightning st'
       = st_records_with_lightning st + length (List.filter has_readings ps)
    /\ all_datetimes st' = all_datetimes st ++ stamps_in ps.
Proof.
  induction ps as [|p ps IH]; intros st st' H.
  - injection H as <-. cbn. rewrite !app_nil_r. repeat split; lia.
  - unfold stamps_in. cbn [process_records] in H.
    destruct (process_record st p) as [st1|e] eqn:H1; [|discriminate].
    cbn in H. apply IH in H as (Hr & Ht & Hw & Hd).
    apply process_record_ok in H1 as (Hr1 & Ht1 & Hw1 & Hd1).
    rewrite Hr, Ht, Hw, Hd, Hr1, Ht1, Hw1, Hd1. unfold stamp_of, stamps_in.
    cbn [map List.filter length omap list_omap].
    repeat split.
    + now rewrite <- app_assoc.
    + simpl list_sum. lia.
    + destruct (has_readings p); cbn; lia.
    + rewrite <- app_assoc. f_equal.
      destruct (Period.datetime p) as [s|]; [|reflexivity].
      cbn. destruct (String.eqb s ""); reflexivity.
Qed.

(** The summary of an accepted batch, field by field. *)
Lemma parse_ok now response d :
  parse_lightning_response now (Some response) = Ok (Some d) ->
  Response.code response = Some 0%Z
  /\ ParsedData.records d = map record_of (periods response)
  /\ ParsedData.total_strikes d = list_sum (map coerced_count (periods response))
  /\ ParsedData.records_with_lightning d
     = length (List.filter has_readings (periods response))
  /\ ParsedData.time_range d
     = match nonempty_stamps response with
       | [] => TimeRange.mk None None
       | l => TimeRange.mk (py_min l) (py_max l)
       end.
Proof.
  unfold parse_lightning_response.
  destruct (Response.code response) as [[| |]|]; try discriminate.
  change (default [] (Data.records (default Data.empty (Response.data response))))
    with (periods response).
  destruct (process_records _ _) as [st|e] eqn:Hp; [|discriminate].
  cbn. intros [= <-]. cbn.
  apply process_records_ok in Hp as (Hr & Ht & Hw & Hd). cbn in Hr, Ht, Hw, Hd.
  fold (nonempty_stamps response) in Hd.
  rewrite Hr, Ht, Hw, Hd.
  repeat split. now destruct (nonempty_stamps response).
Qed.

(** A batch is rejected exactly when its status code is not [0]. *)
Lemma parse_rejects now response :
  Response.code response <> Some 0%Z ->
  parse_lightning_response now (Some response) = Ok None.
Proof.
  unfold parse_lightning_response.
  destruct (Response.code response) as [[| |]|]; congruence.
Qed.

(** ** Which batches are accepted *)

Lemma py_float_in_range v :
  out_of_range v = false ->
  (exists f, py_float v = Ok f)
  \/ py_float v = Raise ValueError \/ py_float v = Raise TypeError.
Proof.
  destruct v; cbn; eauto.
  - intros ->. eauto.
  - destruct (Float.of_string s); eauto.
Qed.

Lemma coerce_coordinates_total r :
  overflowing r = false ->
  exists c, coerce_coordinates (default ∅ (Reading.location r)) = Ok c.
Proof.
  unfold overflowing, coerces, coerce_coordinates.
  fold (coordinate "latitude" r) (coordinate "longitude" r).
  intros [Hlat Hlon]%orb_false_elim.
  destruct (py_float_in_range _ Hlat) as [[la Hla] | [Hla | Hla]];
    rewrite Hla in *; cbn; eauto.
  cbn in Hlon.
  destruct (py_float_in_range _ Hlon) as [[lo Hlo] | [Hlo | Hlo]];
    rewrite Hlo; cbn; eauto.
Qed.

Lemma process_readings_total record_datetime rs :
  Forall (fun r => overflowing r = false) rs ->
  forall acc n, exists out n', process_readings record_datetime rs acc n = Ok (out, n').
Proof.
  induction 1 as [|r rs Hr _ IH]; intros acc n; cbn [process_readings]; [eauto|].
  destruct (coerce_coordinates_total r Hr) as [[[la lo]|] ->]; cbn [exc_bind]; apply IH.
Qed.

Lemma process_records_total ps :
  Forall (fun p => Forall (fun r => overflowing r = false) (readings p)) ps ->
  forall st, exists st', process_records ps st = Ok st'.
Proof.
  induction 1 as [|p ps Hp _ IH]; intros st; cbn [process_records]; [eauto|].
  assert (Hrec : exists st1, process_record st p = Ok st1).
  { unfold process_record.
    change (default [] (Item.readings (default Item.empty (Period.item p))))
      with (readings p).
    destruct (readings p) as [|r rs] eqn:Hrs; [eauto|].
    destruct (process_readings_total (Period.datetime p) (r :: rs) Hp []
                (st_total_strikes st)) as (out & n' & ->).
    cbn. eauto. }
  destruct Hrec as [st1 ->]. cbn [exc_bind]. apply IH.
Qed.

(** A batch with status code [0] is accepted unless one of its readings
    carries an integer coordinate out of the float range. *)
Lemma status_zero_accepted now response :
  Response.code response = Some 0%Z ->
  Forall (fun p => Forall (fun r => overflowing r = false) (readings p)) (periods response) ->
  exists d, parse_lightning_response now (Some response) = Ok (Some d).
Proof.
  intros Hcode Hall. unfold parse_lightning_response. rewrite Hcode.
  change (default [] (Data.records (default Data.empty (Response.data response))))
    with (periods response).
  destruct (process_records_total _ Hall (mk_state [] 0 0 [])) as [st ->].
  cbn. eauto.
Qed.

(** ** The code-point order of strings *)

Lemma leb_iff a b : String.leb a b = true <-> a = b \/ String_as_OT.lt a b.
Proof.
  unfold String.leb. destruct (String.compare a b) eqn:E.
  - apply String_as_OT.cmp_eq in E. tauto.
  - apply String_as_OT.cmp_lt in E. tauto.
  - split; [discriminate|]. intros [->|H].
    + assert (String_as_OT.cmp b b = Eq) as H by now apply String_as_OT.cmp_eq.
      unfold String_as_OT.cmp in H. congruence.
    + apply String_as_OT.cmp_lt in H. unfold String_as_OT.cmp in H. congruence.
Qed.

Lemma leb_refl a : String.leb a a = true.
Proof. apply leb_iff. now left. Qed.

Lemma leb_trans a b c :
  String.leb a b = true -> String.leb b c = true -> String.leb a c = true.
Proof.
  rewrite !leb_iff. intros [->|H1] [->|H2]; auto.
  right. eapply String_as_OT.lt_trans; eauto.
Qed.

Lemma ltb_leb a b : String.ltb a b = true -> String.leb a b = true.
Proof. unfold String.ltb, String.leb. now destruct (String.compare a b). Qed.

Lemma not_ltb_leb a b : String.ltb a b = false -> String.leb b a = true.
Proof.
  unfold String.ltb, String.leb. rewrite (String.compare_antisym a b).
  now destruct (String.compare b a).
Qed.

Lemma py_min_spec x l : exists m, py_min (x :: l) = Some m /\ is_string_min m (x :: l).
Proof.
  eexists. split; [reflexivity|]. revert x.
  induction l as [|a l IH]; intros x; cbn [fold_left].
  - split; [now left|]. intros y [<-|[]]. apply leb_refl.
  - destruct (IH (if String.ltb a x then a else x)) as [Hin Hle].
    assert (Hx : String.leb (if String.ltb a x then a else x) x = true).
    { destruct (String.ltb a x) eqn:E; [now apply ltb_leb | apply leb_refl]. }
    assert (Ha : String.leb (if String.ltb a x then a else x) a = true).
    { destruct (String.ltb a x) eqn:E; [apply leb_refl | now apply not_ltb_leb]. }
    split.
    + destruct Hin as [Hin|Hin]; [|now right; right].
      rewrite <- Hin. destruct (String.ltb a x); [right; now left | now left].
    + intros y [<-|[<-|Hy]].
      * eapply leb_trans; [|exact Hx]. apply Hle. now left.
      * eapply leb_trans; [|exact Ha]. apply Hle. now left.
      * apply Hle. now right.
Qed.

Lemma py_max_spec x l : exists m, py_max (x :: l) = Some m /\ is_string_max m (x :: l).
Proof.
  eexists. split; [reflexivity|]. revert x.
  induction l as [|a l IH]; intros x; cbn [fold_left].
  - split; [now left|]. intros y [<-|[]]. apply leb_refl.
  - destruct (IH (if String.ltb x a then a else x)) as [Hin Hle].
    assert (Hx : String.leb x (if String.ltb x a then a else x) = true).
    { destruct (String.ltb x a) eqn:E; [now apply ltb_leb | apply leb_refl]. }
    assert (Ha : String.leb a (if String.ltb x a then a else x) = true).
    { destruct (String.ltb x a) eqn:E; [apply leb_refl | now apply not_ltb_leb]. }
    split.
    + destruct Hin as [Hin|Hin]; [|now right; right].
      rewrite <- Hin. destruct (String.ltb x a); [right; now left | now left].
    + intros y [<-|[<-|Hy]].
      * eapply leb_trans; [exact Hx|]. apply Hle. now left.
      * eapply leb_trans; [exact Ha|]. apply Hle. now left.
      * apply Hle. now right.
Qed.

(** ** Where a coerced reading ends up *)

Lemma in_strikes_of period reading strike :
  In reading (readings period) ->
  strike_of (Period.datetime period) reading = Some strike ->
  In strike (strikes_of period).
Proof.
  intros Hin Hs. apply list_elem_of_In, list_elem_of_omap.
  exists reading. split; [now apply list_elem_of_In | exact Hs].
Qed.

Lemma strike_of_record_datetime record_datetime reading strike :
  strike_of record_datetime reading = Some strike ->
  Strike.record_datetime strike = record_datetime.
Proof.
  unfold strike_of.
  destruct (py_float _); [|discriminate].
  destruct (py_float _); [|discriminate].
  now intros [= <-].
Qed.

(** ** [extract_coordinates] *)

Lemma coord_data_id record_time strike :
  Strike.record_datetime strike = record_time -> coord_data record_time strike = strike.
Proof. destruct strike. cbn. now intros ->. Qed.

Lemma collect_record_spec record :
  forall acc,
    collect_record acc record
    = acc ++ map (coord_data (RecordData.datetime record)) (RecordData.readings record).
Proof.
  unfold collect_record.
  induction (RecordData.readings record) as [|s l IH]; intros acc; cbn.
  - now rewrite app_nil_r.
  - rewrite IH, <- app_assoc. reflexivity.
Qed.

Lemma collect_all records :
  forall acc, fold_left collect_record records acc = acc ++ all_points records.
Proof.
  induction records as [|record records IH]; intros acc; cbn.
  - now rewrite app_nil_r.
  - rewrite IH, collect_record_spec, <- app_assoc. reflexivity.
Qed.

Lemma count_within_spec bounds l :
  count_within bounds l = length (List.filter (inside bounds) l).
Proof.
  unfold count_within.
  enough (H : forall n,
    fold_left (fun valid_count coord =>
                 if Bounds.contains bounds (Strike.latitude coord) (Strike.longitude coord)
                 then S valid_count else valid_count) l n
    = n + length (List.filter (inside bounds) l)) by apply H.
  induction l as [|c l IH]; intros n; cbn; [lia|].
  rewrite IH. unfold inside at 2. destruct (Bounds.contains _ _ _); cbn; lia.
Qed.

Lemma extract_coordinates_logged_spec bounds parsed :
  extract_coordinates_logged bounds (Some parsed)
  = (all_points (ParsedData.records parsed),
     match all_points (ParsedData.records parsed) with
     | [] => None
     | l => Some (length (List.filter (inside bounds) l))
     end).
Proof.
  unfold extract_coordinates_logged.
  destruct (ParsedData.records parsed) as [|record records] eqn:E; [reflexivity|].
  rewrite collect_all. cbn [app].
  destruct (all_points (record :: records)); [reflexivity|].
  now rewrite count_within_spec.
Qed.

(** ** The counters *)

(** C1, as stated: [records_with_lightning] would be the number of periods
    with at least one reading whose coordinates both coerce. It is not: a
    batch whose single period holds two readings, one with the latitude
    ["invalid"] and one with the longitude ["valid_coord"], is accepted,
    has no such period, and is reported with [records_with_lightning = 1]
    and [total_strikes = 0]. *)
Lemma records_with_lightning_counts_unreadable_period :
  exists d,
    parse_lightning_response Examples.now (Some Examples.invalid_only_batch) = Ok (Some d)
    /\ length (List.filter has_coerced_reading (periods Examples.invalid_only_batch)) = 0
    /\ ParsedData.records_with_lightning d = 1
    /\ ParsedData.total_strikes d = 0.
Proof. eexists. split; [vm_compute; reflexivity | vm_compute; repeat split]. Qed.

(** C1, amended: for every accepted batch, [records_with_lightning] is the
    number of periods whose list of raw readings is not empty, whether or
    not any of these readings coerces; the periods with a coerced reading
    are among them. *)
Theorem records_with_lightning_counts_periods_with_readings now response d :
  parse_lightning_response now (Some response) = Ok (Some d) ->
  ParsedData.records_with_lightning d
  = length (List.filter has_readings (periods response))
  /\ length (List.filter has_coerced_reading (periods response))
     <= ParsedData.records_with_lightning d.
Proof.
  intros H. apply parse_ok in H as (_ & _ & _ & -> & _). split; [reflexivity|].
  induction (periods response) as [|p ps IH]; [cbn; lia|].
  assert (Hp : has_coerced_reading p = true -> has_readings p = true).
  { unfold has_coerced_reading, has_readings, coerced_count.
    destruct (readings p); cbn; [discriminate | reflexivity]. }
  cbn [List.filter].
  destruct (has_coerced_reading p), (has_readings p); cbn [length];
    first [lia | now specialize (Hp eq_refl)].
Qed.

Lemma records_with_lightning_witness :
  1 = length (List.filter has_readings (periods Examples.invalid_only_batch))
  /\ length (List.filter has_coerced_reading (periods Examples.invalid_only_batch)) <= 1.
Proof.
  refine (records_with_lightning_counts_periods_with_readings
            Examples.now Examples.invalid_only_batch
            (ParsedData.mk _ _ _ _ _ _ 1 _) _).
  vm_compute. reflexivity.
Defined.

(** C2: for every accepted batch, [total_strikes] is the sum over its
    periods of the number of readings whose latitude and longitude both
    coerce to floats. *)
Theorem total_strikes_is_sum_of_coerced_readings now response d :
  parse_lightning_response now (Some response) = Ok (Some d) ->
  ParsedData.total_strikes d = list_sum (map coerced_count (periods response)).
Proof. intros H. now apply parse_ok in H as (_ & _ & -> & _). Qed.

Lemma total_strikes_witness :
  2 = list_sum (map coerced_count (periods Examples.mixed_batch)).
Proof.
  refine (total_strikes_is_sum_of_coerced_readings Examples.now Examples.mixed_batch
            (ParsedData.mk _ _ _ _ _ 2 _ _) _).
  vm_compute. reflexivity.
Defined.

(** ** Readings that do not coerce *)

Lemma non_numeric_raises v :
  non_numeric v = true ->
  py_float v = Raise ValueError \/ py_float v = Raise TypeError.
Proof.
  destruct v; cbn; try discriminate; auto.
  destruct (Float.of_string s); [discriminate | auto].
Qed.

Lemma present_non_numeric_raises key r :
  present_non_numeric key r = true ->
  py_float (coordinate key r) = Raise ValueError
  \/ py_float (coordinate key r) = Raise TypeError.
Proof.
  unfold present_non_numeric, coordinate, dict_get.
  destruct (_ !! key); [apply non_numeric_raises | discriminate].
Qed.

(** A reading with a latitude that is no number, or with a longitude that
    is no number behind a latitude that coerces, takes the [except]
    branch: the loop goes on as if the reading were not in the list. *)
Lemma unreadable_reading_is_skipped record_datetime r rs1 rs2 :
  present_non_numeric "latitude" r = true
  \/ (coerces (coordinate "latitude" r) = true
      /\ present_non_numeric "longitude" r = true) ->
  forall acc n,
    process_readings record_datetime (rs1 ++ r :: rs2) acc n
    = process_readings record_datetime (rs1 ++ rs2) acc n.
Proof.
  intros Hr.
  assert (Hskip : coerce_coordinates (default ∅ (Reading.location r)) = Ok None).
  { unfold coerce_coordinates. fold (coordinate "latitude" r) (coordinate "longitude" r).
    destruct Hr as [Hlat|[Hlat Hlon]].
    - apply present_non_numeric_raises in Hlat as [-> | ->]; reflexivity.
    - unfold coerces in Hlat.
      destruct (py_float (coordinate "latitude" r)); [|discriminate].
      apply present_non_numeric_raises in Hlon as [-> | ->]; reflexivity. }
  induction rs1 as [|r1 rs1 IH]; intros acc n; cbn [app process_readings].
  - now rewrite Hskip.
  - destruct (coerce_coordinates (default ∅ (Reading.location r1))) as [[[la lo]|]|e];
      cbn [exc_bind]; auto.
Qed.

(** C3, at the input where the code leaves it: the reading has a longitude
    that is present and no number (["abc"]), and an integer latitude too
    large for a float. [float(latitude)] raises [OverflowError], which the
    [except (ValueError, TypeError)] clause does not catch: the reading is
    not skipped, and the whole call raises. *)
Theorem unreadable_longitude_behind_huge_latitude_raises :
  present_non_numeric "longitude" Examples.huge_latitude_reading = true
  /\ py_float (coordinate "latitude" Examples.huge_latitude_reading) = Raise OverflowError
  /\ parse_lightning_response Examples.now (Some Examples.huge_latitude_batch)
     = Raise OverflowError.
Proof. vm_compute. repeat split. Qed.

(** ** Missing coordinates *)

(** C4, as stated: a reading without a ['latitude'] key would never be
    dropped. One whose longitude is ["abc"] is: the accepted batch keeps
    no strike of it, and [extract_coordinates] returns nothing. *)
Lemma missing_latitude_reading_dropped :
  exists d,
    parse_lightning_response Examples.now
      (Some (Examples.no_latitude_batch (PyStr "abc"))) = Ok (Some d)
    /\ default ∅ (Reading.location (Examples.no_latitude_reading (PyStr "abc")))
         !! "latitude" = None
    /\ map RecordData.readings (ParsedData.records d) = [[]]
    /\ extract_coordinates (Some d) = [].
Proof. eexists. split; [vm_compute; reflexivity | vm_compute; repeat split]. Qed.

Lemma emitted now response d period reading strike :
  parse_lightning_response now (Some response) = Ok (Some d) ->
  In period (periods response) ->
  In reading (readings period) ->
  strike_of (Period.datetime period) reading = Some strike ->
  In (record_of period) (ParsedData.records d)
  /\ In strike (RecordData.readings (record_of period))
  /\ In strike (extract_coordinates (Some d)).
Proof.
  intros H Hp Hr Hs. apply parse_ok in H as (_ & Hrec & _).
  assert (Hin : In (record_of period) (ParsedData.records d))
    by (rewrite Hrec; now apply in_map).
  assert (Hin' : In strike (RecordData.readings (record_of period)))
    by now apply (in_strikes_of period reading).
  repeat split; trivial.
  unfold extract_coordinates. rewrite extract_coordinates_logged_spec. cbn [fst].
  apply in_flat_map. exists (record_of period). split; [exact Hin|].
  apply in_map_iff. exists strike. split; [|exact Hin'].
  apply coord_data_id. now apply strike_of_record_datetime in Hs.
Qed.

(** C4, amended: in an accepted batch, a reading whose location object
    has no ['latitude'] key and whose longitude coerces to [v] (it does
    when that key is missing too) is kept as the strike with latitude
    [0.0] and longitude [v]: the strike is among the readings of the
    record of its period and in the list [extract_coordinates] returns.
    Likewise with the two keys exchanged. *)
Theorem missing_coordinate_defaults_to_zero now response d period reading v :
  parse_lightning_response now (Some response) = Ok (Some d) ->
  In period (periods response) ->
  In reading (readings period) ->
  let location := default ∅ (Reading.location reading) in
  let kept latitude longitude :=
    exists strike,
      Strike.latitude strike = latitude /\ Strike.longitude strike = longitude
      /\ strike_of (Period.datetime period) reading = Some strike
      /\ In (record_of period) (ParsedData.records d)
      /\ In strike (RecordData.readings (record_of period))
      /\ In strike (extract_coordinates (Some d)) in
  (location !! "latitude" = None ->
   py_float (coordinate "longitude" reading) = Ok v -> kept Float.zero v)
  /\ (location !! "longitude" = None ->
      py_float (coordinate "latitude" reading) = Ok v -> kept v Float.zero).
Proof.
  intros H Hp Hr location kept.
  assert (Hzero : forall key, location !! key = None ->
                              py_float (coordinate key reading) = Ok Float.zero).
  { intros key Hk. unfold coordinate, dict_get. fold location. now rewrite Hk. }
  split; intros Hk Hv; apply Hzero in Hk.
  - eexists. split; [|split; [|split]].
    3: { unfold strike_of. rewrite Hk, Hv. reflexivity. }
    1,2: reflexivity.
    eapply emitted; eauto. unfold strike_of. now rewrite Hk, Hv.
  - eexists. split; [|split; [|split]].
    3: { unfold strike_of. rewrite Hk, Hv. reflexivity. }
    1,2: reflexivity.
    eapply emitted; eauto. unfold strike_of. now rewrite Hk, Hv.
Qed.

Lemma missing_coordinate_witness :
  exists d strike,
    parse_lightning_response Examples.now
      (Some (Examples.no_latitude_batch (PyStr "103.8198"))) = Ok (Some d)
    /\ Strike.latitude strike = Float.zero
    /\ Strike.longitude strike = Float.lit "103.8198"
    /\ In strike (extract_coordinates (Some d)).
Proof.
  eexists.
  assert (Hparse : parse_lightning_response Examples.now
            (Some (Examples.no_latitude_batch (PyStr "103.8198"))) = Ok (Some _))
    by (vm_compute; reflexivity).
  destruct (proj1 (missing_coordinate_defaults_to_zero
              _ _ _
              (Examples.period (Some "2024-01-15T10:00:00+08:00")
                 [Examples.no_latitude_reading (PyStr "103.8198")])
              (Examples.no_latitude_reading (PyStr "103.8198"))
              (Float.lit "103.8198")
              Hparse (or_introl eq_refl) (or_introl eq_refl))
            eq_refl eq_refl) as (strike & Hlat & Hlon & _ & _ & _ & Hin).
  exists strike. repeat split; assumption.
Defined.

(** ** The time range *)

(** C8, as stated: [earliest] would be the least of the period time stamps
    that are not null. A time stamp that is the empty string is not null,
    and it is passed over: with the periods stamped [""] and
    ["2024-01-15T10:00:00+08:00"], the least time stamp is [""], and
    [earliest] is the second one. *)
Lemma empty_time_stamp_is_passed_over :
  exists d,
    parse_lightning_response Examples.now (Some Examples.empty_stamp_batch) = Ok (Some d)
    /\ stamps Examples.empty_stamp_batch = [""; "2024-01-15T10:00:00+08:00"]
    /\ is_string_min "" (stamps Examples.empty_stamp_batch)
    /\ TimeRange.earliest (ParsedData.time_range d) = Some "2024-01-15T10:00:00+08:00".
Proof.
  eexists. split; [vm_compute; reflexivity|].
  split; [reflexivity|]. split; [|reflexivity].
  split; [now left|]. intros x [<-|[<-|[]]]; reflexivity.
Qed.

(** C8, amended: in the summary of an accepted batch, [earliest] and
    [latest] are the least and the greatest, in the code-point order of
    strings, of the period time stamps that are neither null nor empty,
    and both are null when there is no such time stamp. Nothing but the
    period time stamps is consulted: two accepted batches whose periods
    carry the same time stamps have the same time range. *)
Theorem time_range_is_string_min_max now response d :
  parse_lightning_response now (Some response) = Ok (Some d) ->
  let range := ParsedData.time_range d in
  match nonempty_stamps response with
  | [] => TimeRange.earliest range = None /\ TimeRange.latest range = None
  | l =>
      exists lo hi,
        TimeRange.earliest range = Some lo /\ TimeRange.latest range = Some hi
        /\ is_string_min lo l /\ is_string_max hi l
  end
  /\ forall now' response' d',
       parse_lightning_response now' (Some response') = Ok (Some d') ->
       map Period.datetime (periods response') = map Period.datetime (periods response) ->
       ParsedData.time_range d' = range.
Proof.
  intros H range. subst range.
  pose proof H as (_ & _ & _ & _ & Hrange)%parse_ok. split.
  - rewrite Hrange. destruct (nonempty_stamps response) as [|x l]; [now split|].
    destruct (py_min_spec x l) as (lo & Hmin & Hlo).
    destruct (py_max_spec x l) as (hi & Hmax & Hhi).
    exists lo, hi. cbn [TimeRange.earliest TimeRange.latest].
    rewrite Hmin, Hmax. auto.
  - intros now' response' d' (_ & _ & _ & _ & Hrange')%parse_ok Hsame.
    rewrite Hrange, Hrange'.
    enough (nonempty_stamps response' = nonempty_stamps response) as -> by reflexivity.
    unfold nonempty_stamps, stamps_in. f_equal.
    revert Hsame. generalize (periods response). 
    induction (periods response') as [|p ps IH]; intros [|q qs]; cbn; try discriminate.
    + reflexivity.
    + intros [= Hp Hps]. rewrite Hp, (IH qs Hps). reflexivity.
Qed.

Lemma time_range_witness :
  exists lo hi,
    Some "2024-01-15T09:30:00+08:00" = Some lo
    /\ Some "2024-01-15T10:30:00+08:00" = Some hi
    /\ is_string_min lo (nonempty_stamps Examples.three_stamps_batch)
    /\ is_string_max hi (nonempty_stamps Examples.three_stamps_batch).
Proof.
  refine (proj1 (time_range_is_string_min_max Examples.now Examples.three_stamps_batch
                   (ParsedData.mk Examples.now 0 (PyStr "") PyNone
                      (map record_of (periods Examples.three_stamps_batch)) 0 0
                      (TimeRange.mk (Some "2024-01-15T09:30:00+08:00")
                                    (Some "2024-01-15T10:30:00+08:00"))) _)).
  vm_compute. reflexivity.
Defined.

(** ** The bounds tally *)




End LightningFacts.

(** * Properties of the geocoder *)

Module GeocoderFacts.

Import SingaporeGeocoder.
Import Spec.
Local Open Scope nat_scope.

(** ** Running [io] programs *)

Lemma io_bind_ok {A B} (m : io A) (k : A -> io B) h b h' :
  io_bind m k h = (Ok b, h') ->
  exists a h1, m h = (Ok a, h1) /\ k a h1 = (Ok b, h').
Proof.
  unfold io_bind. destruct (m h) as [[a|e] h1]; [eauto | discriminate].
Qed.

Lemma io_ret_ok {A} (a b : A) h h' : io_ret a h = (Ok b, h') -> a = b /\ h = h'.
Proof. now intros [= -> ->]. Qed.

(** ** The result dictionary *)

Lemma create_fresh env query query_type h r h' :
  _create_result_dict env query query_type h = (Ok r, h') ->
  fresh r /\ GeoResult.query r = query /\ GeoResult.query_type r = query_type /\ h' = h.
Proof. intros [= <- <-]. now repeat split. Qed.

Lemma error_well_formed e r : fresh r -> well_formed (GeoResult.set_error e r).
Proof. intros (Hs & Hla & Hlo & _). right. cbn. now repeat split. Qed.

(** What [lookup] leaves untouched, and the invariant it establishes. *)
Lemma lookup_spec env searchVal with_postal not_found result h r h' :
  lookup env searchVal with_postal not_found result h = (Ok r, h') ->
  GeoResult.query r = GeoResult.query result
  /\ GeoResult.query_type r = GeoResult.query_type result
  /\ (fresh result -> well_formed r).
Proof.
  unfold lookup. intros H.
  apply io_bind_ok in H as (geocoding_result & h1 & _ & H).
  destruct (truthy geocoding_result).
  - apply io_bind_ok in H as ([c|] & h2 & _ & H).
    + assert (Hfound : forall a b rd p,
                fresh result ->
                well_formed (GeoResult.set_postal_code p (GeoResult.set_found c a b rd result))).
      { intros a b rd p (_ & _ & _ & He). left. cbn. now repeat split. }
      destruct with_postal.
      * apply io_bind_ok in H as ([code|] & h3 & _ & H);
          apply io_ret_ok in H as [<- _]; cbn; repeat split; trivial.
        -- intros Hf. now apply (Hfound _ _ _ (Some code)).
        -- intros Hf. specialize (Hfound (result_field geocoding_result "ADDRESS")
                                   (result_field geocoding_result "BUILDING")
                                   (result_field geocoding_result "ROAD")
                                   (GeoResult.postal_code result) Hf).
           exact Hfound.
      * apply io_ret_ok in H as [<- _]. cbn. repeat split; trivial.
        intros Hf. exact (Hfound _ _ _ (GeoResult.postal_code result) Hf).
    + apply io_ret_ok in H as [<- _]. cbn. repeat split; trivial.
      apply error_well_formed.
  - apply io_ret_ok in H as [<- _]. cbn. repeat split; trivial.
    apply error_well_formed.
Qed.

Lemma fresh_set_postal_code p r : fresh r -> fresh (GeoResult.set_postal_code p r).
Proof. now intros (? & ? & ? & ?). Qed.

Lemma geocode_postal_code_spec env postal_code h r h' :
  geocode_postal_code env postal_code h = (Ok r, h') ->
  GeoResult.query r = postal_code
  /\ GeoResult.query_type r = "postal_code"%string
  /\ well_formed r.
Proof.
  unfold geocode_postal_code. intros H.
  apply io_bind_ok in H as (result & h1 & (Hf & Hq & Ht & _)%create_fresh & H).
  destruct (clean_postal_code postal_code) as [cleaned_code|].
  - apply lookup_spec in H as (Hq' & Ht' & Hwf). cbn in Hq', Ht'.
    rewrite Hq', Ht'. repeat split; trivial.
    now apply Hwf, fresh_set_postal_code.
  - apply io_ret_ok in H as [<- _]. cbn. repeat split; trivial.
    now apply error_well_formed.
Qed.

Lemma geocode_address_spec env address h r h' :
  geocode_address env address h = (Ok r, h') ->
  GeoResult.query r = address
  /\ GeoResult.query_type r = "address"%string
  /\ well_formed r.
Proof.
  unfold geocode_address. intros H.
  apply io_bind_ok in H as (result & h1 & (Hf & Hq & Ht & _)%create_fresh & H).
  destruct (empty_or_non_string address).
  - apply io_ret_ok in H as [<- _]. cbn. repeat split; trivial.
    now apply error_well_formed.
  - apply lookup_spec in H as (-> & -> & Hwf). repeat split; auto.
Qed.

Lemma geocode_building_spec env building_name h r h' :
  geocode_building env building_name h = (Ok r, h') ->
  GeoResult.query r = building_name
  /\ GeoResult.query_type r = "building"%string
  /\ well_formed r.
Proof.
  unfold geocode_building. intros H.
  apply io_bind_ok in H as (result & h1 & (Hf & Hq & Ht & _)%create_fresh & H).
  destruct (empty_or_non_string building_name).
  - apply io_ret_ok in H as [<- _]. cbn. repeat split; trivial.
    now apply error_well_formed.
  - apply lookup_spec in H as (-> & -> & Hwf). repeat split; auto.
Qed.

Lemma geocode_well_formed env query h r h' :
  geocode env query h = (Ok r, h') -> well_formed r.
Proof.
  unfold geocode. intros H.
  destruct (empty_or_non_string query).
  - apply io_bind_ok in H as (result & h1 & (Hf & _)%create_fresh & H).
    apply io_ret_ok in H as [<- _]. now apply error_well_formed.
  - destruct (validate_postal_code _).
    + now apply geocode_postal_code_spec in H.
    + destruct (re_search_postal _).
      * now apply geocode_address_spec in H.
      * now apply geocode_building_spec in H.
Qed.

(** C5: a result dictionary returned by [geocode], or by one of
    [geocode_postal_code], [geocode_address] and [geocode_building] called
    on any value, has either [success = True], both coordinates and no
    error, or [success = False], an error text and no coordinate. *)
Theorem geocode_result_well_formed env (method : pyval -> io GeoResult.t) query h r h' :
  method = geocode env \/ method = geocode_postal_code env
  \/ method = geocode_address env \/ method = geocode_building env ->
  method query h = (Ok r, h') ->
  well_formed r
  /\ (GeoResult.success r = true -> GeoResult.latitude r <> None /\ GeoResult.longitude r <> None)
  /\ (GeoResult.success r = false -> GeoResult.error r <> None)
  /\ (GeoResult.latitude r <> None \/ GeoResult.longitude r <> None -> GeoResult.success r = true).
Proof.
  intros Hm H.
  assert (Hwf : well_formed r).
  { destruct Hm as [-> | [-> | [-> | ->]]].
    - eapply geocode_well_formed; eauto.
    - eapply geocode_postal_code_spec; eauto.
    - eapply geocode_address_spec; eauto.
    - eapply geocode_building_spec; eauto. }
  split; [exact Hwf|].
  destruct Hwf as [(Hs & Hla & Hlo & He) | (Hs & He & Hla & Hlo)]; rewrite Hs.
  - repeat split; trivial; discriminate.
  - repeat split; trivial; try discriminate.
    rewrite Hla, Hlo. now intros [|].
Qed.

Lemma geocode_result_witness :
  exists r,
    geocode Examples.online (PyStr "VivoCity") [] = (Ok r, [HttpGet "VivoCity"])
    /\ well_formed r /\ GeoResult.success r = true.
Proof.
  eexists.
  assert (H : geocode Examples.online (PyStr "VivoCity") []
              = (Ok _, [HttpGet "VivoCity"])) by (vm_compute; reflexivity).
  split; [exact H|]. split; [|reflexivity].
  exact (proj1 (geocode_result_well_formed Examples.online _ _ _ _ _
                  (or_introl eq_refl) H)).
Defined.

(** ** The sample table *)

(** C7: for the query ["238874"], whatever the network would answer,
    [geocode] leaves the history as it is (no request is made) and returns
    the table entry: [success = True], the latitude [1.304167] and the
    longitude [103.833611], the floats nearest to these decimals, which
    lie inside the strict Singapore box. *)
Theorem geocode_table_hit env h :
  geocode env (PyStr "238874") h
  = (Ok {| GeoResult.query := PyStr "238874";
           GeoResult.query_type := "postal_code";
           GeoResult.success := true;
           GeoResult.latitude := Some (Float.lit "1.304167");
           GeoResult.longitude := Some (Float.lit "103.833611");
           GeoResult.address := PyStr "ION Orchard, 2 Orchard Turn, Singapore 238874";
           GeoResult.building := PyStr "ION Orchard";
           GeoResult.road := PyStr "Orchard Turn";
           GeoResult.postal_code := Some "238874"%string;
           GeoResult.error := None;
           GeoResult.timestamp := Env.now env h |}, h)
  /\ Float.lit "1.304167" = S754_finite false 5873446015228898 (-52)
  /\ Float.lit "103.833611" = S754_finite false 7306640809502079 (-46)
  /\ is_valid_singapore_coordinates (Float.lit "1.304167") (Float.lit "103.833611") = true.
Proof. vm_compute. repeat split. Qed.

(** ** Digits, blanks and word characters *)

Lemma space_not_digit c : Char.is_space c = true -> Char.is_digit c = false.
Proof.
  destruct c as [b0 b1 b2 b3 b4 b5 b6 b7].
  destruct b0, b1, b2, b3, b4, b5, b6, b7; vm_compute; congruence.
Qed.

Lemma digit_is_word c : Char.is_digit c = true -> Char.is_word c = true.
Proof. unfold Char.is_word. now intros ->. Qed.

Lemma digit_is_py_digit c : Char.is_digit c = true -> Char.is_py_digit c = true.
Proof. unfold Char.is_py_digit. now intros ->. Qed.

Lemma digit_not_line_feed c : Char.is_digit c = true -> (Char.code c =? 10)%N = false.
Proof.
  unfold Char.is_digit, Char.in_range. intros [H _]%andb_prop.
  apply N.leb_le in H. apply N.eqb_neq. lia.
Qed.

Lemma chars_of_chars l : chars (of_chars l) = l.
Proof. apply list_ascii_of_string_of_list_ascii. Qed.

Lemma length_chars s : length (chars s) = String.length s.
Proof. induction s as [|c s IH]; [reflexivity|]. simpl. now rewrite <- IH. Qed.

Lemma filter_drop_while {A} (p q : A -> bool) l :
  (forall x, p x = true -> q x = false) ->
  List.filter q (drop_while p l) = List.filter q l.
Proof.
  intros Hpq. induction l as [|x l IH]; [reflexivity|].
  cbn. destruct (p x) eqn:Hp; [|reflexivity].
  now rewrite (Hpq x Hp).
Qed.

(** Stripping removes no digit. *)
Lemma digits_only_strip s : digits_only (strip s) = digits_only s.
Proof.
  unfold digits_only, strip, strip_with. rewrite chars_of_chars. f_equal.
  rewrite filter_rev, (filter_drop_while _ _ _ space_not_digit).
  rewrite filter_rev, rev_involutive.
  apply (filter_drop_while _ _ _ space_not_digit).
Qed.

Lemma forallb_filter {A} (p : A -> bool) l : forallb p (List.filter p l) = true.
Proof.
  induction l as [|x l IH]; [reflexivity|].
  cbn. destruct (p x) eqn:Hp; [cbn; now rewrite Hp | exact IH].
Qed.

(** On a string of digits the postal-code pattern asks for the length. *)
Lemma match_postal_code_regex_digits l :
  forallb Char.is_digit l = true ->
  match_postal_code_regex (of_chars l) = (length l =? 6).
Proof.
  unfold match_postal_code_regex. rewrite chars_of_chars. intros Hd.
  assert (Hf : forallb Char.is_digit (firstn 6 l) = true).
  { rewrite <- (firstn_skipn 6 l), forallb_app in Hd. now apply andb_prop in Hd. }
  rewrite Hf. cbn [andb].
  destruct l as [|c1 [|c2 [|c3 [|c4 [|c5 [|c6 [|c7 [|c8 l]]]]]]]]; try reflexivity.
  cbn. apply digit_not_line_feed.
  rewrite forallb_forall in Hd. apply Hd. cbn. tauto.
Qed.

(** [validate_postal_code] accepts a string exactly when six digits are
    left of it once every other character is removed. *)
Lemma validate_postal_code_six_digits s :
  validate_postal_code (PyStr s) = true <-> six_digits s.
Proof.
  unfold validate_postal_code, six_digits, digit_count.
  cbn [truthy]. rewrite negb_involutive, digits_only_strip.
  unfold digits_only. rewrite match_postal_code_regex_digits by apply forallb_filter.
  destruct (String.eqb_spec s "") as [->|Hs]; cbn [negb].
  - split; discriminate.
  - apply Nat.eqb_eq.
Qed.

(** A string with six digits among its characters is cleaned to them. *)
Lemma clean_postal_code_six_digits s :
  six_digits s -> clean_postal_code (PyStr s) = Some (digits_only s).
Proof.
  unfold six_digits, digit_count, clean_postal_code. intros H6.
  assert (Hs : s <> ""%string) by (intros ->; discriminate H6).
  cbn [truthy]. apply String.eqb_neq in Hs. rewrite Hs. cbn [negb].
  rewrite digits_only_strip. unfold digits_only at 1 2 3.
  rewrite <- length_chars, chars_of_chars, H6. cbn [Nat.eqb andb].
  assert (Hd : forallb Char.is_py_digit (List.filter Char.is_digit (chars s)) = true).
  { apply forallb_forall. intros c [_ Hc]%filter_In. now apply digit_is_py_digit. }
  rewrite Hd.
  destruct (String.eqb_spec (of_chars (List.filter Char.is_digit (chars s))) "") as [He|_];
    [|reflexivity].
  apply (f_equal chars) in He. rewrite chars_of_chars in He. now rewrite He in H6.
Qed.

(** ** The search for a postal code inside a text *)

Lemma postal_run_here_spec before l run :
  postal_run_here before l = Some run <->
  exists post,
    l = run ++ post /\ length run = 6
    /\ Forall (fun c => Char.is_digit c = true) run
    /\ not_word before /\ not_word (head post).
Proof.
  unfold postal_run_here, not_word. split.
  - destruct (word_boundary before (head l)) eqn:Hb1; [|discriminate].
    destruct (forallb Char.is_digit (firstn 6 l)) eqn:Hd; [|discriminate].
    destruct (length (firstn 6 l) =? 6) eqn:Hlen; [|discriminate].
    destruct (word_boundary (nth_error (firstn 6 l) 5) (head (skipn 6 l))) eqn:Hb2;
      [|discriminate].
    cbn [andb]. intros [= <-]. exists (skipn 6 l).
    apply Nat.eqb_eq in Hlen. rewrite forallb_forall in Hd.
    assert (HF : Forall (fun c => Char.is_digit c = true) (firstn 6 l))
      by now apply List.Forall_forall.
    split; [now rewrite firstn_skipn|]. split; [exact Hlen|]. split; [exact HF|].
    destruct l as [|c1 [|c2 [|c3 [|c4 [|c5 [|c6 post]]]]]]; try discriminate Hlen.
    cbn in Hb1, Hb2, HF |- *. unfold word_boundary in Hb1, Hb2. cbn in Hb1, Hb2.
    assert (H1 : Char.is_word c1 = true).
    { apply digit_is_word. now inversion HF. }
    assert (H6 : Char.is_word c6 = true).
    { apply digit_is_word. do 5 (apply Forall_inv_tail in HF). now inversion HF. }
    rewrite ?H1 in Hb1. rewrite ?H6 in Hb2.
    change (skipn 0 post) with post in *.
    split.
    + destruct (from_option Char.is_word false before);
        [cbn in Hb1; discriminate | reflexivity].
    + destruct (from_option Char.is_word false (head post));
        [cbn in Hb2; discriminate | reflexivity].
  - intros (post & -> & Hlen & HF & Hb & Ha).
    destruct run as [|c1 [|c2 [|c3 [|c4 [|c5 [|c6 [|]]]]]]]; try discriminate Hlen.
    cbn [app firstn skipn head nth_error length Nat.eqb].
    assert (Hd : forallb Char.is_digit [c1; c2; c3; c4; c5; c6] = true).
    { apply forallb_forall. now apply List.Forall_forall. }
    rewrite firstn_O, skipn_O.
    rewrite Hd. unfold word_boundary. rewrite Hb, Ha. cbn [from_option].
    rewrite (digit_is_word c1), (digit_is_word c6); [reflexivity | |].
    + do 5 (apply Forall_inv_tail in HF). now inversion HF.
    + now inversion HF.
Qed.

Lemma search_postal_run_sound l :
  forall before run, search_postal_run before l = Some run -> run_in before l run.
Proof.
  induction l as [|c l IH]; intros before run H; cbn [search_postal_run] in H.
  - destruct (postal_run_here before []) eqn:Hh; [|discriminate].
    injection H as ->. apply postal_run_here_spec in Hh as (post & Hl & Hlen & _).
    destruct run; [discriminate Hlen | discriminate Hl].
  - destruct (postal_run_here before (c :: l)) as [run'|] eqn:Hh.
    + injection H as ->.
      apply postal_run_here_spec in Hh as (post & Hl & Hlen & HF & Hb & Ha).
      exists [], post. now repeat split.
    + apply IH in H as (pre & post & -> & Hlen & HF & Hb & Ha).
      exists (c :: pre), post. repeat split; trivial.
      rewrite last_cons. now destruct (last pre).
Qed.

Lemma search_postal_run_complete before l run :
  run_in before l run -> exists run', search_postal_run before l = Some run'.
Proof.
  intros (pre' & post & -> & Hlen & HF & Hb & Ha).
  revert before Hb. induction pre' as [|c pre' IH]; intros before Hb.
  - assert (Hh : postal_run_here before (run ++ post) = Some run).
    { apply postal_run_here_spec. exists post. now repeat split. }
    exists run. destruct run; [discriminate Hlen|].
    cbn [app search_postal_run] in *. now rewrite Hh.
  - cbn [app search_postal_run].
    destruct (postal_run_here before (c :: pre' ++ run ++ post)) as [run'|]; [eauto|].
    apply IH. rewrite last_cons in Hb. now destruct (last pre').
Qed.

(** The search finds a match exactly when the text holds a standalone run
    of six digits. *)
Lemma re_search_postal_spec s :
  (exists code, re_search_postal s = Some code) <-> has_standalone_run s.
Proof.
  unfold re_search_postal, has_standalone_run, standalone_run. split.
  - intros [code H].
    destruct (search_postal_run None (chars s)) as [run|] eqn:Hs; [|discriminate].
    apply search_postal_run_sound in Hs as (pre & post & Hl & Hlen & HF & Hb & Ha).
    exists run, pre, post. repeat split; trivial. now destruct (last pre).
  - intros (run & pre & post & Hl & Hlen & HF & Hb & Ha).
    destruct (search_postal_run_complete None (chars s) run) as [run' ->].
    + exists pre, post. repeat split; trivial. now destruct (last pre).
    + cbn. eauto.
Qed.

Lemma re_search_postal_none s :
  re_search_postal s = None <-> ~ has_standalone_run s.
Proof.
  rewrite <- re_search_postal_spec. destruct (re_search_postal s); split.
  - intros [=].
  - intros H. exfalso. eauto.
  - intros _ [code [=]].
  - reflexivity.
Qed.

(** ** The classification of a query *)

Lemma no_text_empty_or_non_string query :
  no_text query -> empty_or_non_string query = true.
Proof.
  unfold empty_or_non_string.
  destruct query as [| | | |s| |]; intros Hq; try apply orb_true_r.
  cbn [no_text] in Hq. rewrite Hq. apply orb_true_r.
Qed.

Lemma text_not_empty_or_non_string s :
  strip s <> ""%string -> empty_or_non_string (PyStr s) = false.
Proof.
  intros Hs. unfold empty_or_non_string. cbn [truthy]. rewrite !negb_involutive.
  apply orb_false_intro; apply String.eqb_neq; [|exact Hs].
  intros ->. now apply Hs.
Qed.

(** C6, as stated: with [unknown] kept for empty and non-string queries,
    the query of three blanks would be handled as a building name. It is
    not: [geocode] answers it at once with the type [unknown]. *)
Lemma blank_query_is_unknown :
  classified_as_stated (PyStr "   ") Building
  /\ exists r,
       geocode Examples.offline (PyStr "   ") [] = (Ok r, [])
       /\ GeoResult.query_type r = "unknown"%string
       /\ GeoResult.query_type r <> kind_name Building.
Proof.
  split.
  - apply stated_building; [discriminate | discriminate |].
    apply re_search_postal_none. reflexivity.
  - eexists. split; [vm_compute; reflexivity|]. split; [reflexivity | discriminate].
Qed.

(** The branch [geocode] takes, class by class. *)
Lemma geocode_by_kind env query kind h :
  classified query kind ->
  geocode env query h
  = match kind with
    | Unknown =>
        (Ok {| GeoResult.query := query;
               GeoResult.query_type := "unknown";
               GeoResult.success := false;
               GeoResult.latitude := None;
               GeoResult.longitude := None;
               GeoResult.address := PyNone;
               GeoResult.building := PyNone;
               GeoResult.road := PyNone;
               GeoResult.postal_code := None;
               GeoResult.error := Some (Text "Invalid query: empty or non-string input");
               GeoResult.timestamp := Env.now env h |}, h)
    | PostalCode => geocode_postal_code env (PyStr (stripped query)) h
    | Address => geocode_address env (PyStr (stripped query)) h
    | Building => geocode_building env (PyStr (stripped query)) h
    end.
Proof.
  intros Hk. unfold geocode.
  destruct Hk as [query Hq | s Hs H6 | s Hs H6 Hrun | s Hs H6 Hrun].
  - now rewrite (no_text_empty_or_non_string query Hq).
  - rewrite (text_not_empty_or_non_string s Hs). cbn [stripped].
    apply validate_postal_code_six_digits in H6. now rewrite H6.
  - rewrite (text_not_empty_or_non_string s Hs). cbn [stripped].
    destruct (validate_postal_code (PyStr (strip s))) eqn:Hv.
    + now apply validate_postal_code_six_digits in Hv.
    + apply re_search_postal_spec in Hrun as [code ->]. reflexivity.
  - rewrite (text_not_empty_or_non_string s Hs). cbn [stripped].
    destruct (validate_postal_code (PyStr (strip s))) eqn:Hv.
    + now apply validate_postal_code_six_digits in Hv.
    + apply re_search_postal_none in Hrun. now rewrite Hrun.
Qed.

(** The result carries the ['query_type'] of the class of the query. *)
Lemma geocode_type_by_kind env query kind h r h' :
  classified query kind ->
  geocode env query h = (Ok r, h') -> GeoResult.query_type r = kind_name kind.
Proof.
  intros Hk. rewrite (geocode_by_kind env query kind h Hk).
  destruct kind; cbn [kind_name].
  - now intros [= <- _].
  - now intros (_ & ? & _)%geocode_postal_code_spec.
  - now intros (_ & ? & _)%geocode_address_spec.
  - now intros (_ & ? & _)%geocode_building_spec.
Qed.

(** Every query falls in one class. *)
Lemma every_query_classified query : exists kind, classified query kind.
Proof.
  destruct query as [| | | |s| |];
    try (exists Unknown; now constructor).
  destruct (String.eqb_spec (strip s) "") as [He|Hne].
  - exists Unknown. now constructor.
  - destruct (validate_postal_code (PyStr (strip s))) eqn:Hv.
    + exists PostalCode. constructor; [exact Hne|].
      now apply validate_postal_code_six_digits.
    + assert (H6 : ~ six_digits (strip s)).
      { intros H6%validate_postal_code_six_digits. congruence. }
      destruct (re_search_postal (strip s)) as [code|] eqn:Hr.
      * exists Address. constructor; trivial. apply re_search_postal_spec. eauto.
      * exists Building. constructor; trivial. now apply re_search_postal_none.
Qed.

(** ** When the geocoder returns *)

Lemma sample_entries_usable :
  map_Forall (fun _ entry => usable entry = true) SAMPLE_GEOCODING_DATA.
Proof.
  assert (H : bool_decide
                (map_Forall (fun (_ : string) entry => usable entry = true)
                   SAMPLE_GEOCODING_DATA) = true) by (vm_compute; reflexivity).
  now apply bool_decide_eq_true in H.
Qed.

Lemma make_api_call_usable env query h :
  conforming env ->
  exists geocoding_result h',
    _make_api_call env query h = (Ok geocoding_result, h')
    /\ usable geocoding_result = true.
Proof.
  intros Henv. unfold _make_api_call.
  destruct (SAMPLE_GEOCODING_DATA !! strip query) as [entry|] eqn:Hin.
  - exists entry, h. split; [reflexivity|].
    exact (sample_entries_usable _ _ Hin).
  - unfold io_bind, http_get.
    destruct (Env.requests_get env h (strip query)) as [|status [data|]] eqn:Hget;
      try (eexists; eexists; split; reflexivity).
    + destruct (Z.eq_dec status 200%Z) as [->|Hne].
      * eexists; eexists; split; [reflexivity|]. now apply (Henv h (strip query)).
      * exists PyNone. eexists. split; [|reflexivity].
        destruct status as [|p|p]; try reflexivity.
        repeat (destruct p as [p|p|]; try reflexivity). congruence.
    + exists PyNone. eexists. split; [|reflexivity].
      destruct status as [|p|p]; try reflexivity.
      repeat (destruct p as [p|p|]; try reflexivity).
Qed.

Lemma usable_extract geocoding_result :
  usable geocoding_result = true ->
  truthy geocoding_result = true ->
  (exists c, _extract_coordinates geocoding_result = Ok c)
  /\ exists code, postal_code_of_address (result_field geocoding_result "ADDRESS") = Ok code.
Proof.
  unfold usable. intros Hu Ht. rewrite Ht in Hu. cbn [negb orb] in Hu.
  destruct geocoding_result as [| | | | | |d]; try discriminate.
  apply andb_prop in Hu as [[Hlat Hlon]%andb_prop Haddr].
  apply negb_true_iff in Hlat, Hlon. split.
  - unfold _extract_coordinates.
    destruct (LightningFacts.py_float_in_range _ Hlat) as [[la Hla] | [Hla | Hla]];
      rewrite Hla; cbn; eauto.
    destruct (LightningFacts.py_float_in_range _ Hlon) as [[lo Hlo] | [Hlo | Hlo]];
      rewrite Hlo; cbn; eauto.
    destruct (Bounds.contains _ _ _); eauto.
  - cbn [result_field].
    destruct (dict_get d "ADDRESS" (PyStr "")); try discriminate. cbn. eauto.
Qed.

Lemma lookup_returns env searchVal with_postal not_found result h :
  conforming env ->
  exists r h', lookup env searchVal with_postal not_found result h = (Ok r, h').
Proof.
  intros Henv. unfold lookup, io_bind at 1.
  destruct (make_api_call_usable env searchVal h Henv) as (gr & h1 & -> & Hu).
  destruct (truthy gr) eqn:Ht; [|unfold io_ret; eauto].
  destruct (usable_extract gr Hu Ht) as [[c Hc] [code Hcode]].
  unfold io_bind at 1, io_lift at 1. rewrite Hc.
  destruct c as [c|]; [|unfold io_ret; eauto].
  destruct with_postal; [|unfold io_ret; eauto].
  unfold io_bind, io_lift. cbn [GeoResult.set_found GeoResult.address].
  rewrite Hcode. destruct code; unfold io_ret; eauto.
Qed.

(** In a conforming world every call of [geocode] returns a dictionary. *)
Lemma geocode_returns env query h :
  conforming env -> exists r h', geocode env query h = (Ok r, h').
Proof.
  intros Henv. unfold geocode.
  destruct (empty_or_non_string query); [unfold io_bind, io_ret; cbn; eauto|].
  destruct (validate_postal_code _).
  - unfold geocode_postal_code, io_bind at 1, _create_result_dict.
    destruct (clean_postal_code _); [now apply lookup_returns | unfold io_ret; eauto].
  - destruct (re_search_postal _).
    + unfold geocode_address, io_bind at 1, _create_result_dict.
      destruct (empty_or_non_string _); [unfold io_ret; eauto | now apply lookup_returns].
    + unfold geocode_building, io_bind at 1, _create_result_dict.
      destruct (empty_or_non_string _); [unfold io_ret; eauto | now apply lookup_returns].
Qed.

Lemma sequential_run_exists env delay queries :
  conforming env ->
  Env.sleep_raises env delay = None ->
  forall h, exists df h', sequential_run env delay queries h df h'.
Proof.
  intros Henv Hsleep.
  induction queries as [|query queries IH]; intros h.
  - exists [], h. constructor.
  - destruct (geocode_returns env query h Henv) as (r & h1 & Hg).
    destruct queries as [|query' queries'].
    + exists [r], h1. now constructor.
    + destruct (IH (h1 ++ [Sleep delay])) as (rs & h2 & Hrun).
      exists (r :: rs), h2. now apply run_next with h1.
Qed.

Lemma offline_conforming : conforming Examples.offline.
Proof. intros h searchVal data [=]. Qed.

Lemma online_conforming : conforming Examples.online.
Proof. intros h searchVal data [= <-]. reflexivity. Qed.

(** ** The batch runner *)

Lemma geocode_query env query h r h' :
  geocode env query h = (Ok r, h') -> GeoResult.query r = reported_query query.
Proof.
  destruct (every_query_classified query) as [kind Hk].
  rewrite (geocode_by_kind env query kind h Hk).
  destruct Hk as [query Hq | s Hs H6 | s Hs H6 Hrun | s Hs H6 Hrun];
    cbn [stripped reported_query].
  - intros [= <- _]. cbn [GeoResult.query]. destruct query; trivial.
    cbn [no_text] in Hq. cbn [reported_query]. now rewrite Hq.
  - apply String.eqb_neq in Hs. rewrite Hs.
    now intros (? & _)%geocode_postal_code_spec.
  - apply String.eqb_neq in Hs. rewrite Hs.
    now intros (? & _)%geocode_address_spec.
  - apply String.eqb_neq in Hs. rewrite Hs.
    now intros (? & _)%geocode_building_spec.
Qed.

Lemma batch_loop_spec env delay n queries :
  forall i results h df h',
    i + length queries = S n ->
    batch_loop env delay n i queries results h = (Ok df, h')
    <-> exists rs, df = results ++ rs /\ sequential_run env delay queries h rs h'.
Proof.
  induction queries as [|query queries IH]; intros i results h df h' Hi.
  - cbn. split.
    + intros [= <- <-]. exists []. rewrite app_nil_r. split; [reflexivity | constructor].
    + intros (rs & -> & Hrun). inversion Hrun; subst. now rewrite app_nil_r.
  - cbn [batch_loop]. unfold io_bind at 1.
    cbn [length] in Hi.
    destruct (geocode env query h) as [[r|e] h1] eqn:Hg.
    2: { split; [discriminate|]. intros (rs & _ & Hrun).
         inversion Hrun; subst; congruence. }
    unfold io_bind at 1.
    destruct queries as [|query' queries'].
    + assert (Hlt : (i <? n) = false) by (apply Nat.ltb_ge; cbn in Hi; lia).
      rewrite Hlt. cbn. split.
      * intros [= <- <-]. exists [r]. split; [reflexivity | now constructor].
      * intros (rs & -> & Hrun). inversion Hrun; subst; [|congruence].
        unfold io_ret. congruence.
    + assert (Hlt : (i <? n) = true) by (apply Nat.ltb_lt; cbn in Hi; lia).
      rewrite Hlt. unfold time_sleep.
      destruct (Env.sleep_raises env delay) as [e|] eqn:Hsleep.
      * split; [discriminate|]. intros (rs & _ & Hrun).
        inversion Hrun; subst; congruence.
      * rewrite (IH (S i) (results ++ [r]) (h1 ++ [Sleep delay]) df h') by (cbn in *; lia).
        split.
        -- intros (rs & -> & Hrun). exists (r :: rs). rewrite <- app_assoc.
           split; [reflexivity|]. now apply run_next with h1.
        -- intros (rs & -> & Hrun). inversion Hrun; subst.
           rewrite Hg in *. match goal with H : (Ok _, _) = (Ok _, _) |- _ =>
             injection H as <- <- end.
           eexists. rewrite <- app_assoc. split; [reflexivity | eassumption].
Qed.

Lemma sequential_run_results env delay queries h rs h' :
  sequential_run env delay queries h rs h' ->
  length rs = length queries
  /\ Forall2 (fun query r => GeoResult.query r = reported_query query) queries rs.
Proof.
  induction 1 as [h | query h r h' Hg | query queries h r h1 rs h2 Hne Hg Hs Hrun [IHl IHf]].
  - split; [reflexivity | constructor].
  - split; [reflexivity|]. constructor; [|constructor]. now apply geocode_query in Hg.
  - split; [cbn; congruence|]. constructor; [|exact IHf]. now apply geocode_query in Hg.
Qed.

Lemma filter_partition_length {A} (p : A -> bool) l :
  length (List.filter (fun x => negb (p x)) l) = length l - length (List.filter p l).
Proof.
  induction l as [|x l IH]; [reflexivity|].
  pose proof (filter_length_le p l).
  cbn. destruct (p x); cbn; lia.
Qed.

(** C10: [batch_geocode] returns one result per query, in the order of the
    queries, each query being geocoded in turn, after the previous one and
    a pause. A run of calls that all return, whatever their success flags,
    is what the batch returns: a failed lookup does not end the loop, and
    in a conforming world whose pauses do not raise the batch returns for
    every list of queries. The counts of successes and failures are
    computed from the finished frame. *)
Theorem batch_geocode_sequential env queries delay h df h' :
  (sequential_run env delay queries h df h' ->
   batch_geocode env queries delay h = (Ok df, h'))
  /\ (batch_geocode env queries delay h = (Ok df, h') ->
      sequential_run env delay queries h df h'
      /\ length df = length queries
      /\ Forall2 (fun query r => GeoResult.query r = reported_query query) queries df
      /\ (df <> [] ->
          batch_statistics df
          = Some (length (List.filter GeoResult.success df),
                  length (List.filter (fun r => negb (GeoResult.success r)) df))))
  /\ (conforming env -> Env.sleep_raises env delay = None ->
      exists df0 h0,
        batch_geocode env queries delay h = (Ok df0, h0)
        /\ length df0 = length queries).
Proof.
  unfold batch_geocode.
  assert (Hspec : forall df h',
    batch_loop env delay (length queries) 1 queries [] h = (Ok df, h')
    <-> exists rs, df = [] ++ rs /\ sequential_run env delay queries h rs h')
    by (intros; now apply batch_loop_spec).
  split; [|split].
  - intros Hrun. apply Hspec. now exists df.
  - intros (rs & -> & Hrun)%Hspec. cbn [app].
    destruct (sequential_run_results _ _ _ _ _ _ Hrun) as [Hlen HF].
    repeat split; trivial.
    intros Hne. unfold batch_statistics. rewrite filter_partition_length.
    now destruct rs.
  - intros Henv Hsleep.
    destruct (sequential_run_exists env delay queries Henv Hsleep h) as (df0 & h0 & Hrun).
    exists df0, h0. split.
    + apply Hspec. now exists df0.
    + now apply sequential_run_results in Hrun.
Qed.

Lemma batch_geocode_witness :
  exists df h',
    batch_geocode Examples.offline
      [PyStr "238874"; PyStr "not-a-real-place-xyz"; PyStr "018989"]
      Examples.half_second [] = (Ok df, h')
    /\ length df = 3
    /\ map GeoResult.success df = [true; false; true]
    /\ batch_statistics df = Some (2, 1).
Proof.
  eexists. eexists.
  assert (H : batch_geocode Examples.offline
                [PyStr "238874"; PyStr "not-a-real-place-xyz"; PyStr "018989"]
                Examples.half_second [] = (Ok _, _)) by (vm_compute; reflexivity).
  split; [exact H|].
  destruct (proj1 (proj2 (batch_geocode_sequential _ _ _ _ _ _)) H)
    as (_ & Hlen & _ & Hstat).
  split; [exact Hlen|]. split; [reflexivity|].
  rewrite Hstat; [reflexivity | discriminate].
Defined.

End GeocoderFacts.

(** * Further properties of the lightning service *)

Module SummaryFacts.

Import LightningService.
Import Spec.
Import Terms.
Import LightningFeed.
Local Open Scope nat_scope.

(** ** When the normaliser raises *)

Lemma py_float_overflow v :
  out_of_range v = true -> py_float v = Raise OverflowError.
Proof. destruct v; try discriminate. cbn. now intros ->. Qed.

Lemma overflowing_raises r :
  overflowing r = true ->
  coerce_coordinates (default ∅ (Reading.location r)) = Raise OverflowError.
Proof.
  unfold overflowing, coerces, coerce_coordinates.
  fold (coordinate "latitude" r) (coordinate "longitude" r).
  intros [Hlat | [Hlat Hlon]%andb_prop]%orb_prop.
  - now rewrite (py_float_overflow _ Hlat).
  - destruct (py_float (coordinate "latitude" r)); [|discriminate].
    cbn. now rewrite (py_float_overflow _ Hlon).
Qed.

Lemma process_readings_overflow record_datetime rs :
  existsb overflowing rs = true ->
  forall acc n, process_readings record_datetime rs acc n = Raise OverflowError.
Proof.
  induction rs as [|r rs IH]; [discriminate|].
  cbn [existsb process_readings]. intros H acc n.
  destruct (overflowing r) eqn:Hr.
  - now rewrite (overflowing_raises r Hr).
  - destruct (LightningFacts.coerce_coordinates_total r Hr) as [[[la lo]|] ->];
      cbn [exc_bind]; now apply IH.
Qed.

Lemma existsb_false_Forall {A} (p : A -> bool) l :
  existsb p l = false -> Forall (fun x => p x = false) l.
Proof.
  induction l as [|x l IH]; [constructor|].
  cbn. intros [Hx Hl]%orb_false_elim. constructor; auto.
Qed.

Lemma process_records_overflow ps :
  existsb (fun p => existsb overflowing (readings p)) ps = true ->
  forall st, process_records ps st = Raise OverflowError.
Proof.
  induction ps as [|p ps IH]; [discriminate|].
  cbn [existsb process_records]. intros H st.
  destruct (existsb overflowing (readings p)) eqn:Hp.
  - unfold process_record.
    change (default [] (Item.readings (default Item.empty (Period.item p))))
      with (readings p).
    destruct (readings p) as [|r rs] eqn:Hrs; [discriminate|].
    now rewrite (process_readings_overflow _ _ Hp).
  - apply existsb_false_Forall in Hp.
    assert (Hone : Forall (fun p => Forall (fun r => overflowing r = false) (readings p)) [p])
      by (constructor; [exact Hp | constructor]).
    destruct (LightningFacts.process_records_total [p] Hone st) as [st1 H1].
    cbn [process_records] in H1.
    destruct (process_record st p) as [st2|e]; [|discriminate].
    cbn [exc_bind]. now apply IH.
Qed.

Lemma parse_cases now response :
  (Response.code response <> Some 0%Z ->
   parse_lightning_response now (Some response) = Ok None)
  /\ (Response.code response = Some 0%Z -> overflows response = true ->
      parse_lightning_response now (Some response) = Raise OverflowError)
  /\ (Response.code response = Some 0%Z -> overflows response = false ->
      exists d, parse_lightning_response now (Some response) = Ok (Some d)).
Proof.
  split; [apply LightningFacts.parse_rejects|]. split.
  - intros Hcode Hover. unfold parse_lightning_response. rewrite Hcode.
    change (default [] (Data.records (default Data.empty (Response.data response))))
      with (periods response).
    now rewrite (process_records_overflow _ Hover).
  - intros Hcode Hover. apply LightningFacts.status_zero_accepted; [exact Hcode|].
    apply existsb_false_Forall in Hover.
    eapply List.Forall_impl; [|exact Hover]. intros p Hp. cbn in Hp.
    now apply existsb_false_Forall.
Qed.

Lemma accepted_no_overflow now response d :
  parse_lightning_response now (Some response) = Ok (Some d) ->
  Response.code response = Some 0%Z /\ overflows response = false.
Proof.
  intros H. pose proof H as (Hcode & _)%LightningFacts.parse_ok.
  split; [exact Hcode|].
  destruct (overflows response) eqn:Hover; [|reflexivity].
  destruct (parse_cases now response) as (_ & Hraise & _).
  rewrite (Hraise Hcode Hover) in H. discriminate.
Qed.

(** X1: the three outcomes of [parse_lightning_response]. [None] and a
    response whose status code is missing or not [0] give [None]; a
    response with the status code [0] gives a summary, unless one of its
    readings carries an integer coordinate beyond the float range that a
    coercion reaches, in which case the call raises [OverflowError]. *)
Theorem parse_lightning_response_outcome now response :
  parse_lightning_response now None = Ok None
  /\ (Response.code response <> Some 0%Z ->
      parse_lightning_response now (Some response) = Ok None)
  /\ (Response.code response = Some 0%Z -> overflows response = true ->
      parse_lightning_response now (Some response) = Raise OverflowError)
  /\ (Response.code response = Some 0%Z -> overflows response = false ->
      exists d, parse_lightning_response now (Some response) = Ok (Some d)).
Proof. split; [reflexivity | apply parse_cases]. Qed.

(** ** The records of a summary *)

Lemma length_strikes_of p : length (strikes_of p) = coerced_count p.
Proof. apply LightningFacts.filter_coerced_strikes. Qed.

Lemma strikes_of_stamped p :
  Forall (fun s => Strike.record_datetime s = Period.datetime p) (strikes_of p).
Proof.
  apply List.Forall_forall. intros s Hs.
  apply list_elem_of_In, list_elem_of_omap in Hs as (r & _ & Hr).
  now apply LightningFacts.strike_of_record_datetime in Hr.
Qed.

(** X2: the records of a summary follow the periods of the batch, one
    record per period and in the same order: the record carries the time
    stamp of its period, counts all the raw readings of the period in
    [readings_count], and holds the strikes of the readings that coerce,
    which are never more than [readings_count]. *)
Theorem records_follow_periods now response d :
  parse_lightning_response now (Some response) = Ok (Some d) ->
  Forall2 (fun period record =>
             RecordData.datetime record = Period.datetime period
             /\ RecordData.readings_count record = length (readings period)
             /\ RecordData.readings record = strikes_of period
             /\ length (RecordData.readings record) <= RecordData.readings_count record)
          (periods response) (ParsedData.records d).
Proof.
  intros (_ & -> & _)%LightningFacts.parse_ok.
  induction (periods response) as [|p ps IH]; cbn [map]; constructor; [|exact IH].
  cbn. repeat split.
  rewrite length_strikes_of. unfold coerced_count. apply filter_length_le.
Qed.

Lemma records_follow_periods_witness :
  exists d,
    parse_lightning_response Examples.now (Some Examples.mixed_batch) = Ok (Some d)
    /\ Forall2 (fun period record =>
                  RecordData.datetime record = Period.datetime period
                  /\ RecordData.readings_count record = length (readings period)
                  /\ RecordData.readings record = strikes_of period
                  /\ length (RecordData.readings record) <= RecordData.readings_count record)
               (periods Examples.mixed_batch) (ParsedData.records d).
Proof.
  eexists.
  assert (H : parse_lightning_response Examples.now (Some Examples.mixed_batch)
              = Ok (Some _)) by (vm_compute; reflexivity).
  split; [exact H | exact (records_follow_periods _ _ _ H)].
Defined.

Lemma all_points_of_periods ps :
  all_points (map record_of ps) = flat_map strikes_of ps.
Proof.
  induction ps as [|p ps IH]; [reflexivity|].
  cbn [map all_points flat_map]. f_equal; [|exact IH].
  cbn [record_of RecordData.datetime RecordData.readings].
  pose proof (strikes_of_stamped p) as Hs.
  induction (strikes_of p) as [|s l IHl]; [reflexivity|].
  cbn [map]. inversion Hs; subst.
  rewrite LightningFacts.coord_data_id by assumption. f_equal. now apply IHl.
Qed.

Lemma length_flat_map_strikes ps :
  length (flat_map strikes_of ps) = list_sum (map coerced_count ps).
Proof.
  induction ps as [|p ps IH]; [reflexivity|].
  cbn [flat_map map]. simpl list_sum.
  now rewrite length_app, length_strikes_of, IH.
Qed.

Lemma extract_of_parse now response d :
  parse_lightning_response now (Some response) = Ok (Some d) ->
  extract_coordinates (Some d) = flat_map strikes_of (periods response).
Proof.
  intros (_ & Hrec & _)%LightningFacts.parse_ok.
  unfold extract_coordinates. rewrite LightningFacts.extract_coordinates_logged_spec.
  cbn [fst]. rewrite Hrec. apply all_points_of_periods.
Qed.

(** X3: [extract_coordinates] applied to the summary of an accepted batch
    returns the strikes of the batch, period after period, and as many of
    them as [total_strikes] says; the list is empty exactly when
    [total_strikes] is [0]. *)
Theorem extracted_strikes_match_counter now response d :
  parse_lightning_response now (Some response) = Ok (Some d) ->
  extract_coordinates (Some d) = flat_map strikes_of (periods response)
  /\ length (extract_coordinates (Some d)) = ParsedData.total_strikes d
  /\ (extract_coordinates (Some d) = [] <-> ParsedData.total_strikes d = 0).
Proof.
  intros H. pose proof (extract_of_parse _ _ _ H) as He.
  apply LightningFacts.parse_ok in H as (_ & _ & Ht & _).
  assert (Hlen : length (extract_coordinates (Some d)) = ParsedData.total_strikes d)
    by now rewrite He, Ht, length_flat_map_strikes.
  repeat split; trivial.
  - intros Hnil. now rewrite <- Hlen, Hnil.
  - intros Hz. rewrite <- Hlen in Hz. now apply length_zero_iff_nil.
Qed.

Lemma extracted_strikes_witness :
  exists d,
    parse_lightning_response Examples.now (Some Examples.mixed_batch) = Ok (Some d)
    /\ length (extract_coordinates (Some d)) = 2
    /\ ParsedData.total_strikes d = 2.
Proof.
  eexists.
  assert (H : parse_lightning_response Examples.now (Some Examples.mixed_batch)
              = Ok (Some _)) by (vm_compute; reflexivity).
  split; [exact H|].
  destruct (extracted_strikes_match_counter _ _ _ H) as (_ & Hlen & _).
  split; [rewrite Hlen|]; reflexivity.
Defined.

(** ** The counters of a summary *)

Lemma filter_map_length {A B} (f : A -> B) (p : B -> bool) l :
  length (List.filter p (map f l)) = length (List.filter (fun x => p (f x)) l).
Proof.
  induction l as [|x l IH]; [reflexivity|].
  cbn. destruct (p (f x)); cbn; now rewrite IH.
Qed.

Lemma list_sum_le {A} (f g : A -> nat) l :
  (forall x, f x <= g x) -> list_sum (map f l) <= list_sum (map g l).
Proof.
  intros Hfg. induction l as [|x l IH]; [reflexivity|].
  cbn [map]. simpl list_sum. specialize (Hfg x). lia.
Qed.

Lemma coerced_count_le p : coerced_count p <= length (readings p).
Proof. unfold coerced_count. apply filter_length_le. Qed.

(** X4: the counters of a summary, read off its records. [total_strikes]
    is the number of strikes the records hold, [records_with_lightning]
    the number of records with a positive [readings_count]; the first is
    at most the sum of the [readings_count]s, the second at most the
    number of records, and every strike carries the time stamp of the
    record that holds it. *)
Theorem summary_counters now response d :
  parse_lightning_response now (Some response) = Ok (Some d) ->
  let records := ParsedData.records d in
  ParsedData.total_strikes d
  = list_sum (map (fun record => length (RecordData.readings record)) records)
  /\ ParsedData.records_with_lightning d
     = length (List.filter (fun record => 0 <? RecordData.readings_count record) records)
  /\ ParsedData.total_strikes d <= list_sum (map RecordData.readings_count records)
  /\ ParsedData.records_with_lightning d <= length records
  /\ Forall (fun record =>
               Forall (fun strike =>
                         Strike.record_datetime strike = RecordData.datetime record)
                      (RecordData.readings record)) records.
Proof.
  intros (_ & Hrec & Ht & Hw & _)%LightningFacts.parse_ok records. subst records.
  rewrite Hrec, Ht, Hw, !map_map, filter_map_length, length_map.
  cbn [record_of RecordData.readings RecordData.readings_count].
  repeat split.
  - f_equal. apply map_ext. intros p. symmetry. apply length_strikes_of.
  - f_equal. apply filter_ext. intros p. unfold has_readings.
    now destruct (readings p).
  - apply list_sum_le, coerced_count_le.
  - apply filter_length_le.
  - apply List.Forall_forall. intros record (p & <- & _)%in_map_iff.
    apply strikes_of_stamped.
Qed.

Lemma summary_counters_witness :
  exists d,
    parse_lightning_response Examples.now (Some Examples.mixed_batch) = Ok (Some d)
    /\ ParsedData.total_strikes d = 2
    /\ ParsedData.records_with_lightning d = 1
    /\ list_sum (map RecordData.readings_count (ParsedData.records d)) = 3.
Proof.
  eexists.
  assert (H : parse_lightning_response Examples.now (Some Examples.mixed_batch)
              = Ok (Some _)) by (vm_compute; reflexivity).
  split; [exact H|].
  destruct (summary_counters _ _ _ H) as (Ht & Hw & _).
  split; [rewrite Ht | split; [rewrite Hw|]]; reflexivity.
Defined.

(** ** Batches put end to end *)

Lemma overflows_app response response1 response2 :
  periods response = periods response1 ++ periods response2 ->
  overflows response = overflows response1 || overflows response2.
Proof. unfold overflows. intros ->. apply existsb_app. Qed.

(** X5: batches put end to end. When two batches are accepted, a batch
    with the status code [0] whose periods are those of the first followed
    by those of the second is accepted too; its records and its extracted
    coordinates are those of the first followed by those of the second,
    and its two counters are the sums of theirs. *)
Theorem parse_of_concatenation now now1 now2 response response1 response2 d1 d2 :
  parse_lightning_response now1 (Some response1) = Ok (Some d1) ->
  parse_lightning_response now2 (Some response2) = Ok (Some d2) ->
  Response.code response = Some 0%Z ->
  periods response = periods response1 ++ periods response2 ->
  exists d,
    parse_lightning_response now (Some response) = Ok (Some d)
    /\ ParsedData.records d = ParsedData.records d1 ++ ParsedData.records d2
    /\ ParsedData.total_strikes d
       = ParsedData.total_strikes d1 + ParsedData.total_strikes d2
    /\ ParsedData.records_with_lightning d
       = ParsedData.records_with_lightning d1 + ParsedData.records_with_lightning d2
    /\ extract_coordinates (Some d)
       = extract_coordinates (Some d1) ++ extract_coordinates (Some d2).
Proof.
  intros H1 H2 Hcode Hps.
  pose proof (accepted_no_overflow _ _ _ H1) as [_ Ho1].
  pose proof (accepted_no_overflow _ _ _ H2) as [_ Ho2].
  destruct (parse_cases now response) as (_ & _ & Hok).
  destruct (Hok Hcode) as [d H].
  { now rewrite (overflows_app _ _ _ Hps), Ho1, Ho2. }
  exists d. split; [exact H|].
  rewrite (extract_of_parse _ _ _ H), (extract_of_parse _ _ _ H1),
    (extract_of_parse _ _ _ H2).
  apply LightningFacts.parse_ok in H as (_ & -> & -> & -> & _).
  apply LightningFacts.parse_ok in H1 as (_ & -> & -> & -> & _).
  apply LightningFacts.parse_ok in H2 as (_ & -> & -> & -> & _).
  rewrite Hps, !map_app, list_sum_app, List.filter_app, length_app, flat_map_app.
  repeat split.
Qed.

Lemma parse_of_concatenation_witness :
  exists d1 d2 d,
    parse_lightning_response Examples.now (Some Scenarios.first_page) = Ok (Some d1)
    /\ parse_lightning_response Examples.now (Some Scenarios.second_page) = Ok (Some d2)
    /\ parse_lightning_response Examples.now (Some Scenarios.both_pages) = Ok (Some d)
    /\ ParsedData.records d = ParsedData.records d1 ++ ParsedData.records d2
    /\ ParsedData.total_strikes d
       = ParsedData.total_strikes d1 + ParsedData.total_strikes d2.
Proof.
  eexists. eexists.
  assert (H1 : parse_lightning_response Examples.now (Some Scenarios.first_page)
               = Ok (Some _)) by (vm_compute; reflexivity).
  assert (H2 : parse_lightning_response Examples.now (Some Scenarios.second_page)
               = Ok (Some _)) by (vm_compute; reflexivity).
  assert (Hps : periods Scenarios.both_pages
                = periods Scenarios.first_page ++ periods Scenarios.second_page)
    by reflexivity.
  destruct (parse_of_concatenation Examples.now _ _ Scenarios.both_pages _ _ _ _
              H1 H2 eq_refl Hps) as (d & H & Hrec & Ht & _).
  exists d. split; [exact H1|]. split; [exact H2|]. split; [exact H|].
  split; [exact Hrec | exact Ht].
Defined.

(** ** The time range of a summary *)

Lemma stamps_in_records ps s :
  In s (stamps_in ps) ->
  exists record, In record (map record_of ps) /\ RecordData.datetime record = Some s.
Proof.
  unfold stamps_in. intros [Hin _]%filter_In.
  apply list_elem_of_In, list_elem_of_omap in Hin as (p & Hp%list_elem_of_In & Hs).
  exists (record_of p). split; [now apply in_map | exact Hs].
Qed.

Lemma no_stamps_in ps :
  stamps_in ps = [] -> Forall (fun record => stamped record = false) (map record_of ps).
Proof.
  unfold stamps_in. induction ps as [|p ps IH]; [constructor|].
  cbn [omap list_omap map]. intros H.
  assert (Hp : stamped (record_of p) = false
               /\ List.filter (fun s => negb (String.eqb s "")) (omap Period.datetime ps) = []).
  { unfold stamped. cbn [record_of RecordData.datetime].
    destruct (Period.datetime p) as [s|]; cbn [List.filter] in H; [|now split].
    destruct (String.eqb s ""); cbn [negb] in H |- *; [now split | discriminate]. }
  destruct Hp as [Hp Hps]. constructor; [exact Hp | now apply IH].
Qed.

(** X6: the time range of a summary is all or nothing. Either [earliest]
    and [latest] are both set, [earliest] is not after [latest] in the
    order of strings, and each is the time stamp of one of the records; or
    both are null, and then no record carries a time stamp other than
    null or the empty string. *)
Theorem time_range_ordered now response d :
  parse_lightning_response now (Some response) = Ok (Some d) ->
  match TimeRange.earliest (ParsedData.time_range d),
        TimeRange.latest (ParsedData.time_range d) with
  | Some lo, Some hi =>
      String.leb lo hi = true
      /\ (exists record,
            In record (ParsedData.records d) /\ RecordData.datetime record = Some lo)
      /\ (exists record,
            In record (ParsedData.records d) /\ RecordData.datetime record = Some hi)
  | None, None => Forall (fun record => stamped record = false) (ParsedData.records d)
  | _, _ => False
  end.
Proof.
  intros (_ & -> & _ & _ & ->)%LightningFacts.parse_ok.
  unfold nonempty_stamps.
  destruct (stamps_in (periods response)) as [|x l] eqn:Hst.
  - cbn. now apply no_stamps_in.
  - destruct (LightningFacts.py_min_spec x l) as (lo & -> & Hlo_in & Hlo).
    destruct (LightningFacts.py_max_spec x l) as (hi & -> & Hhi_in & _).
    cbn [TimeRange.earliest TimeRange.latest]. rewrite <- Hst in *.
    split; [now apply Hlo|]. split; now apply stamps_in_records.
Qed.

Lemma time_range_ordered_witness :
  exists d,
    parse_lightning_response Examples.now (Some Examples.three_stamps_batch) = Ok (Some d)
    /\ TimeRange.earliest (ParsedData.time_range d) = Some "2024-01-15T09:30:00+08:00"%string
    /\ TimeRange.latest (ParsedData.time_range d) = Some "2024-01-15T10:30:00+08:00"%string
    /\ String.leb "2024-01-15T09:30:00+08:00" "2024-01-15T10:30:00+08:00" = true.
Proof.
  eexists.
  assert (H : parse_lightning_response Examples.now (Some Examples.three_stamps_batch)
              = Ok (Some _)) by (vm_compute; reflexivity).
  split; [exact H|]. split; [reflexivity|]. split; [reflexivity|].
  exact (proj1 (time_range_ordered _ _ _ H)).
Defined.

(** ** The summary of the current observations *)

(** X7: [fetch_lightning_data] makes exactly one request, which carries
    the date exactly when the filter is a non-empty string (an empty
    filter is no filter). It returns the decoded body exactly when the
    endpoint answers with the status 200 and a JSON body, and [None] in
    every other case: a failed request, another status, a body that is no
    JSON. *)
Theorem fetch_lightning_data_outcome world date_filter h :
  let date := match date_filter with
              | Some s => if String.eqb s "" then None else Some s
              | None => None
              end in
  snd (fetch_lightning_data world date_filter h) = h ++ [Weather.Get date]
  /\ (forall data,
        fst (fetch_lightning_data world date_filter h) = Some data
        <-> Weather.requests_get world h date = Weather.Answered 200 (Some data))
  /\ fetch_lightning_data world (Some ""%string) h = fetch_lightning_data world None h.
Proof.
  intros date. split; [|split; [|reflexivity]].
  - unfold fetch_lightning_data.
    replace (match date_filter with
             | Some s => if truthy (PyStr s) then Some s else None
             | None => None
             end) with date
      by (subst date; destruct date_filter as [s|]; [|reflexivity];
          cbn; now destruct (String.eqb s "")).
    destruct (Weather.requests_get world h date) as [|status [data|]]; [reflexivity| |].
    + now destruct (status =? 200)%Z, (status =? 400)%Z, (status =? 404)%Z.
    + now destruct (status =? 200)%Z, (status =? 400)%Z, (status =? 404)%Z.
  - intros data. unfold fetch_lightning_data.
    replace (match date_filter with
             | Some s => if truthy (PyStr s) then Some s else None
             | None => None
             end) with date
      by (subst date; destruct date_filter as [s|]; [|reflexivity];
          cbn; now destruct (String.eqb s "")).
    destruct (Weather.requests_get world h date) as [|status [data'|]].
    + split; discriminate.
    + destruct (Z.eqb_spec status 200) as [->|Hne].
      * cbn. split; congruence.
      * split.
        -- now destruct (status =? 400)%Z, (status =? 404)%Z.
        -- intros [= H _]. contradiction.
    + split; [|discriminate].
      now destruct (status =? 200)%Z, (status =? 400)%Z, (status =? 404)%Z.
Qed.

Lemma get_lightning_summary_cases world h :
  let h' := h ++ [Weather.Get None] in
  let now := Weather.now world h' in
  let not_fetched := (Ok (failure "Failed to fetch lightning data from API" now), h') in
  get_lightning_summary world h
  = match Weather.requests_get world h None with
    | Weather.Answered status (Some response) =>
        if (status =? 200)%Z && has_keys response then
          match parse_lightning_response now (Some response) with
          | Raise e => (Raise e, h')
          | Ok None => (Ok (failure "Failed to parse lightning data" now), h')
          | Ok (Some parsed_data) =>
              (Ok {| Summary.success := true;
                     Summary.error := None;
                     Summary.coordinates := extract_coordinates (Some parsed_data);
                     Summary.total_strikes := ParsedData.total_strikes parsed_data;
                     Summary.records_with_lightning :=
                       Some (ParsedData.records_with_lightning parsed_data);
                     Summary.time_range := Some (ParsedData.time_range parsed_data);
                     Summary.timestamp := ParsedData.timestamp parsed_data;
                     Summary.singapore_bounds := Some singapore_bounds;
                     Summary.raw_records_count :=
                       Some (length (ParsedData.records parsed_data)) |}, h')
          end
        else not_fetched
    | _ => not_fetched
    end.
Proof.
  intros h' now not_fetched. unfold get_lightning_summary, fetch_lightning_data.
  fold h'. destruct (Weather.requests_get world h None) as [|status [response|]].
  - reflexivity.
  - destruct (Z.eqb_spec status 200) as [->|Hne]; cbn [andb].
    + destruct (has_keys response); reflexivity.
    + now destruct (status =? 400)%Z, (status =? 404)%Z.
  - destruct (status =? 200)%Z; [reflexivity|].
    now destruct (status =? 400)%Z, (status =? 404)%Z.
Qed.

Lemma parse_timestamp now response d :
  parse_lightning_response now (Some response) = Ok (Some d) -> ParsedData.timestamp d = now.
Proof.
  unfold parse_lightning_response.
  destruct (Response.code response) as [[| |]|]; try discriminate.
  destruct (process_records _ _); [|discriminate]. now intros [= <-].
Qed.

Lemma code_has_keys response z : Response.code response = Some z -> has_keys response = true.
Proof. unfold has_keys. now intros ->. Qed.

(** X8: the summary of an accepted batch. When the weather endpoint
    answers the one request of [get_lightning_summary] (which carries no
    date) with the status 200 and a body that the normaliser accepts, the
    call returns [success = True] without an error: the coordinates are
    the strikes of the body, [total_strikes] is their number,
    [raw_records_count] the number of periods and
    [records_with_lightning] the number of periods with readings. *)
Theorem summary_of_accepted_batch world h response :
  Weather.requests_get world h None = Weather.Answered 200 (Some response) ->
  Response.code response = Some 0%Z ->
  overflows response = false ->
  exists s,
    get_lightning_summary world h = (Ok s, h ++ [Weather.Get None])
    /\ Summary.success s = true
    /\ Summary.error s = None
    /\ Summary.coordinates s = flat_map strikes_of (periods response)
    /\ Summary.total_strikes s = length (Summary.coordinates s)
    /\ Summary.records_with_lightning s
       = Some (length (List.filter has_readings (periods response)))
    /\ Summary.raw_records_count s = Some (length (periods response))
    /\ Summary.timestamp s = Weather.now world (h ++ [Weather.Get None]).
Proof.
  intros Hget Hcode Hover.
  rewrite get_lightning_summary_cases, Hget. cbn [Z.eqb Pos.eqb andb].
  rewrite (code_has_keys _ _ Hcode).
  destruct (parse_cases (Weather.now world (h ++ [Weather.Get None])) response)
    as (_ & _ & Hok).
  destruct (Hok Hcode Hover) as [d Hd]. rewrite Hd.
  eexists. split; [reflexivity|]. cbn.
  pose proof (extracted_strikes := extract_of_parse _ _ _ Hd).
  pose proof (parse_timestamp _ _ _ Hd) as Hnow.
  apply LightningFacts.parse_ok in Hd as (_ & Hrec & Ht & Hw & _).
  rewrite extracted_strikes, Ht, Hw, Hrec, length_map, length_flat_map_strikes.
  repeat split. exact Hnow.
Qed.

Lemma summary_of_accepted_batch_witness :
  exists s,
    get_lightning_summary Scenarios.stormy [] = (Ok s, [] ++ [Weather.Get None])
    /\ Summary.success s = true
    /\ Summary.error s = None
    /\ Summary.coordinates s = flat_map strikes_of (periods Examples.mixed_batch)
    /\ Summary.total_strikes s = length (Summary.coordinates s)
    /\ Summary.records_with_lightning s
       = Some (length (List.filter has_readings (periods Examples.mixed_batch)))
    /\ Summary.raw_records_count s = Some (length (periods Examples.mixed_batch))
    /\ Summary.timestamp s = Weather.now Scenarios.stormy ([] ++ [Weather.Get None]).
Proof.
  apply (summary_of_accepted_batch Scenarios.stormy [] Examples.mixed_batch);
    [reflexivity | reflexivity | vm_compute; reflexivity].
Defined.

(** X9: what every summary satisfies. [get_lightning_summary] makes
    exactly one request, without a date. In the dictionary it returns,
    [total_strikes] is the number of coordinates and the time stamp is the
    clock after the request; [success] is true exactly when there is no
    error, which is exactly when the endpoint answered 200 with a body of
    status code [0]; a failed summary has no coordinate and no strike. *)
Theorem summary_invariant world h s h' :
  get_lightning_summary world h = (Ok s, h') ->
  h' = h ++ [Weather.Get None]
  /\ length (Summary.coordinates s) = Summary.total_strikes s
  /\ (Summary.success s = true <-> Summary.error s = None)
  /\ (Summary.success s = true <->
      exists response,
        Weather.requests_get world h None = Weather.Answered 200 (Some response)
        /\ Response.code response = Some 0%Z)
  /\ (Summary.success s = false ->
      Summary.coordinates s = [] /\ Summary.total_strikes s = 0)
  /\ Summary.timestamp s = Weather.now world h'.
Proof.
  rewrite get_lightning_summary_cases.
  assert (Hfail : forall msg,
    (Ok (failure msg (Weather.now world (h ++ [Weather.Get None]))),
     h ++ [Weather.Get None]) = (Ok s, h') ->
    (forall response,
       Weather.requests_get world h None = Weather.Answered 200 (Some response) ->
       Response.code response <> Some 0%Z) ->
    h' = h ++ [Weather.Get None]
    /\ length (Summary.coordinates s) = Summary.total_strikes s
    /\ (Summary.success s = true <-> Summary.error s = None)
    /\ (Summary.success s = true <->
        exists response,
          Weather.requests_get world h None = Weather.Answered 200 (Some response)
          /\ Response.code response = Some 0%Z)
    /\ (Summary.success s = false ->
        Summary.coordinates s = [] /\ Summary.total_strikes s = 0)
    /\ Summary.timestamp s = Weather.now world h').
  { intros msg [= <- <-] Hno. cbn. repeat split; try discriminate.
    intros (response & Hget & Hcode). now destruct (Hno response Hget). }
  destruct (Weather.requests_get world h None) as [|status [response|]] eqn:Hget.
  - intros H. apply (Hfail _ H). discriminate.
  - destruct (Z.eqb_spec status 200) as [->|Hne]; cbn [andb].
    2: { intros H. apply (Hfail _ H). intros response' [= ? _]. contradiction. }
    destruct (has_keys response) eqn:Hkeys.
    2: { intros H. apply (Hfail _ H). intros response' [= <-] Hcode.
         now rewrite (code_has_keys _ _ Hcode) in Hkeys. }
    destruct (parse_lightning_response _ (Some response)) as [[d|]|e] eqn:Hd.
    + intros [= <- <-]. cbn.
      pose proof (extract_of_parse _ _ _ Hd) as He.
      pose proof (parse_timestamp _ _ _ Hd) as Hnow.
      apply LightningFacts.parse_ok in Hd as (Hcode & _ & Ht & _).
      rewrite He, Ht, length_flat_map_strikes.
      repeat split; try discriminate; eauto.
    + intros H. apply (Hfail _ H). intros response' [= <-] Hcode.
      pose proof (accepted_or_not := parse_cases
                    (Weather.now world (h ++ [Weather.Get None])) response).
      destruct accepted_or_not as (_ & Hraise & Hok).
      destruct (overflows response).
      * rewrite (Hraise Hcode eq_refl) in Hd. discriminate.
      * destruct (Hok Hcode eq_refl) as [d Hd']. congruence.
    + discriminate.
  - intros H. apply (Hfail _ H). discriminate.
Qed.

Lemma summary_invariant_witness :
  exists s,
    get_lightning_summary Scenarios.maintenance [] = (Ok s, [Weather.Get None])
    /\ Summary.success s = false
    /\ Summary.coordinates s = []
    /\ Summary.total_strikes s = 0.
Proof.
  eexists.
  assert (H : get_lightning_summary Scenarios.maintenance []
              = (Ok _, [Weather.Get None])) by (vm_compute; reflexivity).
  split; [exact H|]. split; [reflexivity|].
  exact (proj1 (proj2 (proj2 (proj2 (proj2 (summary_invariant _ _ _ _ H))))) eq_refl).
Defined.

End SummaryFacts.

(** * Stripped texts *)

Module TextFacts.

(** ** [str.strip()] *)

Lemma drop_while_fixed {A} (p : A -> bool) l :
  from_option p false (head l) = false -> drop_while p l = l.
Proof. destruct l as [|x l]; cbn; [reflexivity|]. now intros ->. Qed.

Lemma drop_while_head {A} (p : A -> bool) l :
  from_option p false (head (drop_while p l)) = false.
Proof.
  induction l as [|x l IH]; cbn; [reflexivity|].
  destruct (p x) eqn:E; [exact IH | cbn; exact E].
Qed.

Lemma drop_while_suffix {A} (p : A -> bool) l :
  exists pre, l = pre ++ drop_while p l.
Proof.
  induction l as [|x l [pre IH]]; cbn; [now exists []|].
  destruct (p x); [|now exists []].
  exists (x :: pre). cbn. now f_equal.
Qed.

Lemma head_rev {A} (l : list A) : head (rev l) = last l.
Proof.
  induction l as [|x l IH] using rev_ind; [reflexivity|].
  rewrite rev_app_distr, last_snoc. reflexivity.
Qed.

Lemma last_rev {A} (l : list A) : last (rev l) = head l.
Proof. rewrite <- head_rev, rev_involutive. reflexivity. Qed.

(** A text that neither starts nor ends with a character of the class is
    left as it is. *)
Lemma strip_with_fixed p l :
  from_option p false (head l) = false ->
  from_option p false (last l) = false ->
  strip_with p l = l.
Proof.
  intros Hh Hl. unfold strip_with.
  rewrite (drop_while_fixed p l Hh).
  rewrite (drop_while_fixed p (rev l)) by now rewrite head_rev.
  apply rev_involutive.
Qed.

Lemma strip_with_ends p l :
  from_option p false (head (strip_with p l)) = false
  /\ from_option p false (last (strip_with p l)) = false.
Proof.
  unfold strip_with. set (a := drop_while p l).
  split.
  - rewrite head_rev.
    destruct (drop_while_suffix p (rev a)) as [pre Hpre].
    destruct (drop_while p (rev a)) as [|x b] eqn:Hb; [reflexivity|].
    assert (Hlast : last (x :: b) = last (rev a)).
    { rewrite Hpre. now rewrite last_app_cons. }
    rewrite Hlast, last_rev. apply drop_while_head.
  - rewrite last_rev. apply drop_while_head.
Qed.

Lemma strip_with_idempotent p l : strip_with p (strip_with p l) = strip_with p l.
Proof. destruct (strip_with_ends p l). now apply strip_with_fixed. Qed.

Lemma strip_idempotent s : strip (strip s) = strip s.
Proof.
  unfold strip. rewrite GeocoderFacts.chars_of_chars. now rewrite strip_with_idempotent.
Qed.

Lemma digit_not_space c : Char.is_digit c = true -> Char.is_space c = false.
Proof.
  intros Hd. destruct (Char.is_space c) eqn:Hs; [|reflexivity].
  apply GeocoderFacts.space_not_digit in Hs. congruence.
Qed.

(** Stripping leaves a text of digits as it is. *)
Lemma strip_digits l :
  forallb Char.is_digit l = true -> strip (of_chars l) = of_chars l.
Proof.
  intros Hd. unfold strip. rewrite GeocoderFacts.chars_of_chars. f_equal.
  rewrite forallb_forall in Hd.
  apply strip_with_fixed.
  - destruct l as [|x l]; [reflexivity|]. cbn. apply digit_not_space, Hd. now left.
  - destruct (last l) as [x|] eqn:Hl; [|reflexivity]. cbn.
    apply digit_not_space, Hd.
    apply last_Some in Hl as [l' ->]. apply in_or_app. right. now left.
Qed.

Lemma strip_digits_only s : strip (digits_only s) = digits_only s.
Proof. apply strip_digits, GeocoderFacts.forallb_filter. Qed.

End TextFacts.

(** * Further properties of the geocoder *)

Module LookupFacts.

Import SingaporeGeocoder.
Import Spec.
Import Terms.
Import TextFacts.
Local Open Scope nat_scope.

(** ** Postal codes *)

Lemma digit_count_length s : digit_count s = String.length (digits_only s).
Proof.
  unfold digit_count, digits_only.
  now rewrite <- GeocoderFacts.length_chars, GeocoderFacts.chars_of_chars.
Qed.

Lemma validate_postal_code_count s :
  validate_postal_code (PyStr s) = (digit_count s =? 6).
Proof.
  destruct (digit_count s =? 6) eqn:E.
  - apply GeocoderFacts.validate_postal_code_six_digits. now apply Nat.eqb_eq.
  - destruct (validate_postal_code (PyStr s)) eqn:Hv; [|reflexivity].
    apply GeocoderFacts.validate_postal_code_six_digits in Hv.
    apply Nat.eqb_neq in E. contradiction.
Qed.

Lemma clean_postal_code_count s :
  clean_postal_code (PyStr s)
  = if digit_count s =? 6 then Some (digits_only s) else None.
Proof.
  destruct (digit_count s =? 6) eqn:E.
  - apply GeocoderFacts.clean_postal_code_six_digits. now apply Nat.eqb_eq.
  - unfold clean_postal_code. destruct (negb (truthy (PyStr s))); [reflexivity|].
    rewrite GeocoderFacts.digits_only_strip, <- digit_count_length, E. reflexivity.
Qed.

Lemma digits_only_idempotent s : digits_only (digits_only s) = digits_only s.
Proof.
  unfold digits_only. rewrite GeocoderFacts.chars_of_chars. f_equal.
  induction (chars s) as [|c l IH]; [reflexivity|].
  cbn. destruct (Char.is_digit c) eqn:Hc; [|exact IH].
  cbn. rewrite Hc. now f_equal.
Qed.

(** X10: [validate_postal_code] and [clean_postal_code] agree on every
    value. A value is valid exactly when it is a string with six decimal
    digits among its characters, whatever the other characters are, and
    exactly when [clean_postal_code] returns a code for it; it is invalid
    exactly when [clean_postal_code] returns [None]. *)
Theorem validate_agrees_with_clean postal_code :
  (validate_postal_code postal_code = true
   <-> exists s, postal_code = PyStr s /\ six_digits s)
  /\ (validate_postal_code postal_code = true
      <-> exists cleaned, clean_postal_code postal_code = Some cleaned)
  /\ (validate_postal_code postal_code = false
      <-> clean_postal_code postal_code = None).
Proof.
  assert (Hother : (forall s, postal_code <> PyStr s) ->
            validate_postal_code postal_code = false
            /\ clean_postal_code postal_code = None).
  { destruct postal_code; try (now split). intros H. now destruct (H s). }
  destruct postal_code as [| | | |s| |].
  1-4,6-7: destruct Hother as [-> ->]; [discriminate|];
    repeat split; try discriminate; intros (x & H); discriminate || (destruct H; discriminate).
  clear Hother.
  rewrite validate_postal_code_count, clean_postal_code_count.
  unfold six_digits. destruct (Nat.eqb_spec (digit_count s) 6) as [He|Hne].
  - repeat split; try discriminate; eauto.
  - repeat split; try discriminate; trivial.
    + intros (s' & [= <-] & H). contradiction.
    + intros (c & H). discriminate.
Qed.

(** X11: a code returned by [clean_postal_code] is made of exactly six
    decimal digits, the digits of the given string in their order;
    cleaning it again returns it unchanged, and it is a valid postal
    code. *)
Theorem cleaned_postal_code_is_six_digits postal_code cleaned :
  clean_postal_code postal_code = Some cleaned ->
  String.length cleaned = 6
  /\ forallb Char.is_digit (chars cleaned) = true
  /\ (exists s, postal_code = PyStr s /\ cleaned = digits_only s)
  /\ clean_postal_code (PyStr cleaned) = Some cleaned
  /\ validate_postal_code (PyStr cleaned) = true.
Proof.
  destruct postal_code as [| | | |s| |]; try discriminate.
  rewrite clean_postal_code_count.
  destruct (Nat.eqb_spec (digit_count s) 6) as [He|Hne]; [|discriminate].
  intros [= <-].
  assert (Hcount : digit_count (digits_only s) = 6)
    by now rewrite digit_count_length, digits_only_idempotent, <- digit_count_length.
  rewrite <- digit_count_length, clean_postal_code_count, validate_postal_code_count, Hcount,
    digits_only_idempotent.
  repeat split; eauto.
  unfold digits_only. rewrite GeocoderFacts.chars_of_chars.
  apply GeocoderFacts.forallb_filter.
Qed.

Lemma cleaned_postal_code_witness :
  String.length "238874" = 6
  /\ forallb Char.is_digit (chars "238874") = true
  /\ (exists s, PyStr "S(238) 874" = PyStr s /\ "238874"%string = digits_only s)
  /\ clean_postal_code (PyStr "238874") = Some "238874"%string
  /\ validate_postal_code (PyStr "238874") = true.
Proof.
  apply (cleaned_postal_code_is_six_digits (PyStr "S(238) 874") "238874").
  vm_compute. reflexivity.
Defined.

(** ** The call to OneMap *)

Lemma not_200 {A} status (a b : A) :
  status <> 200%Z -> match status with 200%Z => a | _ => b end = b.
Proof.
  intros Hne. destruct status as [|p|p]; try reflexivity.
  repeat (destruct p as [p|p|]; try reflexivity). congruence.
Qed.

Lemma make_api_call_cases env query h :
  _make_api_call env query h
  = match SAMPLE_GEOCODING_DATA !! strip query with
    | Some entry => (Ok entry, h)
    | None =>
        (Ok match Env.requests_get env h (strip query) with
            | HttpResponse status (Some data) =>
                if (status =? 200)%Z then first_result data else PyNone
            | _ => PyNone
            end, h ++ [HttpGet (strip query)])
    end.
Proof.
  unfold _make_api_call.
  destruct (SAMPLE_GEOCODING_DATA !! strip query); [reflexivity|].
  unfold io_bind, http_get, io_ret.
  destruct (Env.requests_get env h (strip query)) as [|status [data|]].
  - reflexivity.
  - destruct (Z.eqb_spec status 200%Z) as [->|Hne]; [reflexivity|].
    now rewrite not_200.
  - destruct (Z.eq_dec status 200%Z) as [->|Hne]; [reflexivity|].
    now rewrite not_200.
Qed.

(** The three ways a lookup ends. *)
Lemma lookup_cases env searchVal with_postal not_found result h r h' :
  lookup env searchVal with_postal not_found result h = (Ok r, h') ->
  exists geocoding_result,
    _make_api_call env searchVal h = (Ok geocoding_result, h')
    /\ ((truthy geocoding_result = false
         /\ r = GeoResult.set_error (Text not_found) result)
        \/ (truthy geocoding_result = true
            /\ _extract_coordinates geocoding_result = Ok None
            /\ r = GeoResult.set_error (Text "Failed to extract valid coordinates") result)
        \/ (truthy geocoding_result = true
            /\ exists c,
                 _extract_coordinates geocoding_result = Ok (Some c)
                 /\ let found :=
                      GeoResult.set_found c
                        (result_field geocoding_result "ADDRESS")
                        (result_field geocoding_result "BUILDING")
                        (result_field geocoding_result "ROAD") result in
                    if with_postal then
                      exists a,
                        result_field geocoding_result "ADDRESS" = PyStr a
                        /\ r = match re_search_postal a with
                               | Some code => GeoResult.set_postal_code (Some code) found
                               | None => found
                               end
                    else r = found)).
Proof.
  unfold lookup. intros H.
  apply GeocoderFacts.io_bind_ok in H as (gr & h1 & Hcall & H).
  exists gr. destruct (truthy gr) eqn:Ht.
  - unfold io_bind at 1, io_lift at 1 in H.
    destruct (_extract_coordinates gr) as [[c|]|e] eqn:Hc; [| |discriminate].
    + destruct with_postal.
      * unfold io_bind, io_lift in H. cbn [GeoResult.set_found GeoResult.address] in H.
        destruct (result_field gr "ADDRESS") as [| | | |a| |] eqn:Ha; try discriminate.
        cbn [postal_code_of_address] in H.
        destruct (re_search_postal a) as [code|] eqn:Hs;
          injection H as <- <-; (split; [exact Hcall|]); right; right;
          (split; [reflexivity|]); exists c; (split; [reflexivity|]);
          exists a; rewrite Hs; split; reflexivity.
      * injection H as <- <-. split; [exact Hcall|]. right. right.
        split; [reflexivity|]. exists c. split; reflexivity.
    + injection H as <- <-. split; [exact Hcall|]. right. left. now repeat split.
  - injection H as <- <-. split; [exact Hcall|]. left. now split.
Qed.

(** ** Coordinates *)

Lemma extract_coordinates_cases geocoding_result c :
  _extract_coordinates geocoding_result = Ok (Some c) ->
  exists d,
    geocoding_result = PyDict d
    /\ py_float (dict_get d "LATITUDE" (PyInt 0)) = Ok (fst c)
    /\ py_float (dict_get d "LONGITUDE" (PyInt 0)) = Ok (snd c)
    /\ Bounds.contains SINGAPORE_BOUNDS (fst c) (snd c) = true.
Proof.
  unfold _extract_coordinates.
  destruct geocoding_result as [| | | | | |d]; try discriminate.
  intros H. exists d. split; [reflexivity|].
  destruct (py_float (dict_get d "LATITUDE" (PyInt 0))) as [la|[]]; try discriminate.
  destruct (py_float (dict_get d "LONGITUDE" (PyInt 0))) as [lo|[]]; try discriminate.
  cbn in H. destruct (Bounds.contains SINGAPORE_BOUNDS la lo) eqn:Hb; [|discriminate].
  injection H as <-. now repeat split.
Qed.

Lemma zero_latitude_outside longitude :
  Bounds.contains SINGAPORE_BOUNDS Float.zero longitude = false.
Proof. reflexivity. Qed.

Lemma zero_longitude_outside latitude :
  Bounds.contains SINGAPORE_BOUNDS latitude Float.zero = false.
Proof.
  unfold Bounds.contains.
  replace (Float.leb (Bounds.lon_min SINGAPORE_BOUNDS) Float.zero) with false
    by (vm_compute; reflexivity).
  cbn [andb]. apply andb_false_r.
Qed.

(** X12: coordinates returned by [_extract_coordinates] lie inside the
    Singapore box of the geocoder, and come from a dictionary that holds
    both a ['LATITUDE'] and a ['LONGITUDE'] entry, of which they are the
    float values: a result without one of the two keys never yields
    coordinates. *)
Theorem extracted_coordinates_are_valid geocoding_result latitude longitude :
  _extract_coordinates geocoding_result = Ok (Some (latitude, longitude)) ->
  is_valid_singapore_coordinates latitude longitude = true
  /\ exists d,
       geocoding_result = PyDict d
       /\ (exists v, d !! "LATITUDE" = Some v /\ py_float v = Ok latitude)
       /\ (exists v, d !! "LONGITUDE" = Some v /\ py_float v = Ok longitude).
Proof.
  intros (d & -> & Hlat & Hlon & Hin)%extract_coordinates_cases.
  cbn [fst snd] in *. split; [exact Hin|]. exists d. split; [reflexivity|].
  unfold dict_get in Hlat, Hlon. split.
  - destruct (d !! "LATITUDE") as [v|]; [eauto|].
    injection Hlat as <-. now rewrite zero_latitude_outside in Hin.
  - destruct (d !! "LONGITUDE") as [v|]; [eauto|].
    injection Hlon as <-. now rewrite zero_longitude_outside in Hin.
Qed.

Lemma extracted_coordinates_witness :
  is_valid_singapore_coordinates (Float.lit "1.26429") (Float.lit "103.82204") = true
  /\ exists d,
       Scenarios.vivocity = PyDict d
       /\ (exists v, d !! "LATITUDE" = Some v /\ py_float v = Ok (Float.lit "1.26429"))
       /\ (exists v, d !! "LONGITUDE" = Some v /\ py_float v = Ok (Float.lit "103.82204")).
Proof.
  apply (extracted_coordinates_are_valid Scenarios.vivocity).
  vm_compute. reflexivity.
Defined.

(** ** What a lookup returns *)

Lemma found_in_set_postal_code gr p r :
  found_in gr r -> found_in gr (GeoResult.set_postal_code p r).
Proof. intros H. exact H. Qed.

Lemma found_in_set_found gr c result :
  GeoResult.error result = None ->
  _extract_coordinates gr = Ok (Some c) ->
  found_in gr (GeoResult.set_found c (result_field gr "ADDRESS")
                 (result_field gr "BUILDING") (result_field gr "ROAD") result).
Proof.
  intros He Hc. unfold found_in. cbn. repeat split; trivial.
  exists (fst c), (snd c). now destruct c.
Qed.

(** A lookup that starts from a fresh dictionary either reports an error
    and leaves every other field as it was, or fills the dictionary from
    the search result. *)
Lemma lookup_outcome env searchVal with_postal not_found result h r h' :
  lookup env searchVal with_postal not_found result h = (Ok r, h') ->
  fresh result ->
  exists geocoding_result,
    _make_api_call env searchVal h = (Ok geocoding_result, h')
    /\ ((GeoResult.success r = false
         /\ GeoResult.postal_code r = GeoResult.postal_code result
         /\ ((truthy geocoding_result = false
              /\ GeoResult.error r = Some (Text not_found))
             \/ (truthy geocoding_result = true
                 /\ GeoResult.error r
                    = Some (Text "Failed to extract valid coordinates"))))
        \/ (truthy geocoding_result = true
            /\ found_in geocoding_result r
            /\ if with_postal then
                 exists a,
                   GeoResult.address r = PyStr a
                   /\ GeoResult.postal_code r
                      = match re_search_postal a with
                        | Some code => Some code
                        | None => GeoResult.postal_code result
                        end
               else GeoResult.postal_code r = GeoResult.postal_code result)).
Proof.
  intros H (Hs & _ & _ & He).
  apply lookup_cases in H as (gr & Hcall & Hr). exists gr. split; [exact Hcall|].
  destruct Hr as [[Ht ->] | [(Ht & Hc & ->) | (Ht & c & Hc & Hr)]].
  - left. cbn. repeat split; auto.
  - left. cbn. repeat split; auto.
  - right. split; [exact Ht|]. cbv zeta in Hr.
    pose proof (found_in_set_found gr c result He Hc) as Hfound.
    destruct with_postal.
    + destruct Hr as (a & Ha & ->). destruct (re_search_postal a) as [code|] eqn:Hcode.
      * split; [now apply found_in_set_postal_code|]. exists a.
        split; [exact Ha | now rewrite Hcode].
      * split; [exact Hfound|]. exists a. split; [exact Ha | now rewrite Hcode].
    + subst r. now split.
Qed.

Lemma found_in_valid gr r :
  found_in gr r ->
  exists latitude longitude,
    GeoResult.latitude r = Some latitude /\ GeoResult.longitude r = Some longitude
    /\ is_valid_singapore_coordinates latitude longitude = true.
Proof.
  intros (_ & _ & _ & _ & _ & la & lo & Hc & Hla & Hlo).
  exists la, lo. repeat split; trivial.
  now apply extract_coordinates_cases in Hc as (_ & _ & _ & _ & Hin).
Qed.

Lemma lookup_success_valid env searchVal with_postal not_found result h r h' :
  lookup env searchVal with_postal not_found result h = (Ok r, h') ->
  fresh result ->
  GeoResult.success r = true ->
  exists latitude longitude,
    GeoResult.latitude r = Some latitude /\ GeoResult.longitude r = Some longitude
    /\ is_valid_singapore_coordinates latitude longitude = true.
Proof.
  intros H Hf Hs. apply lookup_outcome in H as (gr & _ & Hr); [|exact Hf].
  destruct Hr as [(Hs' & _) | (_ & Hfound & _)]; [congruence|].
  now apply found_in_valid in Hfound.
Qed.

Lemma method_success_valid env (method : pyval -> io GeoResult.t) query h r h' :
  method = geocode_postal_code env \/ method = geocode_address env
  \/ method = geocode_building env ->
  method query h = (Ok r, h') ->
  GeoResult.success r = true ->
  exists latitude longitude,
    GeoResult.latitude r = Some latitude /\ GeoResult.longitude r = Some longitude
    /\ is_valid_singapore_coordinates latitude longitude = true.
Proof.
  intros [-> | [-> | ->]] H Hs.
  - unfold geocode_postal_code in H.
    apply GeocoderFacts.io_bind_ok in H as (result & h1 & (Hf & _)%GeocoderFacts.create_fresh & H).
    destruct (clean_postal_code query).
    + eapply lookup_success_valid; eauto using GeocoderFacts.fresh_set_postal_code.
    + injection H as <- <-. destruct Hf as (Hf & _). cbn in Hs. congruence.
  - unfold geocode_address in H.
    apply GeocoderFacts.io_bind_ok in H as (result & h1 & (Hf & _)%GeocoderFacts.create_fresh & H).
    destruct (empty_or_non_string query).
    + injection H as <- <-. destruct Hf as (Hf & _). cbn in Hs. congruence.
    + eapply lookup_success_valid; eauto.
  - unfold geocode_building in H.
    apply GeocoderFacts.io_bind_ok in H as (result & h1 & (Hf & _)%GeocoderFacts.create_fresh & H).
    destruct (empty_or_non_string query).
    + injection H as <- <-. destruct Hf as (Hf & _). cbn in Hs. congruence.
    + eapply lookup_success_valid; eauto.
Qed.

(** X13: a result with [success = True], returned by [geocode] or by one
    of [geocode_postal_code], [geocode_address] and [geocode_building],
    carries a latitude and a longitude that lie inside the Singapore box
    of the geocoder. *)
Theorem successful_result_lies_in_singapore env (method : pyval -> io GeoResult.t)
    query h r h' :
  method = geocode env \/ method = geocode_postal_code env
  \/ method = geocode_address env \/ method = geocode_building env ->
  method query h = (Ok r, h') ->
  GeoResult.success r = true ->
  exists latitude longitude,
    GeoResult.latitude r = Some latitude /\ GeoResult.longitude r = Some longitude
    /\ is_valid_singapore_coordinates latitude longitude = true.
Proof.
  intros [-> | Hm] H Hs; [|now apply (method_success_valid env method query h r h')].
  unfold geocode in H.
  destruct (empty_or_non_string query).
  - apply GeocoderFacts.io_bind_ok in H as (result & h1 & (Hf & _)%GeocoderFacts.create_fresh & H).
    injection H as <- <-. destruct Hf as (Hf & _). cbn in Hs. congruence.
  - destruct (validate_postal_code _).
    + apply (method_success_valid env (geocode_postal_code env) (PyStr (stripped query)) h r h'); auto.
    + destruct (re_search_postal _).
      * apply (method_success_valid env (geocode_address env) (PyStr (stripped query)) h r h'); auto.
      * apply (method_success_valid env (geocode_building env) (PyStr (stripped query)) h r h'); auto.
Qed.

Lemma successful_result_witness :
  exists r,
    geocode Examples.online (PyStr "VivoCity") [] = (Ok r, [HttpGet "VivoCity"])
    /\ GeoResult.success r = true
    /\ exists latitude longitude,
         GeoResult.latitude r = Some latitude /\ GeoResult.longitude r = Some longitude
         /\ is_valid_singapore_coordinates latitude longitude = true.
Proof.
  eexists.
  assert (H : geocode Examples.online (PyStr "VivoCity") []
              = (Ok _, [HttpGet "VivoCity"])) by (vm_compute; reflexivity).
  split; [exact H|]. split; [reflexivity|].
  exact (successful_result_lies_in_singapore Examples.online _ _ _ _ _
           (or_introl eq_refl) H eq_refl).
Defined.

(** ** Requests *)

Lemma make_api_call_history env query h :
  snd (_make_api_call env query h)
  = match SAMPLE_GEOCODING_DATA !! strip query with
    | Some _ => h
    | None => h ++ [HttpGet (strip query)]
    end.
Proof.
  rewrite make_api_call_cases. now destruct (SAMPLE_GEOCODING_DATA !! strip query).
Qed.

Lemma lookup_history env searchVal with_postal not_found result h :
  snd (lookup env searchVal with_postal not_found result h)
  = snd (_make_api_call env searchVal h).
Proof.
  unfold lookup, io_bind at 1.
  destruct (_make_api_call env searchVal h) as [[gr|e] h1]; [|reflexivity].
  cbn [snd]. destruct (truthy gr); [|reflexivity].
  unfold io_bind at 1, io_lift at 1.
  destruct (_extract_coordinates gr) as [[c|]|e]; try reflexivity.
  destruct with_postal; [|reflexivity].
  unfold io_bind, io_lift.
  destruct (postal_code_of_address _) as [[code|]|e]; reflexivity.
Qed.

Lemma has_text s : empty_or_non_string (PyStr s) = false <-> strip s <> ""%string.
Proof.
  split; [|apply GeocoderFacts.text_not_empty_or_non_string].
  unfold empty_or_non_string. cbn [truthy]. rewrite !negb_involutive.
  intros [_ H]%orb_false_elim. now apply String.eqb_neq.
Qed.

Lemma has_text_stripped s :
  strip s <> ""%string -> empty_or_non_string (PyStr (strip s)) = false.
Proof. intros H. apply has_text. now rewrite strip_idempotent. Qed.

Lemma clean_of_valid s :
  validate_postal_code (PyStr s) = true ->
  clean_postal_code (PyStr s) = Some (digits_only s).
Proof.
  rewrite validate_postal_code_count, clean_postal_code_count. now intros ->.
Qed.

(** The history [geocode] leaves, whatever it returns or raises. *)
Lemma geocode_history env query h :
  snd (geocode env query h)
  = if empty_or_non_string query then h
    else match SAMPLE_GEOCODING_DATA !! search_value query with
         | Some _ => h
         | None => h ++ [HttpGet (search_value query)]
         end.
Proof.
  unfold geocode. destruct (empty_or_non_string query) eqn:Hq; [reflexivity|].
  destruct query as [| | | |s| |];
    try (unfold empty_or_non_string in Hq; rewrite orb_true_r in Hq; discriminate).
  apply has_text in Hq. cbn [stripped search_value].
  destruct (validate_postal_code (PyStr (strip s))) eqn:Hv.
  - unfold geocode_postal_code, io_bind at 1, _create_result_dict.
    rewrite (clean_of_valid _ Hv), GeocoderFacts.digits_only_strip.
    now rewrite lookup_history, make_api_call_history, strip_digits_only.
  - assert (Hlookup : forall nf result,
              snd (lookup env (strip (strip s)) true nf result h)
              = match SAMPLE_GEOCODING_DATA !! strip s with
                | Some _ => h
                | None => h ++ [HttpGet (strip s)]
                end).
    { intros nf result.
      now rewrite lookup_history, make_api_call_history, !strip_idempotent. }
    destruct (re_search_postal (strip s)).
    + unfold geocode_address, io_bind at 1, _create_result_dict.
      rewrite (has_text_stripped s Hq). cbn [stripped]. apply Hlookup.
    + unfold geocode_building, io_bind at 1, _create_result_dict.
      rewrite (has_text_stripped s Hq). cbn [stripped]. apply Hlookup.
Qed.

Lemma no_text_iff query : no_text query <-> empty_or_non_string query = true.
Proof.
  split; [apply GeocoderFacts.no_text_empty_or_non_string|].
  destruct query as [| | | |s| |]; cbn [no_text]; trivial.
  intros H. destruct (String.eqb_spec (strip s) "") as [He|Hne]; [exact He|].
  apply has_text in Hne. congruence.
Qed.

(** X14: one call of [geocode] makes at most one request to OneMap,
    whether it returns or raises. It makes none for a query without text
    and none when the text it would search for is a key of the sample
    table; in every other case it makes exactly one, which searches for
    the six digits of a postal code, and for the stripped query in the
    other two classes. *)
Theorem geocode_makes_at_most_one_request env query h out h' :
  geocode env query h = (out, h') ->
  (h' = h \/ h' = h ++ [HttpGet (search_value query)])
  /\ (no_text query \/ SAMPLE_GEOCODING_DATA !! search_value query <> None -> h' = h)
  /\ (~ no_text query -> SAMPLE_GEOCODING_DATA !! search_value query = None ->
      h' = h ++ [HttpGet (search_value query)]).
Proof.
  intros H. apply (f_equal snd) in H. rewrite geocode_history in H. cbn [snd] in H.
  destruct (empty_or_non_string query) eqn:Hq.
  - apply no_text_iff in Hq. subst h'. repeat split; auto. now intros Hn.
  - assert (Hn : ~ no_text query) by (intros Hn%no_text_iff; congruence).
    destruct (SAMPLE_GEOCODING_DATA !! search_value query) as [entry|]; subst h'.
    + repeat split; auto. discriminate.
    + repeat split; auto. intros [Hno | Hin]; [now destruct Hn | now destruct Hin].
Qed.

Lemma geocode_request_witness :
  ([HttpGet "VivoCity"] = [] \/ [HttpGet "VivoCity"] = [] ++ [HttpGet "VivoCity"])
  /\ [HttpGet "VivoCity"] = [] ++ [HttpGet (search_value (PyStr " VivoCity "))].
Proof.
  assert (H : geocode Examples.online (PyStr " VivoCity ") []
              = (Ok _, [HttpGet "VivoCity"])) by (vm_compute; reflexivity).
  destruct (geocode_makes_at_most_one_request _ _ _ _ _ H) as (Hone & _ & Hreq).
  split; [exact Hone|]. apply Hreq; [discriminate | reflexivity].
Defined.

(** ** Error messages *)

Lemma lookup_failure_message env searchVal with_postal not_found result h r h' :
  lookup env searchVal with_postal not_found result h = (Ok r, h') ->
  fresh result ->
  GeoResult.success r = false ->
  GeoResult.error r = Some (Text not_found)
  \/ GeoResult.error r = Some (Text "Failed to extract valid coordinates").
Proof.
  intros H Hf Hs. apply lookup_outcome in H as (gr & _ & Hr); [|exact Hf].
  destruct Hr as [(_ & _ & [[_ He] | [_ He]]) | (_ & (Hs' & _) & _)]; auto.
  congruence.
Qed.

(** X15: the error of a failed [geocode], class by class. It is the
    message of the class (the invalid-query message for a query without
    text, and the not-found message of postal codes, addresses or
    buildings for the others) or, for a query with text, the message that
    no valid coordinates could be extracted. The messages about an invalid
    postal code format, an invalid address or an invalid building name
    never come out of [geocode]. *)
Theorem geocode_failure_message env query kind h r h' :
  classified query kind ->
  geocode env query h = (Ok r, h') ->
  GeoResult.success r = false ->
  GeoResult.error r = Some (Text (nothing_found kind))
  \/ (kind <> Unknown
      /\ GeoResult.error r = Some (Text "Failed to extract valid coordinates")).
Proof.
  intros Hk H Hs. rewrite (GeocoderFacts.geocode_by_kind env query kind h Hk) in H.
  destruct Hk as [query Hq | s Hs' H6 | s Hs' H6 Hrun | s Hs' H6 Hrun];
    cbn [nothing_found stripped] in *.
  - injection H as <- <-. now left.
  - unfold geocode_postal_code in H.
    apply GeocoderFacts.io_bind_ok in H as (result & h1 & (Hf & _)%GeocoderFacts.create_fresh & H).
    rewrite (GeocoderFacts.clean_postal_code_six_digits _ H6) in H.
    apply lookup_failure_message in H as [He | He];
      [now left | right; split; [discriminate | exact He]
      | now apply GeocoderFacts.fresh_set_postal_code | exact Hs].
  - unfold geocode_address in H.
    apply GeocoderFacts.io_bind_ok in H as (result & h1 & (Hf & _)%GeocoderFacts.create_fresh & H).
    rewrite (has_text_stripped s Hs') in H.
    apply lookup_failure_message in H as [He | He];
      [now left | right; split; [discriminate | exact He] | exact Hf | exact Hs].
  - unfold geocode_building in H.
    apply GeocoderFacts.io_bind_ok in H as (result & h1 & (Hf & _)%GeocoderFacts.create_fresh & H).
    rewrite (has_text_stripped s Hs') in H.
    apply lookup_failure_message in H as [He | He];
      [now left | right; split; [discriminate | exact He] | exact Hf | exact Hs].
Qed.

Lemma geocode_failure_message_witness :
  exists r,
    geocode Examples.offline (PyStr "Sentosa Island") [] = (Ok r, [HttpGet "Sentosa Island"])
    /\ GeoResult.error r = Some (Text "Building not found in OneMap database").
Proof.
  eexists.
  assert (H : geocode Examples.offline (PyStr "Sentosa Island") []
              = (Ok _, [HttpGet "Sentosa Island"])) by (vm_compute; reflexivity).
  split; [exact H|].
  assert (Hk : classified (PyStr "Sentosa Island") Building).
  { apply classified_building; [discriminate | discriminate |].
    apply GeocoderFacts.re_search_postal_none. reflexivity. }
  destruct (geocode_failure_message _ _ _ _ _ _ Hk H eq_refl) as [He | [_ He]];
    [exact He | discriminate He].
Defined.

(** ** The postal code of a result *)

Lemma re_search_postal_sound a code :
  re_search_postal a = Some code -> standalone_run (chars code) a.
Proof.
  unfold re_search_postal.
  destruct (search_postal_run None (chars a)) as [run|] eqn:Hs; [|discriminate].
  intros [= <-]. rewrite GeocoderFacts.chars_of_chars.
  apply GeocoderFacts.search_postal_run_sound in Hs
    as (pre & post & Hl & Hlen & HF & Hb & Ha).
  exists pre, post. repeat split; trivial. now destruct (last pre).
Qed.

(** X16: the dictionary [geocode_postal_code] returns keeps the query as
    it was given and reports under ['postal_code'] what
    [clean_postal_code] makes of it, found or not. For a value that
    [validate_postal_code] refuses, no request is made and the error is
    the invalid-format message. *)
Theorem postal_code_lookup_reports_cleaned_code env postal_code h r h' :
  geocode_postal_code env postal_code h = (Ok r, h') ->
  GeoResult.postal_code r = clean_postal_code postal_code
  /\ GeoResult.query r = postal_code
  /\ (validate_postal_code postal_code = false ->
      h' = h
      /\ GeoResult.success r = false
      /\ GeoResult.error r = Some (InvalidPostalCodeFormat postal_code)).
Proof.
  intros H.
  pose proof (GeocoderFacts.geocode_postal_code_spec _ _ _ _ _ H) as (Hq & _).
  unfold geocode_postal_code, io_bind at 1, _create_result_dict in H.
  destruct (clean_postal_code postal_code) as [code|] eqn:Hc.
  - split; [|split; [exact Hq|]].
    + apply lookup_outcome in H as (gr & _ & Hr); [|now repeat split].
      destruct Hr as [(_ & Hp & _) | (_ & _ & Hp)]; exact Hp.
    + intros Hv. exfalso.
      destruct postal_code as [| | | |s| |]; try discriminate.
      rewrite validate_postal_code_count in Hv.
      rewrite clean_postal_code_count, Hv in Hc. discriminate.
  - injection H as <- <-. cbn. now repeat split.
Qed.

Lemma postal_code_lookup_witness :
  exists r,
    geocode_postal_code Examples.online (PyStr "12345") [] = (Ok r, [])
    /\ GeoResult.postal_code r = None
    /\ GeoResult.error r = Some (InvalidPostalCodeFormat (PyStr "12345")).
Proof.
  eexists.
  assert (H : geocode_postal_code Examples.online (PyStr "12345") [] = (Ok _, []))
    by (vm_compute; reflexivity).
  split; [exact H|].
  destruct (postal_code_lookup_reports_cleaned_code _ _ _ _ _ H) as (Hp & _ & Hbad).
  split; [exact Hp|]. now destruct (Hbad eq_refl) as (_ & _ & He).
Defined.

(** X17: the postal code in a result of [geocode_address] or
    [geocode_building]. When the result reports one, the lookup succeeded
    and the code is a standalone run of six digits of the address that
    OneMap returned; when a successful result reports none, the returned
    address holds no such run. *)
Theorem reported_postal_code_stands_in_address env (method : pyval -> io GeoResult.t)
    query h r h' :
  method = geocode_address env \/ method = geocode_building env ->
  method query h = (Ok r, h') ->
  match GeoResult.postal_code r with
  | Some code =>
      GeoResult.success r = true
      /\ exists a, GeoResult.address r = PyStr a /\ standalone_run (chars code) a
  | None =>
      GeoResult.success r = true ->
      exists a, GeoResult.address r = PyStr a /\ ~ has_standalone_run a
  end.
Proof.
  intros Hm H.
  assert (Hlookup : exists nf result,
            (empty_or_non_string query = true
             /\ r = GeoResult.set_error (Text nf) result /\ fresh result
             /\ GeoResult.postal_code result = None)
            \/ (lookup env (stripped query) true nf result h = (Ok r, h')
                /\ fresh result /\ GeoResult.postal_code result = None)).
  { destruct Hm as [-> | ->].
    - unfold geocode_address, io_bind at 1, _create_result_dict in H.
      destruct (empty_or_non_string query).
      + injection H as <- <-. eexists _, _. left. repeat split; reflexivity.
      + eexists _, _. right. split; [exact H|]. now repeat split.
    - unfold geocode_building, io_bind at 1, _create_result_dict in H.
      destruct (empty_or_non_string query).
      + injection H as <- <-. eexists _, _. left. repeat split; reflexivity.
      + eexists _, _. right. split; [exact H|]. now repeat split. }
  destruct Hlookup as (nf & result & [(_ & -> & Hf & Hp) | (Hl & Hf & Hp)]).
  - cbn. rewrite Hp. destruct Hf as (Hs & _). congruence.
  - apply lookup_outcome in Hl as (gr & _ & Hr); [|exact Hf].
    destruct Hr as [(Hs & -> & _) | (_ & (Hs & _) & a & Ha & ->)].
    + rewrite Hp. congruence.
    + rewrite Hp. destruct (re_search_postal a) as [code|] eqn:Hcode.
      * split; [exact Hs|]. exists a. split; [exact Ha|].
        now apply re_search_postal_sound.
      * intros _. exists a. split; [exact Ha|].
        now apply GeocoderFacts.re_search_postal_none.
Qed.

Lemma reported_postal_code_witness :
  exists r,
    geocode_building Examples.online (PyStr "VivoCity") [] = (Ok r, [HttpGet "VivoCity"])
    /\ GeoResult.postal_code r = Some "098585"%string
    /\ GeoResult.success r = true
    /\ exists a, GeoResult.address r = PyStr a /\ standalone_run (chars "098585") a.
Proof.
  eexists.
  assert (H : geocode_building Examples.online (PyStr "VivoCity") []
              = (Ok _, [HttpGet "VivoCity"])) by (vm_compute; reflexivity).
  split; [exact H|]. split; [reflexivity|].
  exact (reported_postal_code_stands_in_address Examples.online _ _ _ _ _
           (or_intror eq_refl) H).
Defined.

(** ** Blanks around a query *)

(** X18: white space around a query that holds text does not count:
    [geocode] does for the query exactly what it does for the stripped
    query, in every world and from every history. *)
Theorem geocode_ignores_surrounding_blanks env s h :
  strip s <> ""%string ->
  geocode env (PyStr s) h = geocode env (PyStr (strip s)) h.
Proof.
  intros Hs. unfold geocode.
  rewrite (proj2 (has_text s) Hs), (has_text_stripped s Hs).
  cbn [stripped]. now rewrite strip_idempotent.
Qed.

Lemma geocode_blanks_witness :
  geocode Examples.online (PyStr "  VivoCity ") []
  = geocode Examples.online (PyStr (strip "  VivoCity ")) [].
Proof.
  apply (geocode_ignores_surrounding_blanks Examples.online "  VivoCity " []).
  discriminate.
Defined.

(** ** The sample table *)

Lemma sample_entries :
  map_Forall
    (fun key entry =>
       (String.eqb (digits_only key) key
        && (String.length key =? 6)
        && truthy entry
        && match _extract_coordinates entry with
           | Ok (Some _) => true
           | _ => false
           end) = true)
    SAMPLE_GEOCODING_DATA.
Proof.
  assert (H : bool_decide
                (map_Forall
                   (fun (key : string) entry =>
                      (String.eqb (digits_only key) key
                       && (String.length key =? 6)
                       && truthy entry
                       && match _extract_coordinates entry with
                          | Ok (Some _) => true
                          | _ => false
                          end) = true)
                   SAMPLE_GEOCODING_DATA) = true) by (vm_compute; reflexivity).
  now apply bool_decide_eq_true in H.
Qed.

Lemma sample_entry_spec key entry :
  SAMPLE_GEOCODING_DATA !! key = Some entry ->
  digits_only key = key /\ digit_count key = 6 /\ truthy entry = true
  /\ exists c, _extract_coordinates entry = Ok (Some c).
Proof.
  intros Hin. pose proof (sample_entries key entry Hin) as H. cbn beta in H.
  apply andb_prop in H as [[[Hd Hl]%andb_prop Ht]%andb_prop Hc].
  apply String.eqb_eq in Hd. apply Nat.eqb_eq in Hl.
  repeat split; trivial.
  - now rewrite digit_count_length, Hd.
  - destruct (_extract_coordinates entry) as [[c|]|]; try discriminate. eauto.
Qed.

Lemma digit_count_strip s : digit_count (strip s) = digit_count s.
Proof. now rewrite !digit_count_length, GeocoderFacts.digits_only_strip. Qed.

Lemma six_digits_text s : digit_count s = 6 -> strip s <> ""%string.
Proof.
  intros H He. rewrite <- digit_count_strip, He in H. discriminate.
Qed.

Lemma lookup_sample env key entry not_found result h :
  SAMPLE_GEOCODING_DATA !! strip key = Some entry ->
  exists c,
    _extract_coordinates entry = Ok (Some c)
    /\ lookup env key false not_found result h
       = (Ok (GeoResult.set_found c (result_field entry "ADDRESS")
                (result_field entry "BUILDING") (result_field entry "ROAD") result), h).
Proof.
  intros Hin. destruct (sample_entry_spec _ _ Hin) as (_ & _ & Ht & c & Hc).
  exists c. split; [exact Hc|].
  unfold lookup, io_bind at 1. rewrite make_api_call_cases, Hin, Ht.
  unfold io_bind, io_lift. now rewrite Hc.
Qed.

Lemma sample_is_postal_code s entry :
  SAMPLE_GEOCODING_DATA !! digits_only s = Some entry ->
  classified (PyStr s) PostalCode.
Proof.
  intros Hin. destruct (sample_entry_spec _ _ Hin) as (_ & H6 & _).
  rewrite digit_count_length, digits_only_idempotent, <- digit_count_length in H6.
  apply classified_postal_code; [now apply six_digits_text|].
  unfold six_digits. now rewrite digit_count_strip.
Qed.

(** The result of a query whose digits are a key of the table. *)
Lemma geocode_sample env s entry h :
  SAMPLE_GEOCODING_DATA !! digits_only s = Some entry ->
  exists r,
    geocode env (PyStr s) h = (Ok r, h)
    /\ found_in entry r
    /\ GeoResult.postal_code r = Some (digits_only s)
    /\ GeoResult.query_type r = "postal_code"%string
    /\ GeoResult.query r = PyStr (strip s).
Proof.
  intros Hin. pose proof (sample_is_postal_code s entry Hin) as Hk.
  rewrite (GeocoderFacts.geocode_by_kind env _ _ h Hk). cbn [stripped].
  inversion Hk as [ | s' Hs H6 | | ]; subst.
  unfold geocode_postal_code, io_bind at 1, _create_result_dict.
  rewrite (GeocoderFacts.clean_postal_code_six_digits _ H6),
    GeocoderFacts.digits_only_strip.
  edestruct (lookup_sample env (digits_only s) entry) as (c & Hc & ->).
  { now rewrite strip_digits_only. }
  eexists. split; [reflexivity|]. split; [|now repeat split].
  now apply found_in_set_found.
Qed.

(** X19: a query whose digits are a key of the sample table is answered
    from the table in every world, without a request: the result is a
    success of type [postal_code] filled from the entry, with valid
    coordinates, the key as postal code and the stripped query as
    query. *)
Theorem sample_postal_code_needs_no_network env s entry h :
  SAMPLE_GEOCODING_DATA !! digits_only s = Some entry ->
  exists r,
    geocode env (PyStr s) h = (Ok r, h)
    /\ found_in entry r
    /\ GeoResult.postal_code r = Some (digits_only s)
    /\ GeoResult.query_type r = "postal_code"%string
    /\ GeoResult.query r = PyStr (strip s)
    /\ exists latitude longitude,
         GeoResult.latitude r = Some latitude /\ GeoResult.longitude r = Some longitude
         /\ is_valid_singapore_coordinates latitude longitude = true.
Proof.
  intros Hin. destruct (geocode_sample env s entry h Hin) as (r & Hg & Hf & Hp & Ht & Hq).
  exists r. do 5 (split; [assumption|]). now apply (found_in_valid entry).
Qed.

Lemma sample_postal_code_witness :
  exists r,
    geocode Examples.offline (PyStr "S(018) 989") [] = (Ok r, [])
    /\ GeoResult.success r = true
    /\ GeoResult.building r = PyStr "Marina Bay Sands"
    /\ GeoResult.postal_code r = Some "018989"%string.
Proof.
  destruct (sample_postal_code_needs_no_network Examples.offline "S(018) 989"
              (sample_entry "Marina Bay Sands, 10 Bayfront Avenue, Singapore 018989"
                 "Marina Bay Sands" "Bayfront Avenue" "1.283611" "103.859722") []
              ltac:(vm_compute; reflexivity))
    as (r & Hg & (Hs & _ & _ & Hb & _) & Hp & _).
  exists r. repeat split; assumption.
Defined.

(** ** Without the network *)

Lemma lookup_unreachable env searchVal with_postal not_found result h :
  unreachable env ->
  SAMPLE_GEOCODING_DATA !! strip searchVal = None ->
  lookup env searchVal with_postal not_found result h
  = (Ok (GeoResult.set_error (Text not_found) result),
     h ++ [HttpGet (strip searchVal)]).
Proof.
  intros Henv Hmiss. unfold lookup, io_bind at 1.
  rewrite make_api_call_cases, Hmiss.
  destruct (Env.requests_get env h (strip searchVal)) as [|status [data|]] eqn:Hget;
    try reflexivity.
  destruct (Z.eqb_spec status 200%Z) as [->|Hne]; [|reflexivity].
  now destruct (Henv h (strip searchVal) data).
Qed.

(** X20: without a usable network (every request raises, is refused, or
    comes back without a JSON body) [geocode] still returns for every
    query, and succeeds exactly on the strings whose digits are a key of
    the sample table; every other query fails with the message of its
    class. *)
Theorem unreachable_network_leaves_the_samples env query h :
  unreachable env ->
  exists r h',
    geocode env query h = (Ok r, h')
    /\ (GeoResult.success r = true <->
        exists s entry,
          query = PyStr s /\ SAMPLE_GEOCODING_DATA !! digits_only s = Some entry)
    /\ (GeoResult.success r = false ->
        exists kind,
          classified query kind
          /\ GeoResult.error r = Some (Text (nothing_found kind))).
Proof.
  intros Henv.
  assert (Hsample : forall s entry,
            query = PyStr s -> SAMPLE_GEOCODING_DATA !! digits_only s = Some entry ->
            exists r h',
              geocode env query h = (Ok r, h')
              /\ (GeoResult.success r = true <->
                  exists s entry,
                    query = PyStr s /\ SAMPLE_GEOCODING_DATA !! digits_only s = Some entry)
              /\ (GeoResult.success r = false ->
                  exists kind,
                    classified query kind
                    /\ GeoResult.error r = Some (Text (nothing_found kind)))).
  { intros s entry -> Hin.
    destruct (geocode_sample env s entry h Hin) as (r & Hg & (Hs & _) & _).
    exists r, h. split; [exact Hg|]. split; [|congruence].
    split; [eauto|trivial]. }
  assert (Hfail : forall kind r h',
            classified query kind ->
            geocode env query h = (Ok r, h') ->
            GeoResult.success r = false ->
            GeoResult.error r = Some (Text (nothing_found kind)) ->
            (forall s entry, query = PyStr s ->
                             SAMPLE_GEOCODING_DATA !! digits_only s = Some entry -> False) ->
            exists r h',
              geocode env query h = (Ok r, h')
              /\ (GeoResult.success r = true <->
                  exists s entry,
                    query = PyStr s /\ SAMPLE_GEOCODING_DATA !! digits_only s = Some entry)
              /\ (GeoResult.success r = false ->
                  exists kind,
                    classified query kind
                    /\ GeoResult.error r = Some (Text (nothing_found kind)))).
  { intros kind r h' Hk Hg Hs He Hno. exists r, h'. split; [exact Hg|]. split.
    - split; [congruence|]. intros (s & entry & Hq & Hin). now destruct (Hno s entry).
    - intros _. now exists kind. }
  destruct (GeocoderFacts.every_query_classified query) as [kind Hk].
  pose proof (GeocoderFacts.geocode_by_kind env query kind h Hk) as Hg.
  destruct Hk as [query Hq | s Hs H6 | s Hs H6 Hrun | s Hs H6 Hrun]; cbn [stripped] in Hg.
  - eapply (Hfail Unknown); [now constructor | exact Hg | reflexivity | reflexivity |].
    intros s entry -> Hin. cbn [no_text] in Hq.
    apply sample_is_postal_code in Hin. inversion Hin; subst. contradiction.
  - destruct (SAMPLE_GEOCODING_DATA !! digits_only s) as [entry|] eqn:Hin;
      [now apply (Hsample s entry)|].
    eapply (Hfail PostalCode); [now constructor | | | | ].
    + rewrite Hg. unfold geocode_postal_code, io_bind at 1, _create_result_dict.
      rewrite (GeocoderFacts.clean_postal_code_six_digits _ H6),
        GeocoderFacts.digits_only_strip.
      apply lookup_unreachable; [exact Henv | now rewrite strip_digits_only].
    + reflexivity.
    + reflexivity.
    + intros s' entry [= <-]. congruence.
  - assert (Hmiss : SAMPLE_GEOCODING_DATA !! strip s = None).
    { destruct (SAMPLE_GEOCODING_DATA !! strip s) as [entry|] eqn:Hin; [|reflexivity].
      destruct (sample_entry_spec _ _ Hin) as (_ & Hcount & _). contradiction. }
    eapply (Hfail Address); [now constructor | | | | ].
    + rewrite Hg. unfold geocode_address, io_bind at 1, _create_result_dict.
      rewrite (has_text_stripped s Hs). cbn [stripped].
      apply lookup_unreachable; [exact Henv | now rewrite !strip_idempotent].
    + reflexivity.
    + reflexivity.
    + intros s' entry [= <-] Hin. apply sample_is_postal_code in Hin.
      inversion Hin; subst. contradiction.
  - assert (Hmiss : SAMPLE_GEOCODING_DATA !! strip s = None).
    { destruct (SAMPLE_GEOCODING_DATA !! strip s) as [entry|] eqn:Hin; [|reflexivity].
      destruct (sample_entry_spec _ _ Hin) as (_ & Hcount & _). contradiction. }
    eapply (Hfail Building); [now constructor | | | | ].
    + rewrite Hg. unfold geocode_building, io_bind at 1, _create_result_dict.
      rewrite (has_text_stripped s Hs). cbn [stripped].
      apply lookup_unreachable; [exact Henv | now rewrite !strip_idempotent].
    + reflexivity.
    + reflexivity.
    + intros s' entry [= <-] Hin. apply sample_is_postal_code in Hin.
      inversion Hin; subst. contradiction.
Qed.

Lemma unreachable_network_witness :
  exists r h',
    geocode Examples.offline (PyStr "Sentosa Island") [] = (Ok r, h')
    /\ (GeoResult.success r = true <->
        exists s entry,
          PyStr "Sentosa Island" = PyStr s
          /\ SAMPLE_GEOCODING_DATA !! digits_only s = Some entry)
    /\ (GeoResult.success r = false ->
        exists kind,
          classified (PyStr "Sentosa Island") kind
          /\ GeoResult.error r = Some (Text (nothing_found kind))).
Proof.
  apply (unreachable_network_leaves_the_samples Examples.offline).
  intros h searchVal data. discriminate.
Defined.

(** ** When a lookup raises *)

Lemma py_float_raises v e :
  py_float v = Raise e ->
  e = ValueError \/ e = TypeError \/ (e = OverflowError /\ out_of_range v = true).
Proof.
  destruct v as [|b|z|f|s|l|d]; unfold py_float, out_of_range.
  - intros [= <-]. auto.
  - discriminate.
  - cbv zeta. destruct (Float.is_infinity (Float.round_Z z)); [|discriminate].
    intros [= <-]. right. right. now split.
  - discriminate.
  - destruct (Float.of_string s); [discriminate|]. intros [= <-]. auto.
  - intros [= <-]. auto.
  - intros [= <-]. auto.
Qed.

Lemma extract_coordinates_raises geocoding_result e :
  truthy geocoding_result = true ->
  _extract_coordinates geocoding_result = Raise e ->
  usable geocoding_result = false /\ (e = AttributeError \/ e = OverflowError).
Proof.
  intros Ht. unfold usable. rewrite Ht. cbn [negb orb]. unfold _extract_coordinates.
  destruct geocoding_result as [| | | | | |d].
  1-6: intros [= <-]; auto.
  destruct (py_float (dict_get d "LATITUDE" (PyInt 0))) as [la|e1] eqn:Hla.
  - destruct (py_float (dict_get d "LONGITUDE" (PyInt 0))) as [lo|e2] eqn:Hlo.
    + cbn. destruct (Bounds.contains _ _ _); discriminate.
    + apply py_float_raises in Hlo as [-> | [-> | [-> Hout]]]; cbn; try discriminate.
      intros [= <-]. rewrite Hout, andb_false_r. auto.
  - apply py_float_raises in Hla as [-> | [-> | [-> Hout]]]; cbn; try discriminate.
    intros [= <-]. rewrite Hout. auto.
Qed.

Lemma lookup_raises env searchVal with_postal not_found result h e h' :
  lookup env searchVal with_postal not_found result h = (Raise e, h') ->
  exists geocoding_result,
    _make_api_call env searchVal h = (Ok geocoding_result, h')
    /\ truthy geocoding_result = true
    /\ usable geocoding_result = false
    /\ (e = AttributeError \/ e = TypeError \/ e = OverflowError).
Proof.
  unfold lookup, io_bind at 1. intros H.
  destruct (_make_api_call env searchVal h) as [[gr|e'] h1] eqn:Hcall.
  2: { rewrite make_api_call_cases in Hcall.
       destruct (SAMPLE_GEOCODING_DATA !! strip searchVal); discriminate. }
  exists gr. destruct (truthy gr) eqn:Ht; [|discriminate].
  unfold io_bind at 1, io_lift at 1 in H.
  destruct (_extract_coordinates gr) as [[c|]|e1] eqn:Hc; [| discriminate |].
  - destruct with_postal; [|discriminate].
    unfold io_bind, io_lift in H. cbn [GeoResult.set_found GeoResult.address] in H.
    apply extract_coordinates_cases in Hc as (d & -> & _).
    cbn [result_field] in H.
    assert (Hu : usable (PyDict d) = false
                 /\ postal_code_of_address (dict_get d "ADDRESS" (PyStr "")) = Raise TypeError).
    { unfold usable. rewrite Ht. cbn [negb orb].
      destruct (dict_get d "ADDRESS" (PyStr "")) as [| | | |a| |];
        try (split; [apply andb_false_r | reflexivity]).
      cbn [postal_code_of_address] in H. destruct (re_search_postal a); discriminate. }
    destruct Hu as [Hu Hp]. rewrite Hp in H. injection H as <- <-.
    repeat split; auto.
  - injection H as <- <-.
    destruct (extract_coordinates_raises gr e1 Ht Hc) as [Hu [-> | ->]];
      repeat split; auto.
Qed.

Lemma geocode_raises_in_lookup env query h e h' :
  geocode env query h = (Raise e, h') ->
  exists searchVal with_postal not_found result,
    strip searchVal = search_value query
    /\ lookup env searchVal with_postal not_found result h = (Raise e, h').
Proof.
  unfold geocode. destruct (empty_or_non_string query) eqn:Hq; [discriminate|].
  destruct query as [| | | |s| |];
    try (unfold empty_or_non_string in Hq; rewrite orb_true_r in Hq; discriminate).
  apply has_text in Hq. cbn [stripped search_value].
  destruct (validate_postal_code (PyStr (strip s))) eqn:Hv.
  - unfold geocode_postal_code, io_bind at 1, _create_result_dict.
    rewrite (clean_of_valid _ Hv), GeocoderFacts.digits_only_strip. intros H.
    eexists _, _, _, _. split; [|exact H]. apply strip_digits_only.
  - destruct (re_search_postal (strip s)).
    + unfold geocode_address, io_bind at 1, _create_result_dict.
      rewrite (has_text_stripped s Hq). cbn [stripped]. intros H.
      eexists _, _, _, _. split; [|exact H]. now rewrite !strip_idempotent.
    + unfold geocode_building, io_bind at 1, _create_result_dict.
      rewrite (has_text_stripped s Hq). cbn [stripped]. intros H.
      eexists _, _, _, _. split; [|exact H]. now rewrite !strip_idempotent.
Qed.

(** X21: [geocode] raises only on a malformed answer of OneMap. When it
    raises, it has made its one request, the answer had the status 200 and
    a JSON body, and the first result of that body is not usable: it is no
    dictionary, or carries an integer coordinate beyond the float range,
    or an address that is no string. The exception is an
    [AttributeError], a [TypeError] or an [OverflowError]. *)
Theorem geocode_raises_only_on_malformed_answer env query h e h' :
  geocode env query h = (Raise e, h') ->
  h' = h ++ [HttpGet (search_value query)]
  /\ (exists data,
        Env.requests_get env h (search_value query) = HttpResponse 200 (Some data)
        /\ truthy (first_result data) = true
        /\ usable (first_result data) = false)
  /\ (e = AttributeError \/ e = TypeError \/ e = OverflowError).
Proof.
  intros (searchVal & wp & nf & result & Hsv & Hl)%geocode_raises_in_lookup.
  apply lookup_raises in Hl as (gr & Hcall & Ht & Hu & He).
  rewrite make_api_call_cases, Hsv in Hcall.
  destruct (SAMPLE_GEOCODING_DATA !! search_value query) as [entry|] eqn:Hin.
  - injection Hcall as <- <-.
    pose proof (GeocoderFacts.sample_entries_usable _ _ Hin) as Hentry.
    cbn beta in Hentry. congruence.
  - injection Hcall as <- <-. split; [reflexivity|]. split; [|exact He].
    destruct (Env.requests_get env h (search_value query)) as [|status [data|]];
      try discriminate.
    destruct (Z.eqb_spec status 200%Z) as [->|Hne]; [|discriminate].
    exists data. auto.
Qed.

Lemma geocode_raises_witness :
  [HttpGet "VivoCity"] = [] ++ [HttpGet (search_value (PyStr "VivoCity"))]
  /\ (exists data,
        Env.requests_get Scenarios.garbled [] (search_value (PyStr "VivoCity"))
        = HttpResponse 200 (Some data)
        /\ truthy (first_result data) = true
        /\ usable (first_result data) = false)
  /\ (AttributeError = AttributeError \/ AttributeError = TypeError
      \/ AttributeError = OverflowError).
Proof.
  apply (geocode_raises_only_on_malformed_answer Scenarios.garbled (PyStr "VivoCity") []).
  vm_compute. reflexivity.
Defined.

(** ** The pace of a batch *)

Lemma geocode_added env query h out h1 :
  geocode env query h = (out, h1) ->
  exists g, h1 = h ++ g /\ (g = [] \/ exists searchVal, g = [HttpGet searchVal]).
Proof.
  intros H. apply (f_equal snd) in H. rewrite geocode_history in H. cbn [snd] in H.
  destruct (empty_or_non_string query); [exists []; now rewrite app_nil_r; auto|].
  destruct (SAMPLE_GEOCODING_DATA !! search_value query).
  - exists []. rewrite app_nil_r. auto.
  - eexists. split; [symmetry; exact H|]. eauto.
Qed.

Lemma sequential_run_events env delay queries h rs h' :
  sequential_run env delay queries h rs h' ->
  exists added,
    h' = h ++ added
    /\ pauses added = length queries - 1
    /\ requests added <= length queries
    /\ paced added = true
    /\ Forall (fun e => is_request e = true \/ e = Sleep delay) added.
Proof.
  induction 1 as [h | query h r h' Hg
                 | query queries h r h1 rs h2 Hne Hg Hs Hrun (added & -> & Hp & Hr & Hpaced & Hall)].
  - exists []. rewrite app_nil_r. repeat split; auto.
  - apply geocode_added in Hg as (g & -> & [-> | [q ->]]); eexists; (split; [reflexivity|]);
      repeat split; auto. repeat constructor.
  - apply geocode_added in Hg as (g & -> & Hg).
    exists (g ++ Sleep delay :: added). rewrite <- !app_assoc. split; [reflexivity|].
    assert (Hlen : length queries <> 0) by now destruct queries.
    unfold pauses, requests in *.
    destruct Hg as [-> | [q ->]]; cbn [app List.filter is_request negb length paced];
      repeat split; try lia; try exact Hpaced.
    + constructor; [now right | exact Hall].
    + constructor; [now left|]. constructor; [now right | exact Hall].
Qed.

(** X22: the pace of a batch. When [batch_geocode] returns, what it added
    to the history holds one pause less than there are queries, each of
    the given delay, and at most one request per query; no two requests
    follow each other without a pause in between. *)
Theorem batch_geocode_paces_its_requests env queries delay h df h' :
  batch_geocode env queries delay h = (Ok df, h') ->
  exists added,
    h' = h ++ added
    /\ pauses added = length queries - 1
    /\ requests added <= length queries
    /\ paced added = true
    /\ Forall (fun e => is_request e = true \/ e = Sleep delay) added.
Proof.
  unfold batch_geocode. intros H.
  apply GeocoderFacts.batch_loop_spec in H as (rs & _ & Hrun); [|reflexivity].
  now apply sequential_run_events in Hrun.
Qed.

Lemma batch_pace_witness :
  exists df h',
    batch_geocode Examples.online [PyStr "VivoCity"; PyStr "238874"; PyStr "Sentosa Island"]
      Examples.half_second [] = (Ok df, h')
    /\ exists added,
         h' = [] ++ added
         /\ pauses added = 3 - 1
         /\ requests added <= 3
         /\ paced added = true
         /\ Forall (fun e => is_request e = true \/ e = Sleep Examples.half_second) added.
Proof.
  eexists. eexists.
  assert (H : batch_geocode Examples.online
                [PyStr "VivoCity"; PyStr "238874"; PyStr "Sentosa Island"]
                Examples.half_second [] = (Ok _, _)) by (vm_compute; reflexivity).
  split; [exact H | exact (batch_geocode_paces_its_requests _ _ _ _ _ _ H)].
Defined.

End LookupFacts.

(** * The two bounding boxes *)

Module BoundsFacts.

Import Spec.
Local Open Scope Z_scope.

(** ** The order of floats *)

Lemma compare_cont_Eq m1 m2 : PosDef.Pos.compare_cont Eq m1 m2 = Pos.compare m1 m2.
Proof. reflexivity. Qed.

Lemma leb_float_trans x y z :
  Float.leb x y = true -> Float.leb y z = true -> Float.leb x z = true.
Proof.
  unfold Float.leb, SFleb, SFcompare.
  destruct x as [sx|sx| |sx mx ex], y as [sy|sy| |sy my ey], z as [sz|sz| |sz mz ez];
    try discriminate; try reflexivity;
    try (destruct sx, sy, sz; intros; first [discriminate | reflexivity]);
    try (destruct sx, sy; intros; first [discriminate | reflexivity]);
    try (destruct sx, sz; intros; first [discriminate | reflexivity]);
    try (destruct sy, sz; intros; first [discriminate | reflexivity]).
  all: destruct sx, sy, sz; try discriminate; try reflexivity.
  all: intros H1 H2; rewrite ?compare_cont_Eq in *.
  all: destruct (Z.compare_spec ex ey), (Z.compare_spec ey ez), (Z.compare_spec ex ez);
    try lia; try discriminate; try reflexivity; subst.
  all: destruct (Pos.compare_spec mx my), (Pos.compare_spec my mz),
         (Pos.compare_spec mx mz); try lia; try discriminate; try reflexivity.
Qed.

(** A box inside another one contains no point the other does not. *)
Lemma contains_monotone inner outer latitude longitude :
  Float.leb (Bounds.lat_min outer) (Bounds.lat_min inner) = true ->
  Float.leb (Bounds.lat_max inner) (Bounds.lat_max outer) = true ->
  Float.leb (Bounds.lon_min outer) (Bounds.lon_min inner) = true ->
  Float.leb (Bounds.lon_max inner) (Bounds.lon_max outer) = true ->
  Bounds.contains inner latitude longitude = true ->
  Bounds.contains outer latitude longitude = true.
Proof.
  unfold Bounds.contains. intros H1 H2 H3 H4.
  intros [[Ha Hb]%andb_prop [Hc Hd]%andb_prop]%andb_prop.
  rewrite (leb_float_trans _ _ _ H1 Ha), (leb_float_trans _ _ _ Hb H2),
    (leb_float_trans _ _ _ H3 Hc), (leb_float_trans _ _ _ Hd H4).
  reflexivity.
Qed.

(** X23: the Singapore box of the geocoder lies inside the box of the
    lightning service: coordinates that [is_valid_singapore_coordinates]
    accepts are counted as inside Singapore by the lightning tally. The
    centre [get_singapore_center] returns is valid, and is the centre the
    lightning service uses. *)
Theorem geocoder_box_lies_in_lightning_box latitude longitude :
  (SingaporeGeocoder.is_valid_singapore_coordinates latitude longitude = true ->
   Bounds.contains LightningService.singapore_bounds latitude longitude = true)
  /\ SingaporeGeocoder.is_valid_singapore_coordinates
       (fst GeocoderCentre.get_singapore_center)
       (snd GeocoderCentre.get_singapore_center) = true
  /\ GeocoderCentre.get_singapore_center
     = (Bounds.center_lat LightningService.singapore_bounds,
        Bounds.center_lon LightningService.singapore_bounds).
Proof.
  split; [|split; vm_compute; reflexivity].
  apply contains_monotone; vm_compute; reflexivity.
Qed.

End BoundsFacts.

(** * The method picked for a query of any code points *)

Module DispatchFacts.

Import SingaporeGeocoder.
Import Spec.
Local Open Scope nat_scope.

(** ** Texts of any code points *)

Section AnyDatabase.

Variable db : Unicode.database.

Lemma wide_strip_fixed l :
  from_option (Unicode.isspace db) false (head l) = false ->
  from_option (Unicode.isspace db) false (last l) = false ->
  Unicode.strip db l = l.
Proof.
  intros Hh Hl. unfold Unicode.strip.
  rewrite (TextFacts.drop_while_fixed _ l Hh).
  rewrite (TextFacts.drop_while_fixed _ (rev l)) by now rewrite TextFacts.head_rev.
  apply rev_involutive.
Qed.

Lemma wide_strip_ends l :
  from_option (Unicode.isspace db) false (head (Unicode.strip db l)) = false
  /\ from_option (Unicode.isspace db) false (last (Unicode.strip db l)) = false.
Proof.
  unfold Unicode.strip. set (p := Unicode.isspace db). set (a := drop_while p l).
  split.
  - rewrite TextFacts.head_rev.
    destruct (TextFacts.drop_while_suffix p (rev a)) as [pre Hpre].
    destruct (drop_while p (rev a)) as [|x b] eqn:Hb; [reflexivity|].
    assert (Hlast : last (x :: b) = last (rev a)).
    { rewrite Hpre. now rewrite last_app_cons. }
    rewrite Hlast, TextFacts.last_rev. apply TextFacts.drop_while_head.
  - rewrite TextFacts.last_rev. apply TextFacts.drop_while_head.
Qed.

(** Stripping twice is stripping once. *)
Lemma wide_strip_idempotent l :
  Unicode.strip db (Unicode.strip db l) = Unicode.strip db l.
Proof. destruct (wide_strip_ends l). now apply wide_strip_fixed. Qed.

Lemma ascii_digit_not_line_feed c :
  Unicode.is_ascii_digit c = true -> (c =? 10)%N = false.
Proof.
  unfold Unicode.is_ascii_digit. intros [H _]%andb_prop.
  apply N.leb_le in H. apply N.eqb_neq. lia.
Qed.

Hypothesis Hdb : Unicode.wellformed db.

Lemma decimal_is_word c : Unicode.isdecimal db c = true -> Unicode.is_word db c = true.
Proof. intros H. unfold Unicode.is_word. now rewrite (proj2 Hdb c H). Qed.

(** On a text of the characters [0] to [9] the postal-code pattern asks
    for the length. *)
Lemma wide_match_postal_code_regex_digits l :
  forallb Unicode.is_ascii_digit l = true ->
  Unicode.match_postal_code_regex db l = (length l =? 6).
Proof.
  unfold Unicode.match_postal_code_regex. intros Hd.
  assert (Hdec : forallb (Unicode.isdecimal db) l = true).
  { rewrite forallb_forall in Hd. apply forallb_forall. intros c Hc.
    apply (proj1 Hdb), Hd, Hc. }
  assert (Hf : forallb (Unicode.isdecimal db) (firstn 6 l) = true).
  { rewrite <- (firstn_skipn 6 l), forallb_app in Hdec. now apply andb_prop in Hdec. }
  rewrite Hf. cbn [andb].
  destruct l as [|c1 [|c2 [|c3 [|c4 [|c5 [|c6 [|c7 [|c8 l]]]]]]]]; try reflexivity.
  cbn. apply ascii_digit_not_line_feed.
  rewrite forallb_forall in Hd. apply Hd. cbn. tauto.
Qed.

(** [validate_postal_code] accepts a stripped text exactly when six of
    its characters are among [0] to [9]. *)
Lemma wide_validate_postal_code_six_digits s :
  Unicode.strip db s <> [] ->
  Unicode.validate_postal_code db (Unicode.strip db s) = true
  <-> Unicode.six_ascii_digits (Unicode.strip db s).
Proof.
  intros Hs. unfold Unicode.validate_postal_code, Unicode.six_ascii_digits.
  rewrite wide_strip_idempotent.
  destruct (Unicode.strip db s) as [|c t] eqn:E; [now destruct Hs|].
  unfold Unicode.digits_only.
  rewrite wide_match_postal_code_regex_digits by apply GeocoderFacts.forallb_filter.
  apply Nat.eqb_eq.
Qed.

(** *** The search for a postal code inside a text *)

Lemma wide_postal_run_here_spec before l run :
  Unicode.postal_run_here db before l = Some run <->
  exists post,
    l = run ++ post /\ length run = 6
    /\ Forall (fun c => Unicode.isdecimal db c = true) run
    /\ Unicode.not_word db before /\ Unicode.not_word db (head post).
Proof.
  unfold Unicode.postal_run_here, Unicode.not_word. split.
  - destruct (Unicode.word_boundary db before (head l)) eqn:Hb1; [|discriminate].
    destruct (forallb (Unicode.isdecimal db) (firstn 6 l)) eqn:Hd; [|discriminate].
    destruct (length (firstn 6 l) =? 6) eqn:Hlen; [|discriminate].
    destruct (Unicode.word_boundary db (nth_error (firstn 6 l) 5) (head (skipn 6 l)))
      eqn:Hb2; [|discriminate].
    cbn [andb]. intros [= <-]. exists (skipn 6 l).
    apply Nat.eqb_eq in Hlen. rewrite forallb_forall in Hd.
    assert (HF : Forall (fun c => Unicode.isdecimal db c = true) (firstn 6 l))
      by now apply List.Forall_forall.
    split; [now rewrite firstn_skipn|]. split; [exact Hlen|]. split; [exact HF|].
    destruct l as [|c1 [|c2 [|c3 [|c4 [|c5 [|c6 post]]]]]]; try discriminate Hlen.
    cbn in Hb1, Hb2, HF |- *. unfold Unicode.word_boundary in Hb1, Hb2. cbn in Hb1, Hb2.
    assert (H1 : Unicode.is_word db c1 = true).
    { apply decimal_is_word. now inversion HF. }
    assert (H6 : Unicode.is_word db c6 = true).
    { apply decimal_is_word. do 5 (apply Forall_inv_tail in HF). now inversion HF. }
    rewrite ?H1 in Hb1. rewrite ?H6 in Hb2.
    change (skipn 0 post) with post in *.
    split.
    + destruct (from_option (Unicode.is_word db) false before);
        [cbn in Hb1; discriminate | reflexivity].
    + destruct (from_option (Unicode.is_word db) false (head post));
        [cbn in Hb2; discriminate | reflexivity].
  - intros (post & -> & Hlen & HF & Hb & Ha).
    destruct run as [|c1 [|c2 [|c3 [|c4 [|c5 [|c6 [|]]]]]]]; try discriminate Hlen.
    cbn [app firstn skipn head nth_error length Nat.eqb].
    assert (Hd : forallb (Unicode.isdecimal db) [c1; c2; c3; c4; c5; c6] = true).
    { apply forallb_forall. now apply List.Forall_forall. }
    rewrite firstn_O, skipn_O.
    rewrite Hd. unfold Unicode.word_boundary. rewrite Hb, Ha. cbn [from_option].
    rewrite (decimal_is_word c1), (decimal_is_word c6); [reflexivity | |].
    + do 5 (apply Forall_inv_tail in HF). now inversion HF.
    + now inversion HF.
Qed.

Lemma wide_search_postal_run_sound l :
  forall before run,
    Unicode.search_postal_run db before l = Some run -> Unicode.run_in db before l run.
Proof.
  induction l as [|c l IH]; intros before run H; cbn [Unicode.search_postal_run] in H.
  - destruct (Unicode.postal_run_here db before []) eqn:Hh; [|discriminate].
    injection H as ->. apply wide_postal_run_here_spec in Hh as (post & Hl & Hlen & _).
    destruct run; [discriminate Hlen | discriminate Hl].
  - destruct (Unicode.postal_run_here db before (c :: l)) as [run'|] eqn:Hh.
    + injection H as ->.
      apply wide_postal_run_here_spec in Hh as (post & Hl & Hlen & HF & Hb & Ha).
      exists [], post. now repeat split.
    + apply IH in H as (pre & post & -> & Hlen & HF & Hb & Ha).
      exists (c :: pre), post. repeat split; trivial.
      rewrite last_cons. now destruct (last pre).
Qed.

Lemma wide_search_postal_run_complete before l run :
  Unicode.run_in db before l run ->
  exists run', Unicode.search_postal_run db before l = Some run'.
Proof.
  intros (pre' & post & -> & Hlen & HF & Hb & Ha).
  revert before Hb. induction pre' as [|c pre' IH]; intros before Hb.
  - assert (Hh : Unicode.postal_run_here db before (run ++ post) = Some run).
    { apply wide_postal_run_here_spec. exists post. now repeat split. }
    exists run. destruct run; [discriminate Hlen|].
    cbn [app Unicode.search_postal_run] in *. now rewrite Hh.
  - cbn [app Unicode.search_postal_run].
    destruct (Unicode.postal_run_here db before (c :: pre' ++ run ++ post)) as [run'|];
      [eauto|].
    apply IH. rewrite last_cons in Hb. now destruct (last pre').
Qed.

(** The search finds a match exactly when the text holds a standalone run
    of six decimal digits. *)
Lemma wide_re_search_postal_spec s :
  (exists code, Unicode.re_search_postal db s = Some code)
  <-> Unicode.has_standalone_run db s.
Proof.
  unfold Unicode.re_search_postal, Unicode.has_standalone_run, Unicode.standalone_run.
  split.
  - intros [code H].
    apply wide_search_postal_run_sound in H as (pre & post & Hl & Hlen & HF & Hb & Ha).
    exists code, pre, post. repeat split; trivial. now destruct (last pre).
  - intros (run & pre & post & Hl & Hlen & HF & Hb & Ha).
    apply (wide_search_postal_run_complete None s run).
    exists pre, post. repeat split; trivial. now destruct (last pre).
Qed.

Lemma wide_re_search_postal_none s :
  Unicode.re_search_postal db s = None <-> ~ Unicode.has_standalone_run db s.
Proof.
  rewrite <- wide_re_search_postal_spec.
  destruct (Unicode.re_search_postal db s); split.
  - intros [=].
  - intros H. exfalso. eauto.
  - intros _ [code [=]].
  - reflexivity.
Qed.

(** The method [geocode] picks, class by class. *)
Lemma wide_geocode_by_kind query kind :
  Unicode.classified db query kind ->
  Unicode.geocode db query = Unicode.handled kind (Unicode.stripped db query).
Proof.
  intros Hk. unfold Unicode.geocode.
  assert (Hne : forall s, Unicode.strip db s <> [] ->
                  Unicode.is_empty s || Unicode.is_empty (Unicode.strip db s) = false).
  { intros s Hs. destruct s as [|c s]; [now destruct Hs|].
    cbn [Unicode.is_empty orb]. now destruct (Unicode.strip db (c :: s)). }
  destruct Hk as [query Hq | s Hs H6 | s Hs H6 Hrun | s Hs H6 Hrun];
    cbn [Unicode.handled Unicode.stripped].
  - destruct query as [s|]; [|reflexivity].
    cbn [Unicode.no_text] in Hq. rewrite Hq. cbn [Unicode.is_empty].
    now rewrite orb_true_r.
  - rewrite (Hne s Hs).
    apply (wide_validate_postal_code_six_digits s Hs) in H6. now rewrite H6.
  - rewrite (Hne s Hs).
    destruct (Unicode.validate_postal_code db (Unicode.strip db s)) eqn:Hv.
    + now apply (wide_validate_postal_code_six_digits s Hs) in Hv.
    + apply wide_re_search_postal_spec in Hrun as [code ->]. reflexivity.
  - rewrite (Hne s Hs).
    destruct (Unicode.validate_postal_code db (Unicode.strip db s)) eqn:Hv.
    + now apply (wide_validate_postal_code_six_digits s Hs) in Hv.
    + apply wide_re_search_postal_none in Hrun. now rewrite Hrun.
Qed.

(** Every query falls in one class. *)
Lemma wide_every_query_classified query : exists kind, Unicode.classified db query kind.
Proof.
  destruct query as [s|]; [|exists Unknown; now constructor].
  destruct (Unicode.strip db s) as [|c t] eqn:Hs.
  - exists Unknown. now constructor.
  - assert (Hne : Unicode.strip db s <> []) by now rewrite Hs.
    clear Hs.
    destruct (Unicode.validate_postal_code db (Unicode.strip db s)) eqn:Hv.
    + exists PostalCode. constructor; [exact Hne|].
      now apply wide_validate_postal_code_six_digits.
    + assert (H6 : ~ Unicode.six_ascii_digits (Unicode.strip db s)).
      { intros H6%wide_validate_postal_code_six_digits; [congruence | exact Hne]. }
      destruct (Unicode.re_search_postal db (Unicode.strip db s)) as [code|] eqn:Hr.
      * exists Address. constructor; trivial. apply wide_re_search_postal_spec. eauto.
      * exists Building. constructor; trivial. now apply wide_re_search_postal_none.
Qed.

(** Six full-width digits hold none of the characters [0] to [9]: in
    every database that has them as decimal digits, they are looked up as
    an address. *)
Lemma fullwidth_digits_are_an_address :
  (forall c, Fullwidth.is_digit c = true ->
             Unicode.isdecimal db c = true /\ Unicode.isspace db c = false) ->
  Unicode.geocode db (Some Fullwidth.postal_code)
  = Unicode.AddressLookup Fullwidth.postal_code.
Proof.
  intros Hfw.
  assert (HF : Forall (fun c => Fullwidth.is_digit c = true) Fullwidth.postal_code)
    by (repeat constructor).
  assert (Hs : Unicode.strip db Fullwidth.postal_code = Fullwidth.postal_code).
  { apply wide_strip_fixed; cbn; now apply Hfw. }
  rewrite <- Hs at 2.
  apply (wide_geocode_by_kind (Some Fullwidth.postal_code) Address).
  apply Unicode.classified_address; rewrite Hs.
  - discriminate.
  - discriminate.
  - exists Fullwidth.postal_code, [], []. repeat split.
    eapply List.Forall_impl; [|exact HF]. intros c Hc. now apply Hfw.
Qed.

End AnyDatabase.

(** ** Texts below code point 256 *)

Lemma drop_while_map {A B} (f : A -> B) (p : B -> bool) (q : A -> bool) l :
  (forall x, p (f x) = q x) ->
  drop_while p (List.map f l) = List.map f (drop_while q l).
Proof.
  intros Hpq. induction l as [|x l IH]; [reflexivity|].
  cbn. rewrite Hpq. now destruct (q x).
Qed.

Lemma filter_map_count {A B} (f : A -> B) (p : B -> bool) (q : A -> bool) l :
  (forall x, p (f x) = q x) ->
  length (List.filter p (List.map f l)) = length (List.filter q l).
Proof.
  intros Hpq. induction l as [|x l IH]; [reflexivity|].
  cbn. rewrite Hpq. destruct (q x); cbn; now rewrite IH.
Qed.

Lemma head_map {A B} (f : A -> B) l : head (List.map f l) = option_map f (head l).
Proof. now destruct l. Qed.

Lemma last_map {A B} (f : A -> B) l : last (List.map f l) = option_map f (last l).
Proof.
  induction l as [|x l IH]; [reflexivity|].
  cbn [List.map]. rewrite !last_cons, IH. now destruct (last l).
Qed.

Lemma codes_nil s : Unicode.codes s = [] <-> s = ""%string.
Proof.
  unfold Unicode.codes. split; [|now intros ->].
  now destruct s.
Qed.

Section Latin1.

Variable db : Unicode.database.
Hypothesis Hl1 : Unicode.latin1 db.

Lemma latin1_space c : Unicode.isspace db (Char.code c) = Char.is_space c.
Proof. apply Hl1. Qed.

Lemma latin1_decimal c : Unicode.isdecimal db (Char.code c) = Char.is_digit c.
Proof. apply Hl1. Qed.

Lemma latin1_word c : Unicode.is_word db (Char.code c) = Char.is_word c.
Proof. apply Hl1. Qed.

(** Stripping the code points of a string strips the string. *)
Lemma strip_codes s : Unicode.strip db (Unicode.codes s) = Unicode.codes (strip s).
Proof.
  unfold Unicode.strip, Unicode.codes, strip, strip_with.
  rewrite GeocoderFacts.chars_of_chars.
  rewrite (drop_while_map Char.code _ Char.is_space) by apply latin1_space.
  rewrite <- map_rev.
  rewrite (drop_while_map Char.code _ Char.is_space) by apply latin1_space.
  now rewrite <- map_rev.
Qed.

Lemma six_digits_codes s : Unicode.six_ascii_digits (Unicode.codes s) <-> six_digits s.
Proof.
  unfold Unicode.six_ascii_digits, six_digits, digit_count, Unicode.codes.
  now rewrite (filter_map_count Char.code _ Char.is_digit).
Qed.

Lemma not_word_codes (c : option ascii) :
  Unicode.not_word db (option_map Char.code c) <-> not_word c.
Proof.
  unfold Unicode.not_word, not_word.
  destruct c as [c|]; cbn; [now rewrite latin1_word | reflexivity].
Qed.

Lemma decimal_codes run :
  Forall (fun c => Unicode.isdecimal db c = true) (List.map Char.code run)
  <-> Forall (fun c => Char.is_digit c = true) run.
Proof.
  rewrite List.Forall_map. split; apply List.Forall_impl; intros c;
    now rewrite latin1_decimal.
Qed.

Lemma standalone_run_codes s :
  Unicode.has_standalone_run db (Unicode.codes s) <-> has_standalone_run s.
Proof.
  unfold Unicode.has_standalone_run, Unicode.standalone_run, has_standalone_run,
    standalone_run, Unicode.codes.
  split.
  - intros (run & pre & post & Hs & Hlen & HF & Hb & Ha).
    apply List.map_eq_app in Hs as (pre' & rest & Hs & <- & Hrest).
    apply List.map_eq_app in Hrest as (run' & post' & -> & <- & <-).
    exists run', pre', post'.
    rewrite length_map in Hlen. rewrite last_map in Hb. rewrite head_map in Ha.
    split; [exact Hs|]. split; [exact Hlen|]. split; [now apply decimal_codes|].
    split; now apply not_word_codes.
  - intros (run & pre & post & Hs & Hlen & HF & Hb & Ha).
    exists (List.map Char.code run), (List.map Char.code pre), (List.map Char.code post).
    rewrite Hs, !map_app, length_map, last_map, head_map.
    split; [reflexivity|]. split; [exact Hlen|]. split; [now apply decimal_codes|].
    split; now apply not_word_codes.
Qed.

Lemma strip_codes_nil s : Unicode.strip db (Unicode.codes s) = [] <-> strip s = ""%string.
Proof. rewrite strip_codes. apply codes_nil. Qed.

(** The class of the code points of a query is the class of the query. *)
Lemma classified_codes v kind :
  Unicode.classified db (Unicode.of_pyval v) kind -> classified v kind.
Proof.
  intros Hk. remember (Unicode.of_pyval v) as query eqn:Hq.
  destruct Hk as [query Hn | t Ht H6 | t Ht H6 Hrun | t Ht H6 Hrun].
  - apply classified_unknown. subst query.
    destruct v as [| | | |s| |]; cbn; trivial. now apply strip_codes_nil.
  - destruct v as [| | | |s| |]; try discriminate Hq. injection Hq as ->.
    rewrite strip_codes in H6. apply classified_postal_code.
    + intros He. now apply Ht, strip_codes_nil.
    + now apply six_digits_codes.
  - destruct v as [| | | |s| |]; try discriminate Hq. injection Hq as ->.
    rewrite strip_codes in H6, Hrun. apply classified_address.
    + intros He. now apply Ht, strip_codes_nil.
    + intros H. now apply H6, six_digits_codes.
    + now apply standalone_run_codes.
  - destruct v as [| | | |s| |]; try discriminate Hq. injection Hq as ->.
    rewrite strip_codes in H6, Hrun. apply classified_building.
    + intros He. now apply Ht, strip_codes_nil.
    + intros H. now apply H6, six_digits_codes.
    + intros H. now apply Hrun, standalone_run_codes.
Qed.

End Latin1.

(** ** The sample database *)

Lemma code_below_256 c : (Char.code c <? 256)%N = true.
Proof.
  destruct c as [b0 b1 b2 b3 b4 b5 b6 b7].
  destruct b0, b1, b2, b3, b4, b5, b6, b7; reflexivity.
Qed.

Lemma digit_is_alnum c :
  Char.is_digit c = true -> Char.is_word c && negb (Char.code c =? 95)%N = true.
Proof.
  destruct c as [b0 b1 b2 b3 b4 b5 b6 b7].
  destruct b0, b1, b2, b3, b4, b5, b6, b7; vm_compute; congruence.
Qed.

Lemma sample_database_latin1 : Unicode.latin1 Fullwidth.database.
Proof.
  intros c. unfold Unicode.is_word. cbn [Fullwidth.database Unicode.isspace Unicode.isdecimal Unicode.isalnum].
  rewrite code_below_256. unfold Char.code at 1 2 3. rewrite ascii_N_embedding.
  repeat split.
  destruct c as [b0 b1 b2 b3 b4 b5 b6 b7].
  destruct b0, b1, b2, b3, b4, b5, b6, b7; reflexivity.
Qed.

Lemma sample_database_wellformed : Unicode.wellformed Fullwidth.database.
Proof.
  split; intros c; cbn [Fullwidth.database Unicode.isspace Unicode.isdecimal Unicode.isalnum].
  - unfold Unicode.is_ascii_digit. intros [H1 H2]%andb_prop.
    apply N.leb_le in H1, H2.
    assert (Hc : (c <? 256)%N = true) by (apply N.ltb_lt; lia). rewrite Hc.
    unfold Char.is_digit, Char.in_range, Char.code.
    rewrite N_ascii_embedding by lia.
    apply andb_true_intro; split; now apply N.leb_le.
  - destruct (c <? 256)%N eqn:Hc; [|trivial].
    intros Hd. pose proof (digit_is_alnum _ Hd) as H.
    unfold Char.code in H at 1. rewrite N_ascii_embedding in H by now apply N.ltb_lt.
    exact H.
Qed.

(** ** The dispatch *)

(** C6, amended: [geocode] classifies its query by first match. A query
    that is empty, holds white space only or is no string is answered at
    once with the type [unknown] and an error. Otherwise the query is
    stripped: if six of its characters are among [0] to [9], whatever the
    others are, it is handed to [geocode_postal_code]; else if it holds a
    run of exactly six decimal digits, of any script, with no word
    character on either side, to [geocode_address]; else to
    [geocode_building]. This holds of a query of any code points and of
    every Unicode database that has the characters [0] to [9] among its
    decimal digits and its decimal digits among its alphanumerics. For a
    query below code point 256 the result is that of the method in the
    embedding of the geocoder: a query of class [unknown] leaves the
    history as it is (no request, no table lookup), and the result
    carries the ['query_type'] of its class. *)
Theorem geocode_dispatch db query kind :
  Unicode.wellformed db ->
  Unicode.classified db query kind ->
  Unicode.geocode db query = Unicode.handled kind (Unicode.stripped db query)
  /\ forall env v h,
       Unicode.latin1 db -> Unicode.of_pyval v = query ->
       geocode env v h
       = match kind with
         | Unknown =>
             (Ok {| GeoResult.query := v;
                    GeoResult.query_type := "unknown";
                    GeoResult.success := false;
                    GeoResult.latitude := None;
                    GeoResult.longitude := None;
                    GeoResult.address := PyNone;
                    GeoResult.building := PyNone;
                    GeoResult.road := PyNone;
                    GeoResult.postal_code := None;
                    GeoResult.error :=
                      Some (Text "Invalid query: empty or non-string input");
                    GeoResult.timestamp := Env.now env h |}, h)
         | PostalCode => geocode_postal_code env (PyStr (stripped v)) h
         | Address => geocode_address env (PyStr (stripped v)) h
         | Building => geocode_building env (PyStr (stripped v)) h
         end
       /\ forall r h',
            geocode env v h = (Ok r, h') -> GeoResult.query_type r = kind_name kind.
Proof.
  intros Hdb Hk. split; [now apply wide_geocode_by_kind|].
  intros env v h Hl1 <-.
  apply (classified_codes db Hl1) in Hk.
  split; [now apply GeocoderFacts.geocode_by_kind|].
  intros r h'. now apply (GeocoderFacts.geocode_type_by_kind env v kind h r h').
Qed.

Lemma geocode_dispatch_witness :
  Unicode.geocode Fullwidth.database (Some Fullwidth.postal_code)
  = Unicode.AddressLookup Fullwidth.postal_code
  /\ geocode Examples.online (PyStr " 123 Example Rd, Singapore 238874 ") []
     = geocode_address Examples.online (PyStr "123 Example Rd, Singapore 238874") [].
Proof.
  split.
  - refine (proj1 (geocode_dispatch Fullwidth.database (Some Fullwidth.postal_code) Address
                     sample_database_wellformed _)).
    apply Unicode.classified_address.
    + discriminate.
    + discriminate.
    + apply wide_re_search_postal_spec; [exact sample_database_wellformed|].
      vm_compute. eauto.
  - refine (proj1 (proj2 (geocode_dispatch Fullwidth.database
                     (Unicode.of_pyval (PyStr " 123 Example Rd, Singapore 238874 "))
                     Address sample_database_wellformed _)
                   Examples.online _ [] sample_database_latin1 eq_refl)).
    apply Unicode.classified_address.
    + discriminate.
    + discriminate.
    + apply wide_re_search_postal_spec; [exact sample_database_wellformed|].
      vm_compute. eauto.
Defined.

End DispatchFacts.
